(** * DSV4L2: a TEMPEST-gated capture layer over V4L2

    Shallow embedding of the device core (dsv4l2_core.c), the TEMPEST engine
    and policy gate (dsv4l2_tempest.c) and the profile loader
    (dsv4l2_profiles.c).

    Conventions of the embedding.
    - C integers are [Z]; 32-bit wrap-around is written out with [u32]/[i32].
    - A pointer argument is a [ptr]: [NULL] or the address of the object.
      The one device of a run lives in the [world]; out-parameters are
      returned next to the return code ([Some v] = "v was stored through
      the pointer").
    - The kernel behind [ioctl] and the allocator are an interface
      ([v4l2_driver]) over an abstract system state; every ioctl issued is
      appended to the world's trace.
    - Calls into the event runtime append an event to the world's ring. *)

From Stdlib Require Import ZArith List String Ascii Bool Lia.
Import ListNotations.
Local Open Scope string_scope.
Local Open Scope list_scope.
Local Open Scope Z_scope.

(** ** Machine integers and errno *)

Definition u32 (z : Z) : Z := z mod 2 ^ 32.
Definition u64 (z : Z) : Z := z mod 2 ^ 64.
Definition i32 (z : Z) : Z := (z + 2 ^ 31) mod 2 ^ 32 - 2 ^ 31.

Definition ENOENT : Z := 2.
Definition ENOMEM : Z := 12.
Definition EACCES : Z := 13.
Definition EINVAL : Z := 22.

Inductive ptr : Type :=
| NULL
| Ptr (addr : Z).

Definition is_null (p : ptr) : bool :=
  match p with NULL => true | Ptr _ => false end.

(** [(uint32_t)(uintptr_t)dev], the token under which a device is logged. *)
Definition dev_token (dev : ptr) : Z :=
  match dev with NULL => 0 | Ptr a => u32 a end.

(** ** TEMPEST state (values 0..3 are part of the ABI) *)

Inductive dsv4l2_tempest_state_t : Type :=
| DSV4L2_TEMPEST_DISABLED
| DSV4L2_TEMPEST_LOW
| DSV4L2_TEMPEST_HIGH
| DSV4L2_TEMPEST_LOCKDOWN.

Definition tempest_value (s : dsv4l2_tempest_state_t) : Z :=
  match s with
  | DSV4L2_TEMPEST_DISABLED => 0
  | DSV4L2_TEMPEST_LOW => 1
  | DSV4L2_TEMPEST_HIGH => 2
  | DSV4L2_TEMPEST_LOCKDOWN => 3
  end.

Definition tempest_eqb (a b : dsv4l2_tempest_state_t) : bool :=
  tempest_value a =? tempest_value b.

(** ** struct dsv4l2_profile *)

Definition DSV4L2_MAX_CONTROLS : Z := 32.

Record control_preset : Type := mkPreset {
  preset_id : Z;
  preset_value : Z
}.

Record tempest_control_t : Type := mkTempestControl {
  control_id : Z;
  disabled_value : Z;
  low_value : Z;
  high_value : Z;
  lockdown_value : Z;
  auto_detect : Z
}.

Record dsv4l2_profile_t : Type := mkProfile {
  profile_id : string;
  profile_role : string;
  device_hint : string;
  classification : string;
  pixel_format : Z;
  width : Z;
  height : Z;
  fps_num : Z;
  fps_den : Z;
  controls : list control_preset;
  num_controls : Z;
  tempest_control : tempest_control_t;
  meta_device_path : string;
  meta_format : Z;
  buffer_count : Z;
  constant_time_required : Z;
  quantum_candidate : Z
}.

(** ** The V4L2 structures the code reads and writes *)

Definition V4L2_BUF_TYPE_VIDEO_CAPTURE : Z := 1.
Definition V4L2_MEMORY_MMAP : Z := 1.
Definition V4L2_FIELD_NONE : Z := 1.
Definition V4L2_CTRL_FLAG_DISABLED : Z := 0x0001.
Definition V4L2_CTRL_FLAG_NEXT_CTRL : Z := 0x80000000.

Record v4l2_fract : Type := mkFract {
  numerator : Z;
  denominator : Z
}.

Record v4l2_captureparm : Type := mkCaptureParm {
  capability : Z;
  capturemode : Z;
  timeperframe : v4l2_fract;
  extendedmode : Z;
  readbuffers : Z
}.

Record v4l2_streamparm : Type := mkStreamParm {
  parm_type : Z;
  parm_capture : v4l2_captureparm
}.

Record v4l2_pix_format : Type := mkPix {
  pix_width : Z;
  pix_height : Z;
  pix_pixelformat : Z;
  pix_field : Z;
  pix_bytesperline : Z;
  pix_sizeimage : Z;
  pix_colorspace : Z
}.

Record v4l2_format : Type := mkFormat {
  fmt_type : Z;
  fmt_pix : v4l2_pix_format
}.

Record timeval : Type := mkTimeval {
  tv_sec : Z;
  tv_usec : Z
}.

Record v4l2_buffer : Type := mkBuffer {
  buf_index : Z;
  buf_type : Z;
  buf_bytesused : Z;
  buf_flags : Z;
  buf_field : Z;
  buf_timestamp : timeval;
  buf_sequence : Z;
  buf_memory : Z;
  buf_offset : Z;
  buf_length : Z
}.

Record v4l2_queryctrl : Type := mkQueryCtrl {
  qc_id : Z;
  qc_type : Z;
  qc_name : string;
  qc_minimum : Z;
  qc_maximum : Z;
  qc_step : Z;
  qc_default_value : Z;
  qc_flags : Z
}.

Record v4l2_control : Type := mkControl {
  ctrl_id : Z;
  ctrl_value : Z
}.

(** [memset(&x, 0, sizeof x)] *)
Definition zero_fract : v4l2_fract := mkFract 0 0.
Definition zero_streamparm : v4l2_streamparm :=
  mkStreamParm 0 (mkCaptureParm 0 0 zero_fract 0 0).
Definition zero_queryctrl : v4l2_queryctrl := mkQueryCtrl 0 0 EmptyString 0 0 0 0 0.

(** ** struct dsv4l2_device_ex, frames, ring slots *)

Record buffer_info_t : Type := mkBufferInfo {
  info_start : Z;
  info_length : Z
}.

Record dsv4l2_device_ex_t : Type := mkDevice {
  dev_fd : Z;
  dev_path : string;
  dev_role : string;
  dev_layer : Z;
  dev_profile : option dsv4l2_profile_t;
  dev_tempest_state : dsv4l2_tempest_state_t;
  dev_current_format : option v4l2_format;
  dev_current_parm : option v4l2_streamparm;
  dev_num_buffers : Z;
  dev_buffers : list buffer_info_t;
  dev_streaming : Z
}.

Definition set_dev_tempest_state (d : dsv4l2_device_ex_t)
    (s : dsv4l2_tempest_state_t) : dsv4l2_device_ex_t :=
  mkDevice (dev_fd d) (dev_path d) (dev_role d) (dev_layer d) (dev_profile d)
           s (dev_current_format d) (dev_current_parm d)
           (dev_num_buffers d) (dev_buffers d) (dev_streaming d).

Definition set_dev_current_format (d : dsv4l2_device_ex_t)
    (f : option v4l2_format) : dsv4l2_device_ex_t :=
  mkDevice (dev_fd d) (dev_path d) (dev_role d) (dev_layer d) (dev_profile d)
           (dev_tempest_state d) f (dev_current_parm d)
           (dev_num_buffers d) (dev_buffers d) (dev_streaming d).

Definition set_dev_current_parm (d : dsv4l2_device_ex_t)
    (p : option v4l2_streamparm) : dsv4l2_device_ex_t :=
  mkDevice (dev_fd d) (dev_path d) (dev_role d) (dev_layer d) (dev_profile d)
           (dev_tempest_state d) (dev_current_format d) p
           (dev_num_buffers d) (dev_buffers d) (dev_streaming d).

(** The generic and the biometric frame have the same fields and distinct
    types. *)
Record dsv4l2_frame_t : Type := mkFrame {
  frame_data : Z;
  frame_len : Z;
  frame_timestamp_ns : Z;
  frame_sequence : Z
}.

Record dsv4l2_biometric_frame_t : Type := mkBiometricFrame {
  bio_data : Z;
  bio_len : Z;
  bio_timestamp_ns : Z;
  bio_sequence : Z
}.

(** ** Events

    Modelled from the spec: the event runtime (dsv4l2rt) is not among the
    sources.  Each [dsv4l2rt_log_*] call made by the code is recorded as one
    event, with the arguments of the call, appended to the append-only ring
    of section 4.7. *)
Inductive dsv4l2_event : Type :=
| EV_tempest_transition (dev_id : Z) (old_state new_state : dsv4l2_tempest_state_t)
| EV_policy_check (dev_id : Z) (context : string) (rc : Z)
| EV_format_change (dev_id : Z) (fourcc w h : Z)
| EV_capture_start (dev_id : Z)
| EV_capture_end (dev_id : Z) (rc : Z).

(** ** The system under the library: ioctl and the allocator *)

Inductive ioctl_result (A : Type) : Type :=
| IoctlOk (arg : A)
| IoctlErr (errno : Z).
Arguments IoctlOk {A} arg.
Arguments IoctlErr {A} errno.

(** One entry per ioctl issued, with the argument as passed in. *)
Inductive ioctl_call : Type :=
| VIDIOC_S_FMT (fd : Z) (arg : v4l2_format)
| VIDIOC_G_PARM (fd : Z) (arg : v4l2_streamparm)
| VIDIOC_S_PARM (fd : Z) (arg : v4l2_streamparm)
| VIDIOC_DQBUF (fd : Z) (arg : v4l2_buffer)
| VIDIOC_QBUF (fd : Z) (arg : v4l2_buffer)
| VIDIOC_QUERYCTRL (fd : Z) (arg : v4l2_queryctrl)
| VIDIOC_S_CTRL (fd : Z) (arg : v4l2_control).

Record v4l2_driver (K : Type) : Type := mkDriver {
  drv_s_fmt : K -> Z -> v4l2_format -> K * ioctl_result v4l2_format;
  drv_g_parm : K -> Z -> v4l2_streamparm -> K * ioctl_result v4l2_streamparm;
  drv_s_parm : K -> Z -> v4l2_streamparm -> K * ioctl_result v4l2_streamparm;
  drv_dqbuf : K -> Z -> v4l2_buffer -> K * ioctl_result v4l2_buffer;
  drv_qbuf : K -> Z -> v4l2_buffer -> K * ioctl_result v4l2_buffer;
  drv_queryctrl : K -> Z -> v4l2_queryctrl -> K * ioctl_result v4l2_queryctrl;
  drv_s_ctrl : K -> Z -> v4l2_control -> K * ioctl_result v4l2_control;
  os_malloc : K -> K * bool
}.
Arguments drv_s_fmt {K} _ _ _ _.
Arguments drv_g_parm {K} _ _ _ _.
Arguments drv_s_parm {K} _ _ _ _.
Arguments drv_dqbuf {K} _ _ _ _.
Arguments drv_qbuf {K} _ _ _ _.
Arguments drv_queryctrl {K} _ _ _ _.
Arguments drv_s_ctrl {K} _ _ _ _.
Arguments os_malloc {K} _ _.

(** ** World and state monad *)

Record world (K : Type) : Type := mkWorld {
  w_dev : dsv4l2_device_ex_t;
  w_kernel : K;
  w_ioctls : list ioctl_call;
  w_events : list dsv4l2_event
}.
Arguments mkWorld {K} _ _ _ _.
Arguments w_dev {K} _.
Arguments w_kernel {K} _.
Arguments w_ioctls {K} _.
Arguments w_events {K} _.

Definition M (K A : Type) : Type := world K -> A * world K.

Definition ret {K A : Type} (a : A) : M K A := fun w => (a, w).

Definition bind {K A B : Type} (c : M K A) (f : A -> M K B) : M K B :=
  fun w => let (a, w') := c w in f a w'.

Declare Scope dsv_scope.
Delimit Scope dsv_scope with dsv.
Notation "x <- c ;; k" := (bind c (fun x => k))
  (at level 61, c at next level, right associativity) : dsv_scope.
Notation "c ;;; k" := (bind c (fun _ => k))
  (at level 61, right associativity) : dsv_scope.
Local Open Scope dsv_scope.

Section Device.

Context {K : Type} (drv : v4l2_driver K).

Definition get_dev : M K dsv4l2_device_ex_t := fun w => (w_dev w, w).

Definition put_dev (d : dsv4l2_device_ex_t) : M K unit :=
  fun w => (tt, mkWorld d (w_kernel w) (w_ioctls w) (w_events w)).

Definition emit (e : dsv4l2_event) : M K unit :=
  fun w => (tt, mkWorld (w_dev w) (w_kernel w) (w_ioctls w) (w_events w ++ [e])).

(** [ioctl(fd, request, &arg)]: the call is traced, the driver answers. *)
Definition do_ioctl {A : Type} (op : K -> Z -> A -> K * ioctl_result A)
    (call : Z -> A -> ioctl_call) (fd : Z) (arg : A) : M K (ioctl_result A) :=
  fun w =>
    let (k', r) := op (w_kernel w) fd arg in
    (r, mkWorld (w_dev w) k' (w_ioctls w ++ [call fd arg]) (w_events w)).

Definition malloc : M K bool :=
  fun w =>
    let (k', ok) := os_malloc drv (w_kernel w) in
    (ok, mkWorld (w_dev w) k' (w_ioctls w) (w_events w)).

(** *** dsv4l2_tempest.c *)

Definition dsv4l2_get_tempest_state (dev : ptr) : M K dsv4l2_tempest_state_t :=
  match dev with
  | NULL => ret DSV4L2_TEMPEST_DISABLED
  | Ptr _ =>
      dev_ex <- get_dev ;;
      ret (dev_tempest_state dev_ex)
  end.

Definition dsv4l2_set_tempest_state (dev : ptr)
    (target_state : dsv4l2_tempest_state_t) : M K Z :=
  match dev with
  | NULL => ret (- EINVAL)
  | Ptr _ =>
      dev_ex <- get_dev ;;
      let old_state := dev_tempest_state dev_ex in
      (* TODO in the source: no v4l2 control write is made here *)
      put_dev (set_dev_tempest_state dev_ex target_state) ;;;
      emit (EV_tempest_transition (dev_token dev) old_state target_state) ;;;
      ret 0
  end.

Definition dsv4l2_policy_check_capture (dev : ptr)
    (current_state : dsv4l2_tempest_state_t) (context : string) : M K Z :=
  match dev with
  | NULL => ret (- EINVAL)
  | Ptr _ =>
      let result :=
        if tempest_eqb current_state DSV4L2_TEMPEST_LOCKDOWN
        then - EACCES else 0 in
      emit (EV_policy_check (dev_token dev) context result) ;;;
      ret result
  end.

(** *** dsv4l2_core.c: capture *)

Definition capture_request : v4l2_buffer :=
  mkBuffer 0 V4L2_BUF_TYPE_VIDEO_CAPTURE 0 0 0 (mkTimeval 0 0) 0
           V4L2_MEMORY_MMAP 0 0.

(** [tv_sec * 1000000000ULL + tv_usec * 1000ULL] in 64-bit arithmetic. *)
Definition timestamp_ns (t : timeval) : Z :=
  u64 (u64 (tv_sec t) * 1000000000 + u64 (tv_usec t) * 1000).

(** [bufs[i].start]; an index outside the ring is undefined in C and reads
    as 0 here. *)
Definition slot_start (bufs : list buffer_info_t) (i : Z) : Z :=
  info_start (nth (Z.to_nat i) bufs (mkBufferInfo 0 0)).

Definition dsv4l2_capture_frame (dev out_frame : ptr)
    : M K (Z * option dsv4l2_frame_t) :=
  if is_null dev || is_null out_frame then ret (- EINVAL, None) else
  state <- dsv4l2_get_tempest_state dev ;;
  policy_rc <- dsv4l2_policy_check_capture dev state "dsv4l2_capture_frame" ;;
  if negb (policy_rc =? 0) then ret (- EACCES, None) else
  dev_ex <- get_dev ;;
  if dev_streaming dev_ex =? 0 then ret (- EINVAL, None) else
  r <- do_ioctl (drv_dqbuf drv) VIDIOC_DQBUF (dev_fd dev_ex) capture_request ;;
  match r with
  | IoctlErr errno => ret (- errno, None)
  | IoctlOk buf =>
      let frame :=
        mkFrame (slot_start (dev_buffers dev_ex) (buf_index buf))
                (buf_bytesused buf)
                (timestamp_ns (buf_timestamp buf))
                (buf_sequence buf) in
      r' <- do_ioctl (drv_qbuf drv) VIDIOC_QBUF (dev_fd dev_ex) buf ;;
      match r' with
      | IoctlErr errno => ret (- errno, Some frame)
      | IoctlOk _ =>
          emit (EV_capture_start (dev_token dev)) ;;;
          emit (EV_capture_end (dev_token dev) 0) ;;;
          ret (0, Some frame)
      end
  end.

Definition dsv4l2_capture_iris (dev out_frame : ptr)
    : M K (Z * option dsv4l2_biometric_frame_t) :=
  if is_null dev || is_null out_frame then ret (- EINVAL, None) else
  state <- dsv4l2_get_tempest_state dev ;;
  policy_rc <- dsv4l2_policy_check_capture dev state "dsv4l2_capture_iris" ;;
  if negb (policy_rc =? 0) then ret (- EACCES, None) else
  dev_ex <- get_dev ;;
  if dev_streaming dev_ex =? 0 then ret (- EINVAL, None) else
  r <- do_ioctl (drv_dqbuf drv) VIDIOC_DQBUF (dev_fd dev_ex) capture_request ;;
  match r with
  | IoctlErr errno => ret (- errno, None)
  | IoctlOk buf =>
      let frame :=
        mkBiometricFrame (slot_start (dev_buffers dev_ex) (buf_index buf))
                         (buf_bytesused buf)
                         (timestamp_ns (buf_timestamp buf))
                         (buf_sequence buf) in
      r' <- do_ioctl (drv_qbuf drv) VIDIOC_QBUF (dev_fd dev_ex) buf ;;
      match r' with
      | IoctlErr errno => ret (- errno, Some frame)
      | IoctlOk _ =>
          emit (EV_capture_start (dev_token dev)) ;;;
          emit (EV_capture_end (dev_token dev) 0) ;;;
          ret (0, Some frame)
      end
  end.

(** *** dsv4l2_core.c: format, frame rate, controls *)

Definition set_timeperframe (p : v4l2_streamparm) (num den : Z)
    : v4l2_streamparm :=
  let c := parm_capture p in
  mkStreamParm (parm_type p)
    (mkCaptureParm (capability c) (capturemode c) (mkFract num den)
                   (extendedmode c) (readbuffers c)).

(** The cache slots [current_format] and [current_parm]: allocated on first
    use, left empty when the allocation fails, overwritten otherwise. *)
Definition store_cached {A : Type} (slot : option A) (v : A) : M K (option A) :=
  match slot with
  | Some _ => ret (Some v)
  | None =>
      ok <- malloc ;;
      ret (if ok then Some v else None)
  end.

Definition dsv4l2_set_format (dev : ptr) (pixel_format width height : Z)
    : M K Z :=
  if is_null dev then ret (- EINVAL) else
  dev_ex <- get_dev ;;
  let fmt :=
    mkFormat V4L2_BUF_TYPE_VIDEO_CAPTURE
             (mkPix width height pixel_format V4L2_FIELD_NONE 0 0 0) in
  r <- do_ioctl (drv_s_fmt drv) VIDIOC_S_FMT (dev_fd dev_ex) fmt ;;
  match r with
  | IoctlErr errno => ret (- errno)
  | IoctlOk fmt =>
      cached <- store_cached (dev_current_format dev_ex) fmt ;;
      put_dev (set_dev_current_format dev_ex cached) ;;;
      emit (EV_format_change (dev_token dev) pixel_format width height) ;;;
      ret 0
  end.

Definition dsv4l2_set_framerate (dev : ptr) (fps_num fps_den : Z) : M K Z :=
  if is_null dev then ret (- EINVAL) else
  dev_ex <- get_dev ;;
  let parm :=
    mkStreamParm V4L2_BUF_TYPE_VIDEO_CAPTURE (parm_capture zero_streamparm) in
  r <- do_ioctl (drv_g_parm drv) VIDIOC_G_PARM (dev_fd dev_ex) parm ;;
  match r with
  | IoctlErr errno => ret (- errno)
  | IoctlOk parm =>
      (* numerator = fps_den; denominator = fps_num *)
      let parm := set_timeperframe parm fps_den fps_num in
      r' <- do_ioctl (drv_s_parm drv) VIDIOC_S_PARM (dev_fd dev_ex) parm ;;
      match r' with
      | IoctlErr errno => ret (- errno)
      | IoctlOk parm =>
          cached <- store_cached (dev_current_parm dev_ex) parm ;;
          put_dev (set_dev_current_parm dev_ex cached) ;;;
          ret 0
      end
  end.

Definition dsv4l2_set_control (dev : ptr) (control_id value : Z) : M K Z :=
  if is_null dev then ret (- EINVAL) else
  dev_ex <- get_dev ;;
  r <- do_ioctl (drv_s_ctrl drv) VIDIOC_S_CTRL (dev_fd dev_ex)
                (mkControl control_id value) ;;
  match r with
  | IoctlErr errno => ret (- errno)
  | IoctlOk _ => ret 0
  end.

Definition set_qc_id (q : v4l2_queryctrl) (id : Z) : v4l2_queryctrl :=
  mkQueryCtrl id (qc_type q) (qc_name q) (qc_minimum q) (qc_maximum q)
              (qc_step q) (qc_default_value q) (qc_flags q).

(** The [while (ioctl(QUERYCTRL) == 0)] loop of [dsv4l2_enum_controls].
    The driver decides when the enumeration ends, so the loop is bounded by
    [fuel]; [None] means the bound was reached before the driver refused a
    query or the callback asked to stop.  The callback receives the control
    and its user data and returns its code with the updated user data. *)
Fixpoint enum_controls_loop {U : Type} (fuel : nat) (fd : Z)
    (callback : v4l2_queryctrl -> U -> Z * U)
    (qctrl : v4l2_queryctrl) (user_data : U) : M K (option U) :=
  match fuel with
  | O => ret None
  | S fuel' =>
      r <- do_ioctl (drv_queryctrl drv) VIDIOC_QUERYCTRL fd qctrl ;;
      match r with
      | IoctlErr _ => ret (Some user_data)
      | IoctlOk qctrl =>
          let next :=
            set_qc_id qctrl (Z.lor (qc_id qctrl) V4L2_CTRL_FLAG_NEXT_CTRL) in
          if Z.land (qc_flags qctrl) V4L2_CTRL_FLAG_DISABLED =? 0 then
            let (rc, user_data') := callback qctrl user_data in
            if negb (rc =? 0) then ret (Some user_data')
            else enum_controls_loop fuel' fd callback next user_data'
          else enum_controls_loop fuel' fd callback next user_data
      end
  end.

Definition dsv4l2_enum_controls {U : Type} (fuel : nat) (dev : ptr)
    (callback : option (v4l2_queryctrl -> U -> Z * U)) (user_data : U)
    : M K (option (Z * U)) :=
  match dev, callback with
  | Ptr _, Some cb =>
      dev_ex <- get_dev ;;
      let qctrl := set_qc_id zero_queryctrl V4L2_CTRL_FLAG_NEXT_CTRL in
      r <- enum_controls_loop fuel (dev_fd dev_ex) cb qctrl user_data ;;
      match r with
      | None => ret None
      | Some user_data' => ret (Some (0, user_data'))
      end
  | _, _ => ret (Some (- EINVAL, user_data))
  end.

End Device.

(** *** dsv4l2_tempest.c: auto-discovery *)

Definition tolower (c : ascii) : ascii :=
  let n := nat_of_ascii c in
  if (65 <=? n)%nat && (n <=? 90)%nat then ascii_of_nat (n + 32) else c.

Fixpoint str_map (f : ascii -> ascii) (s : string) : string :=
  match s with
  | EmptyString => EmptyString
  | String c s' => String (f c) (str_map f s')
  end.

(** What [strncpy(dst, src, n)] leaves in a zero-terminated [dst] of
    [n + 1] bytes: the first [n] characters of [src]. *)
Fixpoint strncpy (n : nat) (src : string) : string :=
  match n, src with
  | O, _ => EmptyString
  | _, EmptyString => EmptyString
  | S n', String c s' => String c (strncpy n' s')
  end.

(** [strstr(hay, needle) != NULL] *)
Fixpoint strstr (hay needle : string) : bool :=
  String.prefix needle hay ||
  match hay with
  | EmptyString => false
  | String _ hay' => strstr hay' needle
  end.

Definition tempest_patterns : list string :=
  ["tempest"; "privacy"; "secure"; "shutter";
   "led"; "indicator"; "emission"; "lockdown"].

Definition is_tempest_control (name : string) : bool :=
  let lower_name := str_map tolower (strncpy 255 name) in
  existsb (fun pattern => strstr lower_name pattern) tempest_patterns.

Record tempest_search_ctx_t : Type := mkSearchCtx {
  found_id : Z;
  found : Z
}.

Definition tempest_search_callback (qctrl : v4l2_queryctrl)
    (ctx : tempest_search_ctx_t) : Z * tempest_search_ctx_t :=
  if is_tempest_control (qc_name qctrl)
  then (1, mkSearchCtx (qc_id qctrl) 1)
  else (0, ctx).

Section Discovery.

Context {K : Type} (drv : v4l2_driver K).

(** Returns [None] only when the enumeration bound [fuel] was reached. *)
Definition dsv4l2_discover_tempest_control (fuel : nat)
    (dev out_control_id : ptr) : M K (option (Z * option Z)) :=
  if is_null dev || is_null out_control_id then ret (Some (- EINVAL, None))
  else
    r <- dsv4l2_enum_controls drv fuel dev (Some tempest_search_callback)
                              (mkSearchCtx 0 0) ;;
    match r with
    | None => ret None
    | Some (_, ctx) =>
        if negb (found ctx =? 0) then ret (Some (0, Some (found_id ctx)))
        else ret (Some (- ENOENT, None))
    end.

Definition dsv4l2_apply_tempest_mapping (dev : ptr) : M K Z :=
  if is_null dev then ret (- EINVAL) else
  dev_ex <- get_dev ;;
  match dev_profile dev_ex with
  | None => ret (- EINVAL)
  | Some _ => ret 0
  end.

End Discovery.

(** ** Layer policy

    Modelled from the spec: the layer-policy table (dsv4l2_policy) is not
    among the sources.  A table maps a layer to its caps; the one entry the
    spec and the integration test give is layer 3 with 1280x720. *)
Record dsv4l2_layer_policy_t : Type := mkLayerPolicy {
  max_width : Z;
  max_height : Z
}.

Definition layer_table : Type := Z -> option dsv4l2_layer_policy_t.

Definition spec_layer_table : layer_table :=
  fun layer => if layer =? 3 then Some (mkLayerPolicy 1280 720) else None.

(** "A layer policy exists for the device's layer and the negotiated format
    exceeds max_width/max_height." *)
Definition format_exceeds_caps (tbl : layer_table) (d : dsv4l2_device_ex_t)
    : bool :=
  match tbl (dev_layer d), dev_current_format d with
  | Some pol, Some fmt =>
      (max_width pol <? pix_width (fmt_pix fmt)) ||
      (max_height pol <? pix_height (fmt_pix fmt))
  | _, _ => false
  end.

(** ** dsv4l2_profiles.c *)

(** [strcmp(a, b) == 0] *)
Definition streq (a b : string) : bool := String.eqb a b.

Definition b2z (b : bool) : Z := if b then 1 else 0.

(** [char] is signed on the Linux targets of the library; [(uint32_t)c]
    sign-extends. *)
Definition char_to_u32 (c : ascii) : Z :=
  let n := Z.of_nat (nat_of_ascii c) in
  if n <? 128 then n else u32 (n - 256).

Definition fourcc_to_u32 (fourcc : option string) : Z :=
  match fourcc with
  | Some (String c0 (String c1 (String c2 (String c3 EmptyString)))) =>
      Z.lor (Z.lor (Z.lor (char_to_u32 c0)
                          (u32 (Z.shiftl (char_to_u32 c1) 8)))
                   (u32 (Z.shiftl (char_to_u32 c2) 16)))
            (u32 (Z.shiftl (char_to_u32 c3) 24))
  | _ => 0
  end.

(** *** libc number parsing *)

Definition isspace (c : ascii) : bool :=
  let n := nat_of_ascii c in
  (n =? 32)%nat || ((9 <=? n)%nat && (n <=? 13)%nat).

Fixpoint skip_space (s : string) : string :=
  match s with
  | String c s' => if isspace c then skip_space s' else s
  | EmptyString => s
  end.

Definition digit_of (c : ascii) : option Z :=
  let n := Z.of_nat (nat_of_ascii c) in
  if (48 <=? n) && (n <=? 57) then Some (n - 48)
  else if (97 <=? n) && (n <=? 122) then Some (n - 87)
  else if (65 <=? n) && (n <=? 90) then Some (n - 55)
  else None.

Fixpoint parse_digits (base acc : Z) (s : string) : Z :=
  match s with
  | String c s' =>
      match digit_of c with
      | Some d => if d <? base then parse_digits base (acc * base + d) s' else acc
      | None => acc
      end
  | EmptyString => acc
  end.

Definition split_sign (s : string) : bool * string :=
  match s with
  | String "-"%char s' => (true, s')
  | String "+"%char s' => (false, s')
  | _ => (false, s)
  end.

Definition LONG_MAX : Z := 2 ^ 63 - 1.
Definition LONG_MIN : Z := - 2 ^ 63.
Definition ULONG_MAX : Z := 2 ^ 64 - 1.

(** [strtol(s, NULL, 10)] on a 64-bit [long]: a value outside the range
    of [long] is replaced by [LONG_MAX] or [LONG_MIN], by its sign. *)
Definition strtol10 (s : string) : Z :=
  let (neg, ds) := split_sign (skip_space s) in
  let v := parse_digits 10 0 ds in
  if neg then Z.max LONG_MIN (- v) else Z.min LONG_MAX v.

(** [atoi(s)] is [(int) strtol(s, NULL, 10)]: the [long] is cut to its
    low 32 bits. *)
Definition atoi (s : string) : Z := i32 (strtol10 s).

Definition is_hex_start (s : string) : bool :=
  match s with
  | String c _ =>
      match digit_of c with Some d => d <? 16 | None => false end
  | EmptyString => false
  end.

(** [strtoul(s, NULL, 0)] on a 64-bit [unsigned long].  A magnitude above
    [ULONG_MAX] gives [ULONG_MAX] whatever the sign; otherwise a minus
    sign negates the value as an [unsigned long]. *)
Definition strtoul0 (s : string) : Z :=
  let (neg, ds) := split_sign (skip_space s) in
  let v :=
    match ds with
    | String "0"%char (String x rest) =>
        if (Ascii.eqb x "x" || Ascii.eqb x "X") && is_hex_start rest
        then parse_digits 16 0 rest
        else parse_digits 8 0 ds
    | String "0"%char EmptyString => 0
    | _ => parse_digits 10 0 ds
    end in
  if v >? ULONG_MAX then ULONG_MAX
  else if neg then u64 (- v) else v.

(** *** Field updates of the profile *)

Definition set_profile_id (p : dsv4l2_profile_t) (v : string) :=
  mkProfile v (profile_role p) (device_hint p) (classification p)
    (pixel_format p) (width p) (height p) (fps_num p) (fps_den p)
    (controls p) (num_controls p) (tempest_control p) (meta_device_path p)
    (meta_format p) (buffer_count p) (constant_time_required p)
    (quantum_candidate p).

Definition set_profile_role (p : dsv4l2_profile_t) (v : string) :=
  mkProfile (profile_id p) v (device_hint p) (classification p)
    (pixel_format p) (width p) (height p) (fps_num p) (fps_den p)
    (controls p) (num_controls p) (tempest_control p) (meta_device_path p)
    (meta_format p) (buffer_count p) (constant_time_required p)
    (quantum_candidate p).

Definition set_device_hint (p : dsv4l2_profile_t) (v : string) :=
  mkProfile (profile_id p) (profile_role p) v (classification p)
    (pixel_format p) (width p) (height p) (fps_num p) (fps_den p)
    (controls p) (num_controls p) (tempest_control p) (meta_device_path p)
    (meta_format p) (buffer_count p) (constant_time_required p)
    (quantum_candidate p).

Definition set_classification (p : dsv4l2_profile_t) (v : string) :=
  mkProfile (profile_id p) (profile_role p) (device_hint p) v
    (pixel_format p) (width p) (height p) (fps_num p) (fps_den p)
    (controls p) (num_controls p) (tempest_control p) (meta_device_path p)
    (meta_format p) (buffer_count p) (constant_time_required p)
    (quantum_candidate p).

Definition set_pixel_format (p : dsv4l2_profile_t) (v : Z) :=
  mkProfile (profile_id p) (profile_role p) (device_hint p) (classification p)
    v (width p) (height p) (fps_num p) (fps_den p)
    (controls p) (num_controls p) (tempest_control p) (meta_device_path p)
    (meta_format p) (buffer_count p) (constant_time_required p)
    (quantum_candidate p).

Definition set_fps (p : dsv4l2_profile_t) (num den : Z) :=
  mkProfile (profile_id p) (profile_role p) (device_hint p) (classification p)
    (pixel_format p) (width p) (height p) num den
    (controls p) (num_controls p) (tempest_control p) (meta_device_path p)
    (meta_format p) (buffer_count p) (constant_time_required p)
    (quantum_candidate p).

Definition set_meta_device_path (p : dsv4l2_profile_t) (v : string) :=
  mkProfile (profile_id p) (profile_role p) (device_hint p) (classification p)
    (pixel_format p) (width p) (height p) (fps_num p) (fps_den p)
    (controls p) (num_controls p) (tempest_control p) v
    (meta_format p) (buffer_count p) (constant_time_required p)
    (quantum_candidate p).

Definition set_buffer_count (p : dsv4l2_profile_t) (v : Z) :=
  mkProfile (profile_id p) (profile_role p) (device_hint p) (classification p)
    (pixel_format p) (width p) (height p) (fps_num p) (fps_den p)
    (controls p) (num_controls p) (tempest_control p) (meta_device_path p)
    (meta_format p) v (constant_time_required p)
    (quantum_candidate p).

Definition set_constant_time_required (p : dsv4l2_profile_t) (v : Z) :=
  mkProfile (profile_id p) (profile_role p) (device_hint p) (classification p)
    (pixel_format p) (width p) (height p) (fps_num p) (fps_den p)
    (controls p) (num_controls p) (tempest_control p) (meta_device_path p)
    (meta_format p) (buffer_count p) v
    (quantum_candidate p).

Definition set_quantum_candidate (p : dsv4l2_profile_t) (v : Z) :=
  mkProfile (profile_id p) (profile_role p) (device_hint p) (classification p)
    (pixel_format p) (width p) (height p) (fps_num p) (fps_den p)
    (controls p) (num_controls p) (tempest_control p) (meta_device_path p)
    (meta_format p) (buffer_count p) (constant_time_required p)
    v.

Definition set_tempest_control (p : dsv4l2_profile_t) (v : tempest_control_t) :=
  mkProfile (profile_id p) (profile_role p) (device_hint p) (classification p)
    (pixel_format p) (width p) (height p) (fps_num p) (fps_den p)
    (controls p) (num_controls p) v (meta_device_path p)
    (meta_format p) (buffer_count p) (constant_time_required p)
    (quantum_candidate p).

Definition zero_mapping : tempest_control_t := mkTempestControl 0 0 0 0 0 0.

(** [calloc(1, sizeof *profile)] *)
Definition zero_profile : dsv4l2_profile_t :=
  mkProfile EmptyString EmptyString EmptyString EmptyString 0 0 0 0 0
    (repeat (mkPreset 0 0) (Z.to_nat DSV4L2_MAX_CONTROLS)) 0
    zero_mapping EmptyString 0 0 0 0.

(** *** The libyaml event stream *)

Inductive yaml_event_t : Type :=
| YAML_NO_EVENT
| YAML_STREAM_START_EVENT
| YAML_STREAM_END_EVENT
| YAML_DOCUMENT_START_EVENT
| YAML_DOCUMENT_END_EVENT
| YAML_ALIAS_EVENT
| YAML_SCALAR_EVENT (value : string)
| YAML_SEQUENCE_START_EVENT
| YAML_SEQUENCE_END_EVENT
| YAML_MAPPING_START_EVENT
| YAML_MAPPING_END_EVENT.

(** One call of [yaml_parser_parse]: an event, or failure. *)
Inductive yaml_parse_result : Type :=
| YamlEvent (event : yaml_event_t)
| YamlError.

Inductive fopen_result : Type :=
| FileOpened (events : list yaml_parse_result)
| FopenFailed (errno : Z).

(** What the loader asks of its environment: [fopen] of a path (giving the
    results libyaml will produce on the file, in order), [calloc] and
    [yaml_parser_initialize]. *)
Record loader_env : Type := mkLoaderEnv {
  env_fopen : string -> fopen_result;
  env_calloc_ok : bool;
  env_parser_init_ok : bool
}.

Record loader_state : Type := mkLoader {
  ld_profile : dsv4l2_profile_t;
  ld_current_key : string;
  ld_context : string;
  ld_in_controls : Z;
  ld_in_tempest : Z;
  ld_in_mode_map : Z
}.

(** The top-level [if / else if] chain on [current_key]. *)
Definition assign_scalar (current_key value : string)
    (profile : dsv4l2_profile_t) : dsv4l2_profile_t :=
  if streq current_key "id" then
    set_profile_id profile (strncpy 63 value)
  else if streq current_key "role" then
    set_profile_role profile (strncpy 31 value)
  else if streq current_key "device_hint" then
    set_device_hint profile (strncpy 255 value)
  else if streq current_key "classification" then
    set_classification profile (strncpy 63 value)
  else if streq current_key "pixel_format" then
    set_pixel_format profile (fourcc_to_u32 (Some value))
  else if streq current_key "fps" then
    set_fps profile (u32 (atoi value)) 1
  else if streq current_key "meta_device" then
    set_meta_device_path profile (strncpy 255 value)
  else if streq current_key "buffer_count" then
    set_buffer_count profile (atoi value)
  else if streq current_key "constant_time_required" then
    set_constant_time_required profile (b2z (streq value "true"))
  else if streq current_key "quantum_candidate" then
    set_quantum_candidate profile (b2z (streq value "true"))
  else profile.

(** The chain under [if (in_tempest)]. *)
Definition assign_tempest (current_key value : string) (in_mode_map : Z)
    (t : tempest_control_t) : tempest_control_t :=
  if streq current_key "id" then
    mkTempestControl (u32 (strtoul0 value)) (disabled_value t) (low_value t)
                     (high_value t) (lockdown_value t) (auto_detect t)
  else if streq current_key "auto_detect" then
    mkTempestControl (control_id t) (disabled_value t) (low_value t)
                     (high_value t) (lockdown_value t)
                     (b2z (streq value "true"))
  else if negb (in_mode_map =? 0) then
    if streq current_key "DISABLED" then
      mkTempestControl (control_id t) (atoi value) (low_value t)
                       (high_value t) (lockdown_value t) (auto_detect t)
    else if streq current_key "LOW" then
      mkTempestControl (control_id t) (disabled_value t) (atoi value)
                       (high_value t) (lockdown_value t) (auto_detect t)
    else if streq current_key "HIGH" then
      mkTempestControl (control_id t) (disabled_value t) (low_value t)
                       (atoi value) (lockdown_value t) (auto_detect t)
    else if streq current_key "LOCKDOWN" then
      mkTempestControl (control_id t) (disabled_value t) (low_value t)
                       (high_value t) (atoi value) (auto_detect t)
    else t
  else t.

(** The body of the [switch (event.type)] for every event other than
    [YAML_STREAM_END_EVENT]. *)
Definition loader_step (event : yaml_event_t) (st : loader_state)
    : loader_state :=
  match event with
  | YAML_SCALAR_EVENT value =>
      if streq (ld_current_key st) EmptyString then
        (* this is a key *)
        mkLoader (ld_profile st) (strncpy 63 value) (ld_context st)
                 (ld_in_controls st) (ld_in_tempest st) (ld_in_mode_map st)
      else
        (* this is a value for current_key; the in_controls block is empty *)
        let profile := assign_scalar (ld_current_key st) value (ld_profile st) in
        let profile :=
          if negb (ld_in_tempest st =? 0) then
            set_tempest_control profile
              (assign_tempest (ld_current_key st) value (ld_in_mode_map st)
                              (tempest_control profile))
          else profile in
        mkLoader profile EmptyString (ld_context st)
                 (ld_in_controls st) (ld_in_tempest st) (ld_in_mode_map st)
  | YAML_SEQUENCE_START_EVENT =>
      if streq (ld_current_key st) "resolution" then
        mkLoader (ld_profile st) (ld_current_key st) "resolution"
                 (ld_in_controls st) (ld_in_tempest st) (ld_in_mode_map st)
      else st
  | YAML_MAPPING_START_EVENT =>
      if streq (ld_current_key st) "controls" then
        mkLoader (ld_profile st) EmptyString (ld_context st)
                 1 (ld_in_tempest st) (ld_in_mode_map st)
      else if streq (ld_current_key st) "tempest_control" then
        mkLoader (ld_profile st) EmptyString (ld_context st)
                 (ld_in_controls st) 1 (ld_in_mode_map st)
      else if streq (ld_current_key st) "mode_map" then
        mkLoader (ld_profile st) EmptyString (ld_context st)
                 (ld_in_controls st) (ld_in_tempest st) 1
      else
        mkLoader (ld_profile st) EmptyString (ld_context st)
                 (ld_in_controls st) (ld_in_tempest st) (ld_in_mode_map st)
  | YAML_MAPPING_END_EVENT =>
      if negb (ld_in_mode_map st =? 0) then
        mkLoader (ld_profile st) (ld_current_key st) (ld_context st)
                 (ld_in_controls st) (ld_in_tempest st) 0
      else if negb (ld_in_tempest st =? 0) then
        mkLoader (ld_profile st) (ld_current_key st) (ld_context st)
                 (ld_in_controls st) 0 (ld_in_mode_map st)
      else if negb (ld_in_controls st =? 0) then
        mkLoader (ld_profile st) (ld_current_key st) (ld_context st)
                 0 (ld_in_tempest st) (ld_in_mode_map st)
      else st
  | _ => st
  end.

(** The [while (!done)] loop.  [None] is the [-EINVAL] exit taken when
    [yaml_parser_parse] fails; a stream that ends without
    [YAML_STREAM_END_EVENT] is not a stream libyaml produces and is read as
    such a failure. *)
Fixpoint loader_loop (events : list yaml_parse_result) (st : loader_state)
    : option loader_state :=
  match events with
  | [] => None
  | YamlError :: _ => None
  | YamlEvent YAML_STREAM_END_EVENT :: _ => Some st
  | YamlEvent event :: rest => loader_loop rest (loader_step event st)
  end.

Definition initial_profile : dsv4l2_profile_t :=
  set_quantum_candidate
    (set_constant_time_required (set_buffer_count zero_profile 4) 0) 0.

(** The locals of the loader before the first event. *)
Definition loader_start : loader_state := mkLoader initial_profile EmptyString EmptyString 0 0 0.

Definition dsv4l2_profile_load_from_file (env : loader_env)
    (filepath : option string) (out_profile : ptr)
    : Z * option dsv4l2_profile_t :=
  match filepath, out_profile with
  | Some path, Ptr _ =>
      match env_fopen env path with
      | FopenFailed errno => (- errno, None)
      | FileOpened events =>
          if negb (env_calloc_ok env) then (- ENOMEM, None)
          else if negb (env_parser_init_ok env) then (- ENOMEM, None)
          else
            match loader_loop events loader_start with
            | None => (- EINVAL, None)
            | Some st => (0, Some (ld_profile st))
            end
      end
  | _, _ => (- EINVAL, None)
  end.

(** ** Vocabulary of the specification *)

(** "A TEMPEST mapping is installed": the device carries a profile whose
    mapping names a control. *)
Definition mapping_installed (d : dsv4l2_device_ex_t) : bool :=
  match dev_profile d with
  | Some p => negb (control_id (tempest_control p) =? 0)
  | None => false
  end.

(** "The target state's mapped numeric value." *)
Definition mapped_value (t : tempest_control_t) (s : dsv4l2_tempest_state_t)
    : Z :=
  match s with
  | DSV4L2_TEMPEST_DISABLED => disabled_value t
  | DSV4L2_TEMPEST_LOW => low_value t
  | DSV4L2_TEMPEST_HIGH => high_value t
  | DSV4L2_TEMPEST_LOCKDOWN => lockdown_value t
  end.

(** The ioctls a call added to the trace. *)
Definition issued_since {K : Type} (w w' : world K) : list ioctl_call :=
  skipn (List.length (w_ioctls w)) (w_ioctls w').

(** The controls a driver hands out, in the order of the QUERYCTRL /
    NEXT_CTRL iteration that starts from request [req]. *)
Inductive enumerates {K : Type} (drv : v4l2_driver K) (fd : Z)
    : K -> v4l2_queryctrl -> list v4l2_queryctrl -> Prop :=
| enumerates_end : forall k req k' errno,
    drv_queryctrl drv k fd req = (k', IoctlErr errno) ->
    enumerates drv fd k req []
| enumerates_next : forall k req k' q rest,
    drv_queryctrl drv k fd req = (k', IoctlOk q) ->
    enumerates drv fd k'
      (set_qc_id q (Z.lor (qc_id q) V4L2_CTRL_FLAG_NEXT_CTRL)) rest ->
    enumerates drv fd k req (q :: rest).

(** [needle] occurs in [hay]. *)
Definition occurs_in (needle hay : string) : Prop :=
  exists pre post : string, hay = (pre ++ needle ++ post)%string.

(** The name patterns as the specification lists them (section 3), written
    out here and not taken from the table of [is_tempest_control]. *)
Definition spec_tempest_patterns : list string :=
  ["tempest"; "privacy"; "secure"; "shutter";
   "led"; "indicator"; "emission"; "lockdown"].

(** "Lowercased" as the specification means it, letter by letter and not
    taken from [tolower]: each of A to Z becomes its small letter, every
    other character stays. *)
Definition spec_lowercase (c : ascii) : ascii :=
  match c with
  | "A" => "a" | "B" => "b" | "C" => "c" | "D" => "d" | "E" => "e"
  | "F" => "f" | "G" => "g" | "H" => "h" | "I" => "i" | "J" => "j"
  | "K" => "k" | "L" => "l" | "M" => "m" | "N" => "n" | "O" => "o"
  | "P" => "p" | "Q" => "q" | "R" => "r" | "S" => "s" | "T" => "t"
  | "U" => "u" | "V" => "v" | "W" => "w" | "X" => "x" | "Y" => "y"
  | "Z" => "z"
  | _ => c
  end%char.

(** "The lowercased name contains one of the TEMPEST patterns", in the
    words of the specification. *)
Definition looks_tempest (name : string) : Prop :=
  exists pattern : string,
    In pattern spec_tempest_patterns /\
    occurs_in pattern (str_map spec_lowercase name).

(** A control the discovery may return: not flagged disabled, and named
    like a TEMPEST control. *)
Definition selectable (q : v4l2_queryctrl) : Prop :=
  Z.land (qc_flags q) V4L2_CTRL_FLAG_DISABLED = 0 /\ looks_tempest (qc_name q).

(** The event is a scalar that reads [key]. *)
Definition mentions (key : string) (event : yaml_event_t) : bool :=
  match event with
  | YAML_SCALAR_EVENT v => streq v key
  | _ => false
  end.

(** "The field is missing": no scalar of the document reads [key]. *)
Definition key_absent (key : string) (events : list yaml_parse_result)
    : bool :=
  forallb (fun r =>
             match r with
             | YamlEvent event => negb (mentions key event)
             | YamlError => true
             end) events.

(** The request [dsv4l2_set_framerate] passes to G_PARM. *)
Definition framerate_request : v4l2_streamparm :=
  mkStreamParm V4L2_BUF_TYPE_VIDEO_CAPTURE (parm_capture zero_streamparm).

(** The request that opens the enumeration of [dsv4l2_enum_controls]. *)
Definition first_query : v4l2_queryctrl :=
  set_qc_id zero_queryctrl V4L2_CTRL_FLAG_NEXT_CTRL.

(** The test the enumeration and the search callback apply to a control. *)
Definition candidate (q : v4l2_queryctrl) : bool :=
  (Z.land (qc_flags q) V4L2_CTRL_FLAG_DISABLED =? 0) &&
  is_tempest_control (qc_name q).

(** ** A simulated driver and sample inputs

    Used to run the code on concrete inputs.  The driver accepts every
    format, parameter and control write as given, reports 1/15 s per frame,
    hands out slot 0 on DQBUF and enumerates a fixed control list (ascending
    ids) the way the kernel does for NEXT_CTRL. *)

Definition V4L2_CTRL_ID_MASK : Z := 0x0fffffff.

Definition sim_queryctrl (ctrls : list v4l2_queryctrl) (k : unit) (fd : Z)
    (q : v4l2_queryctrl) : unit * ioctl_result v4l2_queryctrl :=
  let id := Z.land (qc_id q) V4L2_CTRL_ID_MASK in
  let hit :=
    if Z.land (qc_id q) V4L2_CTRL_FLAG_NEXT_CTRL =? 0
    then find (fun c => qc_id c =? id) ctrls
    else find (fun c => id <? qc_id c) ctrls in
  match hit with
  | Some c => (k, IoctlOk c)
  | None => (k, IoctlErr EINVAL)
  end.

Definition sim_driver (ctrls : list v4l2_queryctrl) : v4l2_driver unit :=
  mkDriver unit
    (fun k _ fmt => (k, IoctlOk fmt))
    (fun k _ p => (k, IoctlOk (set_timeperframe p 1 15)))
    (fun k _ p => (k, IoctlOk p))
    (fun k _ b =>
       (k, IoctlOk (mkBuffer 0 (buf_type b) 614400 0 0 (mkTimeval 12 500) 7
                             (buf_memory b) 0 614400)))
    (fun k _ b => (k, IoctlOk b))
    (sim_queryctrl ctrls)
    (fun k _ c => (k, IoctlOk c))
    (fun k => (k, true)).

(** Control ids strictly ascending above [m], within the id mask: the order
    in which the kernel keeps the controls of a device. *)
Fixpoint ascending (m : Z) (ctrls : list v4l2_queryctrl) : Prop :=
  match ctrls with
  | [] => True
  | c :: rest =>
      m < qc_id c /\ qc_id c < 2 ^ 28 /\ ascending (qc_id c) rest
  end.

Definition sample_controls : list v4l2_queryctrl :=
  [ mkQueryCtrl 0x00980900 1 "Brightness" 0 255 1 128 0;
    mkQueryCtrl 0x00980901 1 "Privacy Shutter" 0 1 1 0 V4L2_CTRL_FLAG_DISABLED;
    mkQueryCtrl 0x00980913 1 "Gain" 0 100 1 10 0;
    mkQueryCtrl 0x009a0910 2 "Status LED" 0 1 1 1 0;
    mkQueryCtrl 0x009a0911 2 "TEMPEST Mode" 0 3 1 0 0 ].

Definition plain_controls : list v4l2_queryctrl :=
  [ mkQueryCtrl 0x00980900 1 "Brightness" 0 255 1 128 0;
    mkQueryCtrl 0x00980913 1 "Gain" 0 100 1 10 0 ].

Definition sample_mapping : tempest_control_t :=
  mkTempestControl 0x009a0911 0 1 2 3 0.

Definition sample_profile : dsv4l2_profile_t :=
  set_tempest_control (set_profile_role initial_profile "iris_scanner")
                      sample_mapping.

(** A device as [dsv4l2_open_device] leaves it (state DISABLED, nothing
    cached, not streaming), here with a profile bound and placed in layer 3. *)
Definition sample_device : dsv4l2_device_ex_t :=
  mkDevice 3 "/dev/video0" "iris_scanner" 3 (Some sample_profile)
           DSV4L2_TEMPEST_DISABLED None None 0 [] 0.

Definition sample_world : world unit :=
  mkWorld sample_device tt [] [].

Definition lockdown_world : world unit :=
  mkWorld (set_dev_tempest_state sample_device DSV4L2_TEMPEST_LOCKDOWN) tt [] [].

(** The same device in LOCKDOWN with a ring of two slots and streaming. *)
Definition streaming_lockdown_world : world unit :=
  mkWorld
    (mkDevice 3 "/dev/video0" "iris_scanner" 3 (Some sample_profile)
              DSV4L2_TEMPEST_LOCKDOWN None None 2
              [mkBufferInfo 0x7f0000000000 614400;
               mkBufferInfo 0x7f0000100000 614400] 1)
    tt [] [].

(** [set_format(W=1920, H=1080)] on the layer-3 device. *)
Definition oversize_world : world unit :=
  snd (dsv4l2_set_format (sim_driver sample_controls) (Ptr 4096)
                         0x56595559 1920 1080 sample_world).

(** The events libyaml produces for the document
    [resolution: [1280, 720]]. *)
Definition resolution_document : list yaml_parse_result :=
  map YamlEvent
    [ YAML_STREAM_START_EVENT; YAML_DOCUMENT_START_EVENT;
      YAML_MAPPING_START_EVENT;
      YAML_SCALAR_EVENT "resolution";
      YAML_SEQUENCE_START_EVENT;
      YAML_SCALAR_EVENT "1280"; YAML_SCALAR_EVENT "720";
      YAML_SEQUENCE_END_EVENT;
      YAML_MAPPING_END_EVENT;
      YAML_DOCUMENT_END_EVENT; YAML_STREAM_END_EVENT ].

(** The events of the document [role: camera] (no fps, no buffer_count, no
    flags, no tempest_control). *)
Definition minimal_document : list yaml_parse_result :=
  map YamlEvent
    [ YAML_STREAM_START_EVENT; YAML_DOCUMENT_START_EVENT;
      YAML_MAPPING_START_EVENT;
      YAML_SCALAR_EVENT "role"; YAML_SCALAR_EVENT "camera";
      YAML_MAPPING_END_EVENT;
      YAML_DOCUMENT_END_EVENT; YAML_STREAM_END_EVENT ].

(** The events of a document that continues after the resolution:
    [role: camera], [resolution: [1280, 720]], [fps: 30],
    [buffer_count: 8]. *)
Definition camera_document : list yaml_parse_result :=
  map YamlEvent
    [ YAML_STREAM_START_EVENT; YAML_DOCUMENT_START_EVENT;
      YAML_MAPPING_START_EVENT;
      YAML_SCALAR_EVENT "role"; YAML_SCALAR_EVENT "camera";
      YAML_SCALAR_EVENT "resolution";
      YAML_SEQUENCE_START_EVENT;
      YAML_SCALAR_EVENT "1280"; YAML_SCALAR_EVENT "720";
      YAML_SEQUENCE_END_EVENT;
      YAML_SCALAR_EVENT "fps"; YAML_SCALAR_EVENT "30";
      YAML_SCALAR_EVENT "buffer_count"; YAML_SCALAR_EVENT "8";
      YAML_MAPPING_END_EVENT;
      YAML_DOCUMENT_END_EVENT; YAML_STREAM_END_EVENT ].

Definition sample_env (events : list yaml_parse_result) : loader_env :=
  mkLoaderEnv (fun _ => FileOpened events) true true.

(** * The rest of the library *)

(** ** dsv4l2_core.c: the control catalog *)

Definition ENOSYS : Z := 38.

(** Control ids of <linux/v4l2-controls.h>. *)
Definition V4L2_CID_BASE : Z := 0x00980900.
Definition V4L2_CID_CAMERA_CLASS_BASE : Z := 0x009a0900.
Definition V4L2_CID_BRIGHTNESS : Z := V4L2_CID_BASE + 0.
Definition V4L2_CID_CONTRAST : Z := V4L2_CID_BASE + 1.
Definition V4L2_CID_SATURATION : Z := V4L2_CID_BASE + 2.
Definition V4L2_CID_HUE : Z := V4L2_CID_BASE + 3.
Definition V4L2_CID_AUTO_WHITE_BALANCE : Z := V4L2_CID_BASE + 12.
Definition V4L2_CID_GAIN : Z := V4L2_CID_BASE + 19.
Definition V4L2_CID_POWER_LINE_FREQUENCY : Z := V4L2_CID_BASE + 24.
Definition V4L2_CID_WHITE_BALANCE_TEMPERATURE : Z := V4L2_CID_BASE + 26.
Definition V4L2_CID_SHARPNESS : Z := V4L2_CID_BASE + 27.
Definition V4L2_CID_BACKLIGHT_COMPENSATION : Z := V4L2_CID_BASE + 28.
Definition V4L2_CID_EXPOSURE_AUTO : Z := V4L2_CID_CAMERA_CLASS_BASE + 1.
Definition V4L2_CID_EXPOSURE_ABSOLUTE : Z := V4L2_CID_CAMERA_CLASS_BASE + 2.
Definition V4L2_CID_FOCUS_ABSOLUTE : Z := V4L2_CID_CAMERA_CLASS_BASE + 10.
Definition V4L2_CID_FOCUS_AUTO : Z := V4L2_CID_CAMERA_CLASS_BASE + 12.

Record control_name_map_t : Type := mkNameMap {
  map_name : string;
  map_id : Z
}.

(** The table, without its [{NULL, 0}] terminator. *)
Definition control_name_table : list control_name_map_t :=
  [ mkNameMap "brightness" V4L2_CID_BRIGHTNESS;
    mkNameMap "contrast" V4L2_CID_CONTRAST;
    mkNameMap "saturation" V4L2_CID_SATURATION;
    mkNameMap "hue" V4L2_CID_HUE;
    mkNameMap "gain" V4L2_CID_GAIN;
    mkNameMap "exposure_auto" V4L2_CID_EXPOSURE_AUTO;
    mkNameMap "exposure_absolute" V4L2_CID_EXPOSURE_ABSOLUTE;
    mkNameMap "focus_auto" V4L2_CID_FOCUS_AUTO;
    mkNameMap "focus_absolute" V4L2_CID_FOCUS_ABSOLUTE;
    mkNameMap "sharpness" V4L2_CID_SHARPNESS;
    mkNameMap "backlight_compensation" V4L2_CID_BACKLIGHT_COMPENSATION;
    mkNameMap "power_line_frequency" V4L2_CID_POWER_LINE_FREQUENCY;
    mkNameMap "white_balance_temperature_auto" V4L2_CID_AUTO_WHITE_BALANCE;
    mkNameMap "white_balance_temperature" V4L2_CID_WHITE_BALANCE_TEMPERATURE ].

(** The scan of the table, first match first. *)
Fixpoint name_table_scan (name : string) (table : list control_name_map_t)
    : option Z :=
  match table with
  | [] => None
  | entry :: rest =>
      if streq name (map_name entry) then Some (map_id entry)
      else name_table_scan name rest
  end.

Definition dsv4l2_control_name_to_id (name : option string) (out_id : ptr)
    : Z * option Z :=
  match name, out_id with
  | Some name, Ptr _ =>
      match name_table_scan name control_name_table with
      | Some id => (0, Some id)
      | None => (- ENOENT, None)
      end
  | _, _ => (- EINVAL, None)
  end.

(** ** dsv4l2_profiles.c: directory, lookup by role, apply *)




(** [snprintf(filepath, 512, "%s/%s.yaml", profile_dir, role)] *)
Definition profile_filepath (profile_dir role : string) : string :=
  strncpy 511 (profile_dir ++ "/" ++ role ++ ".yaml")%string.

Definition dsv4l2_profile_load (profile_dir : string) (env : loader_env)
    (device_path role : option string) (out_profile : ptr)
    : Z * option dsv4l2_profile_t :=
  match device_path, role, out_profile with
  | Some _, Some role, Ptr _ =>
      dsv4l2_profile_load_from_file env
        (Some (profile_filepath profile_dir role)) out_profile
  | _, _, _ => (- EINVAL, None)
  end.

Definition dsv4l2_profile_load_by_vidpid (profile_dir : string)
    (env : loader_env) (vendor_id product_id : Z) (role : option string)
    (out_profile : ptr) : Z * option dsv4l2_profile_t :=
  match role, out_profile with
  | Some _, Ptr _ =>
      dsv4l2_profile_load profile_dir env None role out_profile
  | _, _ => (- EINVAL, None)
  end.

(** The address of a local variable of the caller: never NULL. *)
Definition local_address : ptr := Ptr 1.

Section ProfileApply.

Context {K : Type} (drv : v4l2_driver K).

(** The [for] loop over [profile->controls], from index [i], [n] rounds;
    the return codes of the writes are dropped.  An index past the 32
    presets is undefined in C and reads as a zero preset here. *)
Fixpoint apply_controls (n : nat) (i : Z) (dev : ptr)
    (presets : list control_preset) : M K unit :=
  match n with
  | O => ret tt
  | S n' =>
      let preset := nth (Z.to_nat i) presets (mkPreset 0 0) in
      dsv4l2_set_control drv dev (preset_id preset) (preset_value preset) ;;;
      apply_controls n' (i + 1) dev presets
  end.

(** Returns [None] only when the enumeration bound [fuel] was reached in
    the auto-detection. *)
Definition dsv4l2_profile_apply (fuel : nat) (dev : ptr)
    (profile : option dsv4l2_profile_t) : M K (option Z) :=
  match dev, profile with
  | Ptr _, Some profile =>
      (* format, if specified *)
      failed <-
        (if negb (pixel_format profile =? 0) && negb (width profile =? 0)
            && negb (height profile =? 0)
         then
           rc <- dsv4l2_set_format drv dev (pixel_format profile)
                                   (width profile) (height profile) ;;
           ret (if negb (rc =? 0) && negb (rc =? - ENOSYS)
                then Some rc else None)
         else ret None) ;;
      match failed with
      | Some rc => ret (Some rc)
      | None =>
          (* frame rate, if specified; errors ignored *)
          (if fps_num profile >? 0 then
             let fps_den :=
               if fps_den profile >? 0 then fps_den profile else 1 in
             dsv4l2_set_framerate drv dev (fps_num profile) fps_den ;;;
             ret tt
           else ret tt) ;;;
          (* control presets; errors ignored *)
          apply_controls (Z.to_nat (num_controls profile)) 0 dev
                         (controls profile) ;;;
          (* TEMPEST mapping *)
          if negb (control_id (tempest_control profile) =? 0) then
            dsv4l2_apply_tempest_mapping dev ;;;
            ret (Some 0)
          else if negb (auto_detect (tempest_control profile) =? 0) then
            r <- dsv4l2_discover_tempest_control drv fuel dev local_address ;;
            match r with
            | None => ret None
            | Some (rc, _) =>
                if rc =? 0 then
                  dsv4l2_set_tempest_state dev DSV4L2_TEMPEST_DISABLED ;;;
                  ret (Some 0)
                else ret (Some 0)
            end
          else ret (Some 0)
      end
  | _, _ => ret (Some (- EINVAL))
  end.

End ProfileApply.

(** ** dsv4l2_core.c: open, streaming, close

    These functions reach the system through calls the capture path does
    not use.  They run on a [machine]: the world of the first part together
    with the trace of every system call, where the ioctls of the first part
    appear as [SYS_ioctl]. *)

Definition O_RDWR : Z := 2.
Definition O_NONBLOCK : Z := 2048.
Definition PROT_READ : Z := 1.
Definition PROT_WRITE : Z := 2.
Definition MAP_SHARED : Z := 1.
(** [MAP_FAILED], the pointer with all bits set. *)
Definition MAP_FAILED : Z := 2 ^ 64 - 1.

Record v4l2_requestbuffers : Type := mkReqBufs {
  req_count : Z;
  req_type : Z;
  req_memory : Z
}.

Inductive sys_call : Type :=
| SYS_ioctl (call : ioctl_call)
| SYS_open (path : string) (flags : Z)
| SYS_close (fd : Z)
| SYS_mmap (len prot flags fd offset : Z)
| SYS_munmap (addr len : Z)
| SYS_VIDIOC_REQBUFS (fd : Z) (arg : v4l2_requestbuffers)
| SYS_VIDIOC_QUERYBUF (fd : Z) (arg : v4l2_buffer)
| SYS_VIDIOC_STREAMON (fd : Z) (type : Z)
| SYS_VIDIOC_STREAMOFF (fd : Z) (type : Z).

(** The system calls beyond [v4l2_driver], over the same system state.
    [sys_open] and [sys_mmap] answer [IoctlErr errno] for their failure
    values (-1 and [MAP_FAILED]); [sys_calloc] answers [NULL] or the
    address of the zeroed block. *)
Record v4l2_system (K : Type) : Type := mkSystem {
  sys_open : K -> string -> Z -> K * ioctl_result Z;
  sys_close : K -> Z -> K;
  sys_calloc : K -> K * ptr;
  sys_mmap : K -> Z -> Z -> Z -> Z -> Z -> K * ioctl_result Z;
  sys_munmap : K -> Z -> Z -> K;
  sys_reqbufs : K -> Z -> v4l2_requestbuffers
                -> K * ioctl_result v4l2_requestbuffers;
  sys_querybuf : K -> Z -> v4l2_buffer -> K * ioctl_result v4l2_buffer;
  sys_streamon : K -> Z -> Z -> K * ioctl_result Z;
  sys_streamoff : K -> Z -> Z -> K * ioctl_result Z
}.
Arguments sys_open {K} _ _ _ _.
Arguments sys_close {K} _ _ _.
Arguments sys_calloc {K} _ _.
Arguments sys_mmap {K} _ _ _ _ _ _ _.
Arguments sys_munmap {K} _ _ _ _.
Arguments sys_reqbufs {K} _ _ _ _.
Arguments sys_querybuf {K} _ _ _ _.
Arguments sys_streamon {K} _ _ _ _.
Arguments sys_streamoff {K} _ _ _ _.

Record machine (K : Type) : Type := mkMachine {
  m_world : world K;
  m_calls : list sys_call
}.
Arguments mkMachine {K} _ _.
Arguments m_world {K} _.
Arguments m_calls {K} _.

Definition SM (K A : Type) : Type := machine K -> A * machine K.

Definition sret {K A : Type} (a : A) : SM K A := fun m => (a, m).

Definition sbind {K A B : Type} (c : SM K A) (f : A -> SM K B) : SM K B :=
  fun m => let (a, m') := c m in f a m'.

Notation "x <~ c ;; k" := (sbind c (fun x => k))
  (at level 61, c at next level, right associativity) : dsv_scope.
Notation "c ;;~ k" := (sbind c (fun _ => k))
  (at level 61, right associativity) : dsv_scope.

Definition set_dev_streaming (d : dsv4l2_device_ex_t) (v : Z)
    : dsv4l2_device_ex_t :=
  mkDevice (dev_fd d) (dev_path d) (dev_role d) (dev_layer d) (dev_profile d)
           (dev_tempest_state d) (dev_current_format d) (dev_current_parm d)
           (dev_num_buffers d) (dev_buffers d) v.

Definition set_dev_num_buffers (d : dsv4l2_device_ex_t) (n : Z)
    : dsv4l2_device_ex_t :=
  mkDevice (dev_fd d) (dev_path d) (dev_role d) (dev_layer d) (dev_profile d)
           (dev_tempest_state d) (dev_current_format d) (dev_current_parm d)
           n (dev_buffers d) (dev_streaming d).

Definition set_dev_buffers (d : dsv4l2_device_ex_t)
    (bufs : list buffer_info_t) : dsv4l2_device_ex_t :=
  mkDevice (dev_fd d) (dev_path d) (dev_role d) (dev_layer d) (dev_profile d)
           (dev_tempest_state d) (dev_current_format d) (dev_current_parm d)
           (dev_num_buffers d) bufs (dev_streaming d).

(** [bufs[i] = slot]; an index outside the array is undefined in C and
    leaves the list as it is here. *)
Fixpoint set_slot (bufs : list buffer_info_t) (i : nat) (slot : buffer_info_t)
    : list buffer_info_t :=
  match bufs, i with
  | [], _ => []
  | _ :: rest, O => slot :: rest
  | b :: rest, S i' => b :: set_slot rest i' slot
  end.

Section Lifecycle.

Context {K : Type} (drv : v4l2_driver K) (sys : v4l2_system K).

Definition with_kernel (w : world K) (k : K) : world K :=
  mkWorld (w_dev w) k (w_ioctls w) (w_events w).

Definition sget_dev : SM K dsv4l2_device_ex_t :=
  fun m => (w_dev (m_world m), m).

Definition sput_dev (d : dsv4l2_device_ex_t) : SM K unit :=
  fun m =>
    let w := m_world m in
    (tt, mkMachine (mkWorld d (w_kernel w) (w_ioctls w) (w_events w))
                   (m_calls m)).

(** A system call that answers: traced, then answered. *)
Definition sys_do {A : Type} (op : K -> K * A) (call : sys_call) : SM K A :=
  fun m =>
    let (k', r) := op (w_kernel (m_world m)) in
    (r, mkMachine (with_kernel (m_world m) k') (m_calls m ++ [call])).

(** A system call whose result the code drops. *)
Definition sys_do_ (op : K -> K) (call : sys_call) : SM K unit :=
  fun m =>
    (tt, mkMachine (with_kernel (m_world m) (op (w_kernel (m_world m))))
                   (m_calls m ++ [call])).

(** An allocation: answered, not a system call. *)
Definition sys_alloc {A : Type} (op : K -> K * A) : SM K A :=
  fun m =>
    let (k', r) := op (w_kernel (m_world m)) in
    (r, mkMachine (with_kernel (m_world m) k') (m_calls m)).

(** A computation of the first part, run on the machine: the ioctls it
    issues are appended to the trace of system calls. *)
Definition lift {A : Type} (c : M K A) : SM K A :=
  fun m =>
    let (a, w') := c (m_world m) in
    (a, mkMachine w'
          (m_calls m ++ map SYS_ioctl (issued_since (m_world m) w'))).

Definition dsv4l2_open_device (device_path : option string)
    (profile : option dsv4l2_profile_t) (out_dev : ptr)
    : SM K (Z * option ptr) :=
  match device_path, out_dev with
  | Some device_path, Ptr _ =>
      dev_ex <~ sys_alloc (sys_calloc sys) ;;
      match dev_ex with
      | NULL => sret (- ENOMEM, None)
      | Ptr _ =>
          let flags := Z.lor O_RDWR O_NONBLOCK in
          r <~ sys_do (fun k => sys_open sys k device_path flags)
                      (SYS_open device_path flags) ;;
          match r with
          | IoctlErr errno => sret (- errno, None)
          | IoctlOk fd =>
              let opened :=
                mkDevice fd (strncpy 255 device_path) EmptyString 0 None
                         DSV4L2_TEMPEST_DISABLED None None 0 [] 0 in
              match profile with
              | Some profile =>
                  ok <~ sys_alloc (os_malloc drv) ;;
                  (if ok then
                     sput_dev
                       (mkDevice fd (strncpy 255 device_path)
                                 (strncpy 31 (profile_role profile)) 0
                                 (Some profile)
                                 DSV4L2_TEMPEST_DISABLED None None 0 [] 0)
                   else sput_dev opened) ;;~
                  sret (0, Some dev_ex)
              | None =>
                  sput_dev opened ;;~
                  sret (0, Some dev_ex)
              end
          end
      end
  | _, _ => sret (- EINVAL, None)
  end.

Definition dsv4l2_stop_stream (dev : ptr) : SM K Z :=
  if is_null dev then sret (- EINVAL) else
  dev_ex <~ sget_dev ;;
  if dev_streaming dev_ex =? 0 then sret 0 else
  let type := V4L2_BUF_TYPE_VIDEO_CAPTURE in
  r <~ sys_do (fun k => sys_streamoff sys k (dev_fd dev_ex) type)
              (SYS_VIDIOC_STREAMOFF (dev_fd dev_ex) type) ;;
  match r with
  | IoctlErr errno => sret (- errno)
  | IoctlOk _ =>
      sput_dev (set_dev_streaming dev_ex 0) ;;~
      sret 0
  end.

Definition ring_request (i : Z) : v4l2_buffer :=
  mkBuffer i V4L2_BUF_TYPE_VIDEO_CAPTURE 0 0 0 (mkTimeval 0 0) 0
           V4L2_MEMORY_MMAP 0 0.

(** The mapping loop of [dsv4l2_start_stream], [n] rounds from index [i];
    [Some rc] is an early [return rc]. *)
Fixpoint map_buffers (n : nat) (i : Z) (fd : Z) : SM K (option Z) :=
  match n with
  | O => sret None
  | S n' =>
      r <~ sys_do (fun k => sys_querybuf sys k fd (ring_request i))
                  (SYS_VIDIOC_QUERYBUF fd (ring_request i)) ;;
      match r with
      | IoctlErr errno => sret (Some (- errno))
      | IoctlOk buf =>
          let prot := Z.lor PROT_READ PROT_WRITE in
          r' <~ sys_do (fun k => sys_mmap sys k (buf_length buf) prot
                                          MAP_SHARED fd (buf_offset buf))
                       (SYS_mmap (buf_length buf) prot MAP_SHARED fd
                                 (buf_offset buf)) ;;
          dev_ex <~ sget_dev ;;
          match r' with
          | IoctlErr errno =>
              sput_dev (set_dev_buffers dev_ex
                          (set_slot (dev_buffers dev_ex) (Z.to_nat i)
                                    (mkBufferInfo MAP_FAILED (buf_length buf)))) ;;~
              sret (Some (- errno))
          | IoctlOk addr =>
              sput_dev (set_dev_buffers dev_ex
                          (set_slot (dev_buffers dev_ex) (Z.to_nat i)
                                    (mkBufferInfo addr (buf_length buf)))) ;;~
              map_buffers n' (i + 1) fd
          end
      end
  end.

(** The queueing loop. *)
Fixpoint queue_buffers (n : nat) (i : Z) (fd : Z) : SM K (option Z) :=
  match n with
  | O => sret None
  | S n' =>
      r <~ lift (do_ioctl (drv_qbuf drv) VIDIOC_QBUF fd (ring_request i)) ;;
      match r with
      | IoctlErr errno => sret (Some (- errno))
      | IoctlOk _ => queue_buffers n' (i + 1) fd
      end
  end.

(** The block under [if (dev_ex->num_buffers == 0)]. *)
Definition setup_ring (dev_ex : dsv4l2_device_ex_t) : SM K (option Z) :=
  let buffer_count :=
    match dev_profile dev_ex with
    | Some profile =>
        if buffer_count profile >? 0 then buffer_count profile else 4
    | None => 4
    end in
  let req :=
    mkReqBufs (u32 buffer_count) V4L2_BUF_TYPE_VIDEO_CAPTURE
              V4L2_MEMORY_MMAP in
  r <~ sys_do (fun k => sys_reqbufs sys k (dev_fd dev_ex) req)
              (SYS_VIDIOC_REQBUFS (dev_fd dev_ex) req) ;;
  match r with
  | IoctlErr errno => sret (Some (- errno))
  | IoctlOk req =>
      bufs <~ sys_alloc (sys_calloc sys) ;;
      if is_null bufs then sret (Some (- ENOMEM)) else
      sput_dev
        (set_dev_num_buffers
           (set_dev_buffers dev_ex
              (repeat (mkBufferInfo 0 0) (Z.to_nat (req_count req))))
           (i32 (req_count req))) ;;~
      mapped <~ map_buffers (Z.to_nat (req_count req)) 0 (dev_fd dev_ex) ;;
      match mapped with
      | Some rc => sret (Some rc)
      | None =>
          queue_buffers (Z.to_nat (i32 (req_count req))) 0 (dev_fd dev_ex)
      end
  end.

Definition dsv4l2_start_stream (dev : ptr) : SM K Z :=
  if is_null dev then sret (- EINVAL) else
  dev_ex <~ sget_dev ;;
  if negb (dev_streaming dev_ex =? 0) then sret 0 else
  failed <~ (if dev_num_buffers dev_ex =? 0 then setup_ring dev_ex
             else sret None) ;;
  match failed with
  | Some rc => sret rc
  | None =>
      let type := V4L2_BUF_TYPE_VIDEO_CAPTURE in
      r <~ sys_do (fun k => sys_streamon sys k (dev_fd dev_ex) type)
                  (SYS_VIDIOC_STREAMON (dev_fd dev_ex) type) ;;
      match r with
      | IoctlErr errno => sret (- errno)
      | IoctlOk _ =>
          dev_now <~ sget_dev ;;
          sput_dev (set_dev_streaming dev_now 1) ;;~
          sret 0
      end
  end.

(** The unmapping loop of [dsv4l2_close_device]. *)
Fixpoint unmap_buffers (n : nat) (i : Z) (bufs : list buffer_info_t)
    : SM K unit :=
  match n with
  | O => sret tt
  | S n' =>
      let slot := nth (Z.to_nat i) bufs (mkBufferInfo 0 0) in
      (if negb (info_start slot =? 0) && negb (info_start slot =? MAP_FAILED)
       then sys_do_ (fun k => sys_munmap sys k (info_start slot)
                                         (info_length slot))
                    (SYS_munmap (info_start slot) (info_length slot))
       else sret tt) ;;~
      unmap_buffers n' (i + 1) bufs
  end.

(** The device block is freed at the end; the record the world keeps after
    the call is what the block held at that point.  A NULL [buffers]
    pointer is the empty list. *)
Definition dsv4l2_close_device (dev : ptr) : SM K unit :=
  if is_null dev then sret tt else
  dev_ex <~ sget_dev ;;
  (if negb (dev_streaming dev_ex =? 0)
   then dsv4l2_stop_stream dev ;;~ sret tt
   else sret tt) ;;~
  dev_ex <~ sget_dev ;;
  (match dev_buffers dev_ex with
   | [] => sret tt
   | bufs => unmap_buffers (Z.to_nat (dev_num_buffers dev_ex)) 0 bufs
   end) ;;~
  (if dev_fd dev_ex >=? 0
   then sys_do_ (fun k => sys_close sys k (dev_fd dev_ex))
                (SYS_close (dev_fd dev_ex))
   else sret tt).

End Lifecycle.

(** ** Further sample inputs *)

Definition EAGAIN : Z := 11.
Definition EIO : Z := 5.

(** The sample device with a ring of two slots, streaming, in state LOW. *)
Definition streaming_world : world unit :=
  mkWorld
    (mkDevice 3 "/dev/video0" "iris_scanner" 3 (Some sample_profile)
              DSV4L2_TEMPEST_LOW None None 2
              [mkBufferInfo 0x7f0000000000 614400;
               mkBufferInfo 0x7f0000100000 614400] 1)
    tt [] [].

(** A driver with no frame ready: DQBUF answers EAGAIN. *)
Definition busy_driver : v4l2_driver unit :=
  mkDriver unit
    (fun k _ fmt => (k, IoctlOk fmt))
    (fun k _ p => (k, IoctlOk p))
    (fun k _ p => (k, IoctlOk p))
    (fun k _ _ => (k, IoctlErr EAGAIN))
    (fun k _ b => (k, IoctlOk b))
    (fun k _ _ => (k, IoctlErr EINVAL))
    (fun k _ c => (k, IoctlOk c))
    (fun k => (k, true)).

(** A driver that hands out slot 1 and then refuses to take it back. *)
Definition stuck_driver : v4l2_driver unit :=
  mkDriver unit
    (fun k _ fmt => (k, IoctlOk fmt))
    (fun k _ p => (k, IoctlOk p))
    (fun k _ p => (k, IoctlOk p))
    (fun k _ b =>
       (k, IoctlOk (mkBuffer 1 (buf_type b) 4096 0 0 (mkTimeval 2 30) 9
                             (buf_memory b) 0 614400)))
    (fun k _ _ => (k, IoctlErr EIO))
    (fun k _ _ => (k, IoctlErr EINVAL))
    (fun k _ c => (k, IoctlOk c))
    (fun k => (k, true)).

(** "The driver's failures carry a positive errno", for the two ioctls of
    a capture. *)
Definition capture_errnos_positive {K : Type} (drv : v4l2_driver K) : Prop :=
  (forall k fd b k' e, drv_dqbuf drv k fd b = (k', IoctlErr e) -> 0 < e) /\
  (forall k fd b k' e, drv_qbuf drv k fd b = (k', IoctlErr e) -> 0 < e).

(** The fields of a frame, without its label. *)
Definition frame_fields_eq (g : option dsv4l2_frame_t)
    (b : option dsv4l2_biometric_frame_t) : Prop :=
  match g, b with
  | None, None => True
  | Some g, Some b =>
      frame_data g = bio_data b /\ frame_len g = bio_len b /\
      frame_timestamp_ns g = bio_timestamp_ns b /\
      frame_sequence g = bio_sequence b
  | _, _ => False
  end.

(** An event without the context string of a policy check. *)
Definition strip_context (e : dsv4l2_event) : dsv4l2_event :=
  match e with
  | EV_policy_check dev_id _ rc => EV_policy_check dev_id EmptyString rc
  | _ => e
  end.

(** What [dsv4l2_enum_controls] computes over the controls a driver hands
    out: the callback runs on the controls that are not flagged disabled,
    in order, until it returns a non-zero code. *)
Fixpoint visit {U : Type} (callback : v4l2_queryctrl -> U -> Z * U)
    (ctrls : list v4l2_queryctrl) (user_data : U) : U :=
  match ctrls with
  | [] => user_data
  | q :: rest =>
      if Z.land (qc_flags q) V4L2_CTRL_FLAG_DISABLED =? 0 then
        let (rc, user_data') := callback q user_data in
        if negb (rc =? 0) then user_data' else visit callback rest user_data'
      else visit callback rest user_data
  end.

Definition is_queryctrl (c : ioctl_call) : bool :=
  match c with
  | VIDIOC_QUERYCTRL _ _ => true
  | _ => false
  end.

Definition toupper (c : ascii) : ascii :=
  let n := nat_of_ascii c in
  if (97 <=? n)%nat && (n <=? 122)%nat then ascii_of_nat (n - 32) else c.

(** Four characters, each a 7-bit ASCII code. *)
Definition is_ascii_fourcc (s : string) : bool :=
  match s with
  | String c0 (String c1 (String c2 (String c3 EmptyString))) =>
      forallb (fun c => (nat_of_ascii c <? 128)%nat) [c0; c1; c2; c3]
  | _ => false
  end.

(** The events of a document that is one flat mapping of scalar pairs
    [k1: v1], ..., [kn: vn]. *)
Definition flat_document (pairs : list (string * string))
    : list yaml_parse_result :=
  map YamlEvent
    ([YAML_STREAM_START_EVENT; YAML_DOCUMENT_START_EVENT;
      YAML_MAPPING_START_EVENT] ++
     flat_map (fun kv => [YAML_SCALAR_EVENT (fst kv);
                          YAML_SCALAR_EVENT (snd kv)]) pairs ++
     [YAML_MAPPING_END_EVENT; YAML_DOCUMENT_END_EVENT;
      YAML_STREAM_END_EVENT]).

(** The value of the last pair whose key (as the loader keeps it, cut to 63
    characters) is [key]. *)
Definition last_value (key : string) (pairs : list (string * string))
    : option string :=
  fold_left (fun acc kv =>
               if streq (strncpy 63 (fst kv)) key then Some (snd kv) else acc)
            pairs None.

(** The scalar keys the loader acts on outside [tempest_control]. *)
Definition scalar_keys : list string :=
  ["id"; "role"; "device_hint"; "classification"; "pixel_format"; "fps";
   "meta_device"; "buffer_count"; "constant_time_required";
   "quantum_candidate"].

Definition recognized (kv : string * string) : bool :=
  existsb (streq (strncpy 63 (fst kv))) scalar_keys.

(** Neither a parser failure nor the end of the stream. *)
Definition ordinary (r : yaml_parse_result) : bool :=
  match r with
  | YamlError => false
  | YamlEvent YAML_STREAM_END_EVENT => false
  | YamlEvent _ => true
  end.

(** An environment in which the file opens and the allocations succeed. *)
Definition serves (env : loader_env) (path : string)
    (events : list yaml_parse_result) : Prop :=
  env_fopen env path = FileOpened events /\
  env_calloc_ok env = true /\ env_parser_init_ok env = true.

(** One step of the flat mapping: the profile after the pair [k: v]. *)
Definition pair_step (p : dsv4l2_profile_t) (kv : string * string)
    : dsv4l2_profile_t :=
  assign_scalar (strncpy 63 (fst kv)) (snd kv) p.

(** The loader's locals after the events of [pre], none of which ends the
    loop. *)
Definition run_events (pre : list yaml_parse_result) (st : loader_state)
    : loader_state :=
  fold_left (fun s r => match r with
                        | YamlEvent ev => loader_step ev s
                        | YamlError => s
                        end) pre st.

(** "The profile specifies a format": the test [dsv4l2_profile_apply]
    makes before it sets one. *)
Definition format_specified (p : dsv4l2_profile_t) : bool :=
  negb (pixel_format p =? 0) && negb (width p =? 0) && negb (height p =? 0).

(** The S_FMT request [dsv4l2_set_format] builds. *)
Definition format_request (pixfmt width height : Z) : v4l2_format :=
  mkFormat V4L2_BUF_TYPE_VIDEO_CAPTURE
           (mkPix width height pixfmt V4L2_FIELD_NONE 0 0 0).

(** Every ioctl a computation issues satisfies [P], in every world. *)
Definition appends_only {K A : Type} (P : ioctl_call -> bool) (c : M K A)
    : Prop :=
  forall w, exists issued,
    w_ioctls (snd (c w)) = w_ioctls w ++ issued /\
    forallb P issued = true.

(** The ioctls that get or set the frame interval or query a control. *)
Definition parm_or_query (c : ioctl_call) : bool :=
  match c with
  | VIDIOC_G_PARM _ _ | VIDIOC_S_PARM _ _ | VIDIOC_QUERYCTRL _ _ => true
  | _ => false
  end.

(** An S_PARM asks for a positive numerator and denominator. *)
Definition positive_interval (c : ioctl_call) : bool :=
  match c with
  | VIDIOC_S_PARM _ p =>
      (1 <=? numerator (timeperframe (parm_capture p))) &&
      (1 <=? denominator (timeperframe (parm_capture p)))
  | _ => true
  end.

(** A device as [dsv4l2_open_device] leaves it for [path] and [profile]:
    state DISABLED, layer 0, no ring, nothing cached, not streaming; the
    profile is bound unless none was given or its copy could not be
    allocated. *)
Definition freshly_opened (path : string) (profile : option dsv4l2_profile_t)
    (d : dsv4l2_device_ex_t) : Prop :=
  dev_path d = strncpy 255 path /\
  dev_layer d = 0 /\
  dev_tempest_state d = DSV4L2_TEMPEST_DISABLED /\
  dev_current_format d = None /\ dev_current_parm d = None /\
  dev_num_buffers d = 0 /\ dev_buffers d = [] /\ dev_streaming d = 0 /\
  (dev_profile d = None /\ dev_role d = EmptyString \/
   exists p, profile = Some p /\ dev_profile d = Some p /\
             dev_role d = strncpy 31 (profile_role p)).

(** A slot that [dsv4l2_close_device] unmaps. *)
Definition mapped (slot : buffer_info_t) : bool :=
  negb (info_start slot =? 0) && negb (info_start slot =? MAP_FAILED).

(** The system calls a computation added to the trace of a machine. *)
Definition calls_since {K : Type} (m m' : machine K) : list sys_call :=
  skipn (List.length (m_calls m)) (m_calls m').

(** A system for runs on concrete inputs: every call succeeds; REQBUFS
    grants what is asked, buffer [i] is 614400 bytes at offset
    [i * 614400] and maps at 0x7f0000000000 plus its offset. *)
Definition sim_system : v4l2_system unit :=
  mkSystem unit
    (fun k _ _ => (k, IoctlOk 3))
    (fun k _ => k)
    (fun k => (k, Ptr 0x5000))
    (fun k _ _ _ _ offset => (k, IoctlOk (0x7f0000000000 + offset)))
    (fun k _ _ => k)
    (fun k _ req => (k, IoctlOk req))
    (fun k _ b =>
       (k, IoctlOk (mkBuffer (buf_index b) (buf_type b) 0 0 0 (mkTimeval 0 0)
                             0 (buf_memory b) (buf_index b * 614400) 614400)))
    (fun k _ t => (k, IoctlOk t))
    (fun k _ t => (k, IoctlOk t)).

(** The same system with a driver that cannot describe its buffers:
    QUERYBUF answers EINVAL. *)
Definition broken_system : v4l2_system unit :=
  mkSystem unit
    (fun k _ _ => (k, IoctlOk 3))
    (fun k _ => k)
    (fun k => (k, Ptr 0x5000))
    (fun k _ _ _ _ offset => (k, IoctlOk (0x7f0000000000 + offset)))
    (fun k _ _ => k)
    (fun k _ req => (k, IoctlOk req))
    (fun k _ _ => (k, IoctlErr EINVAL))
    (fun k _ t => (k, IoctlOk t))
    (fun k _ t => (k, IoctlOk t)).

Definition sample_machine : machine unit := mkMachine sample_world [].

Definition streaming_machine : machine unit := mkMachine streaming_world [].

(** The device [d'] is [d] up to the content of its ring slots. *)
Definition same_but_slots (d d' : dsv4l2_device_ex_t) : Prop :=
  dev_fd d' = dev_fd d /\
  dev_streaming d' = dev_streaming d /\
  dev_num_buffers d' = dev_num_buffers d /\
  List.length (dev_buffers d') = List.length (dev_buffers d) /\
  dev_tempest_state d' = dev_tempest_state d.

(** The REQBUFS request of [dsv4l2_start_stream] for a device. *)
Definition ring_reqbufs (d : dsv4l2_device_ex_t) : v4l2_requestbuffers :=
  mkReqBufs
    (u32 (match dev_profile d with
          | Some profile =>
              if buffer_count profile >? 0 then buffer_count profile else 4
          | None => 4
          end))
    V4L2_BUF_TYPE_VIDEO_CAPTURE V4L2_MEMORY_MMAP.

(** The pairs of a flat profile document with a key the loader does not
    know. *)
Definition sample_pairs : list (string * string) :=
  [("role", "camera"); ("fps", "30"); ("vendor", "acme");
   ("pixel_format", "YUYV"); ("fps", "60")].

(** A document the parser gives up on after its first pair. *)
Definition truncated_document : list yaml_parse_result :=
  map YamlEvent
    [YAML_STREAM_START_EVENT; YAML_DOCUMENT_START_EVENT;
     YAML_MAPPING_START_EVENT; YAML_SCALAR_EVENT "role";
     YAML_SCALAR_EVENT "camera"] ++ [YamlError].

(** A profile that asks for auto-detection of the TEMPEST control and
    nothing else. *)
Definition auto_profile : dsv4l2_profile_t :=
  set_tempest_control initial_profile (mkTempestControl 0 0 0 0 0 1).

Definition EBUSY : Z := 16.

(** A driver that refuses every format: S_FMT answers EBUSY. *)
Definition refusing_driver : v4l2_driver unit :=
  mkDriver unit
    (fun k _ _ => (k, IoctlErr EBUSY))
    (fun k _ p => (k, IoctlOk p))
    (fun k _ p => (k, IoctlOk p))
    (fun k _ b => (k, IoctlOk b))
    (fun k _ b => (k, IoctlOk b))
    (fun k _ _ => (k, IoctlErr EINVAL))
    (fun k _ c => (k, IoctlOk c))
    (fun k => (k, true)).

(** A profile that specifies a format (YUYV, 640x480), 30 frames per
    second and auto-detection. *)
Definition format_profile : dsv4l2_profile_t :=
  mkProfile "camera_vga" "camera" EmptyString EmptyString
    1448695129 640 480 30 1
    (repeat (mkPreset 0 0) (Z.to_nat DSV4L2_MAX_CONTROLS)) 0
    (mkTempestControl 0 0 0 0 0 1) EmptyString 0 4 0 0.

(** Pairs whose numbers do not fit a [long] or an [int]. *)
Definition overflow_pairs : list (string * string) :=
  [("buffer_count", "99999999999999999999"); ("fps", "4294967297")].

(** * Properties *)

(** ** TEMPEST engine and policy gate *)

(** Unfolds the monadic plumbing of a call and reduces the binds. *)
Tactic Notation "run_call" reference(f) :=
  unfold f;
  cbv beta iota zeta delta
    [bind ret get_dev put_dev emit malloc do_ioctl store_cached
     dsv4l2_get_tempest_state is_null orb].

(** Reduces the projections of a world that a step has rebuilt. *)
Ltac reduce_world :=
  cbn beta iota zeta delta [w_dev w_kernel w_ioctls w_events fst snd].

Section GateProperties.

Context {K : Type} (drv : v4l2_driver K).

Lemma tempest_eqb_eq (a b : dsv4l2_tempest_state_t) :
  tempest_eqb a b = true <-> a = b.
Proof.
  unfold tempest_eqb; split.
  - intro H; apply Z.eqb_eq in H; destruct a, b; simpl in H;
      (reflexivity || discriminate).
  - intros ->; apply Z.eqb_refl.
Qed.

(** The gate, on a live handle: its code depends on the state alone, and it
    adds one [policy_check] event and nothing else. *)
Lemma policy_check_capture_run (a : Z) (s : dsv4l2_tempest_state_t)
    (ctx : string) (w : world K) :
  dsv4l2_policy_check_capture (Ptr a) s ctx w =
    (let rc := if tempest_eqb s DSV4L2_TEMPEST_LOCKDOWN then - EACCES else 0 in
     (rc, mkWorld (w_dev w) (w_kernel w) (w_ioctls w)
                  (w_events w ++ [EV_policy_check (u32 a) ctx rc]))).
Proof. reflexivity. Qed.

Lemma policy_check_codes (a : Z) (s : dsv4l2_tempest_state_t)
    (ctx : string) (w : world K) :
  fst (dsv4l2_policy_check_capture (Ptr a) s ctx w) = 0 \/
  fst (dsv4l2_policy_check_capture (Ptr a) s ctx w) = - EACCES.
Proof.
  rewrite policy_check_capture_run; simpl.
  destruct (tempest_eqb s DSV4L2_TEMPEST_LOCKDOWN); auto.
Qed.

(** What both capture entry points do when the gate refuses. *)
Lemma capture_frame_denied (a f : Z) (w : world K) :
  dev_tempest_state (w_dev w) = DSV4L2_TEMPEST_LOCKDOWN ->
  dsv4l2_capture_frame drv (Ptr a) (Ptr f) w =
    (- EACCES, None,
     mkWorld (w_dev w) (w_kernel w) (w_ioctls w)
       (w_events w ++
          [EV_policy_check (u32 a) "dsv4l2_capture_frame" (- EACCES)])).
Proof.
  intro H.
  run_call dsv4l2_capture_frame.
  rewrite policy_check_capture_run, H. reflexivity.
Qed.

Lemma capture_iris_denied (a f : Z) (w : world K) :
  dev_tempest_state (w_dev w) = DSV4L2_TEMPEST_LOCKDOWN ->
  dsv4l2_capture_iris drv (Ptr a) (Ptr f) w =
    (- EACCES, None,
     mkWorld (w_dev w) (w_kernel w) (w_ioctls w)
       (w_events w ++
          [EV_policy_check (u32 a) "dsv4l2_capture_iris" (- EACCES)])).
Proof.
  intro H.
  run_call dsv4l2_capture_iris.
  rewrite policy_check_capture_run, H. reflexivity.
Qed.

(** What both do when the gate lets a capture through on a device that is
    not streaming. *)
Lemma capture_frame_not_streaming (a : Z) (out_frame : ptr) (w : world K) :
  dev_tempest_state (w_dev w) <> DSV4L2_TEMPEST_LOCKDOWN ->
  dev_streaming (w_dev w) = 0 ->
  fst (dsv4l2_capture_frame drv (Ptr a) out_frame w) = (- EINVAL, None).
Proof.
  intros Hs H0.
  destruct out_frame as [|f]; run_call dsv4l2_capture_frame; [reflexivity|].
  rewrite policy_check_capture_run.
  destruct (tempest_eqb (dev_tempest_state (w_dev w)) DSV4L2_TEMPEST_LOCKDOWN)
    eqn:E.
  - apply tempest_eqb_eq in E; contradiction.
  - cbn. rewrite H0. reflexivity.
Qed.

Lemma capture_iris_not_streaming (a : Z) (out_frame : ptr) (w : world K) :
  dev_tempest_state (w_dev w) <> DSV4L2_TEMPEST_LOCKDOWN ->
  dev_streaming (w_dev w) = 0 ->
  fst (dsv4l2_capture_iris drv (Ptr a) out_frame w) = (- EINVAL, None).
Proof.
  intros Hs H0.
  destruct out_frame as [|f]; run_call dsv4l2_capture_iris; [reflexivity|].
  rewrite policy_check_capture_run.
  destruct (tempest_eqb (dev_tempest_state (w_dev w)) DSV4L2_TEMPEST_LOCKDOWN)
    eqn:E.
  - apply tempest_eqb_eq in E; contradiction.
  - cbn. rewrite H0. reflexivity.
Qed.

(** C1.  On a device whose cached TEMPEST state is LOCKDOWN, a capture
    call (generic or iris, on a live handle with an output frame) returns
    -EACCES and hands out no frame.  The device is arbitrary: its role,
    layer, profile and streaming flag do not matter, and the gate has no
    clearance or THREATCON input at all. *)
Theorem lockdown_denies_every_capture (a f : Z) (w : world K) :
  dev_tempest_state (w_dev w) = DSV4L2_TEMPEST_LOCKDOWN ->
  fst (dsv4l2_capture_frame drv (Ptr a) (Ptr f) w) = (- EACCES, None) /\
  fst (dsv4l2_capture_iris drv (Ptr a) (Ptr f) w) = (- EACCES, None).
Proof.
  intro H. rewrite capture_frame_denied, capture_iris_denied by exact H.
  split; reflexivity.
Qed.

(** C3.  When the policy gate refuses the capture of a device (it returns a
    non-zero code for the device's cached state), the capture call returns
    -EACCES, hands out no frame, issues no ioctl (so no DQBUF and no QBUF),
    and leaves the device record (streaming flag, ring, cached format and
    parameters, cached TEMPEST state) and the driver untouched. *)
Theorem denied_capture_leaves_device_alone (a f : Z) (ctx : string)
    (w : world K) :
  fst (dsv4l2_policy_check_capture (Ptr a) (dev_tempest_state (w_dev w))
                                   ctx w) <> 0 ->
  (let '(rc, frame, w') := dsv4l2_capture_frame drv (Ptr a) (Ptr f) w in
   rc = - EACCES /\ frame = None /\ issued_since w w' = [] /\
   w_ioctls w' = w_ioctls w /\ w_dev w' = w_dev w /\
   w_kernel w' = w_kernel w) /\
  (let '(rc, frame, w') := dsv4l2_capture_iris drv (Ptr a) (Ptr f) w in
   rc = - EACCES /\ frame = None /\ issued_since w w' = [] /\
   w_ioctls w' = w_ioctls w /\ w_dev w' = w_dev w /\
   w_kernel w' = w_kernel w).
Proof.
  intro Hdeny.
  assert (Hs : dev_tempest_state (w_dev w) = DSV4L2_TEMPEST_LOCKDOWN).
  { rewrite policy_check_capture_run in Hdeny. cbn in Hdeny.
    destruct (tempest_eqb (dev_tempest_state (w_dev w))
                          DSV4L2_TEMPEST_LOCKDOWN) eqn:E.
    - apply tempest_eqb_eq; exact E.
    - exfalso; apply Hdeny; reflexivity. }
  rewrite capture_frame_denied, capture_iris_denied by exact Hs.
  unfold issued_since; cbn [w_ioctls w_dev w_kernel].
  rewrite skipn_all.
  repeat split.
Qed.

(** C4, as amended.  On a live handle whose device is not streaming and
    whose cached TEMPEST state is not LOCKDOWN, a capture call (generic or
    iris, with or without an output frame) returns -EINVAL. *)
Theorem capture_while_not_streaming (a : Z) (out_frame : ptr) (w : world K) :
  dev_streaming (w_dev w) = 0 ->
  dev_tempest_state (w_dev w) <> DSV4L2_TEMPEST_LOCKDOWN ->
  fst (dsv4l2_capture_frame drv (Ptr a) out_frame w) = (- EINVAL, None) /\
  fst (dsv4l2_capture_iris drv (Ptr a) out_frame w) = (- EINVAL, None).
Proof.
  intros H0 Hs; split.
  - apply capture_frame_not_streaming; assumption.
  - apply capture_iris_not_streaming; assumption.
Qed.

(** C2, as amended.  For a device whose negotiated format exceeds the caps
    of its layer's policy, the gate answers by the TEMPEST state alone:
    -EACCES when the state is LOCKDOWN and 0 (allow) otherwise, whatever
    the layer table says. *)
Theorem gate_ignores_layer_caps (tbl : layer_table) (a : Z) (ctx : string)
    (w : world K) :
  format_exceeds_caps tbl (w_dev w) = true ->
  fst (dsv4l2_policy_check_capture (Ptr a) (dev_tempest_state (w_dev w))
                                   ctx w) =
    (if tempest_eqb (dev_tempest_state (w_dev w)) DSV4L2_TEMPEST_LOCKDOWN
     then - EACCES else 0).
Proof. intros _. rewrite policy_check_capture_run. reflexivity. Qed.

(** C5, as amended.  On a live handle, with or without a TEMPEST mapping
    installed, [dsv4l2_set_tempest_state] returns 0, issues no ioctl (no
    S_CTRL write), replaces the cached state by the target and logs one
    [tempest_transition(old, new)] event; nothing else changes. *)
Theorem set_tempest_state_updates_cache_only (a : Z)
    (target : dsv4l2_tempest_state_t) (w : world K) :
  dsv4l2_set_tempest_state (Ptr a) target w =
    (0, mkWorld (set_dev_tempest_state (w_dev w) target)
                (w_kernel w) (w_ioctls w)
                (w_events w ++
                   [EV_tempest_transition (u32 a)
                      (dev_tempest_state (w_dev w)) target])).
Proof. reflexivity. Qed.

(** C10.  [dsv4l2_get_tempest_state] on NULL yields DISABLED, whose value
    is 0, not an error code; on a live handle it yields the cached state;
    in both cases the world (device record, driver, trace, ring) is left
    as it was. *)
Theorem get_tempest_state_reads_cache (w : world K) :
  dsv4l2_get_tempest_state NULL w = (DSV4L2_TEMPEST_DISABLED, w) /\
  tempest_value DSV4L2_TEMPEST_DISABLED = 0 /\
  forall a : Z,
    dsv4l2_get_tempest_state (Ptr a) w = (dev_tempest_state (w_dev w), w).
Proof. repeat split. Qed.

End GateProperties.

(** ** Frame rate *)

Section FramerateProperties.

Context {K : Type} (drv : v4l2_driver K).

Lemma skipn_length_app {A : Type} (l l' : list A) :
  skipn (List.length l) (l ++ l') = l'.
Proof. induction l as [|x l IH]; simpl; auto. Qed.

(** The ioctls of one [dsv4l2_set_framerate] call on a live handle. *)
Lemma set_framerate_issues (a fps_num fps_den : Z) (w : world K) :
  issued_since w (snd (dsv4l2_set_framerate drv (Ptr a) fps_num fps_den w)) =
    let fd := dev_fd (w_dev w) in
    VIDIOC_G_PARM fd framerate_request ::
    match snd (drv_g_parm drv (w_kernel w) fd framerate_request) with
    | IoctlOk parm =>
        [VIDIOC_S_PARM fd (set_timeperframe parm fps_den fps_num)]
    | IoctlErr _ => []
    end.
Proof.
  unfold issued_since. run_call dsv4l2_set_framerate.
  fold framerate_request.
  destruct (drv_g_parm drv (w_kernel w) (dev_fd (w_dev w)) framerate_request)
    as [k1 [parm|e]]; reduce_world.
  - destruct (drv_s_parm drv k1 (dev_fd (w_dev w))
                (set_timeperframe parm fps_den fps_num)) as [k2 [parm'|e]];
      reduce_world.
    + destruct (dev_current_parm (w_dev w)); reduce_world;
        [|destruct (os_malloc drv k2); reduce_world];
        rewrite <- app_assoc; apply skipn_length_app.
    + rewrite <- app_assoc; apply skipn_length_app.
  - apply skipn_length_app.
Qed.

(** C9.  [dsv4l2_set_framerate] on a live handle: every S_PARM it issues
    carries [fps_den] in the numerator of timeperframe and [fps_num] in the
    denominator; and whenever the driver answers its G_PARM, it issues
    exactly that G_PARM followed by one S_PARM of the driver's answer with
    numerator [fps_den] and denominator [fps_num], all other fields kept. *)
Theorem set_framerate_writes_den_over_num (a fps_num fps_den : Z)
    (w : world K) :
  let fd := dev_fd (w_dev w) in
  let w' := snd (dsv4l2_set_framerate drv (Ptr a) fps_num fps_den w) in
  (forall (fd' : Z) (p : v4l2_streamparm),
      In (VIDIOC_S_PARM fd' p) (issued_since w w') ->
      numerator (timeperframe (parm_capture p)) = fps_den /\
      denominator (timeperframe (parm_capture p)) = fps_num) /\
  (forall (k1 : K) (parm : v4l2_streamparm),
      drv_g_parm drv (w_kernel w) fd framerate_request = (k1, IoctlOk parm) ->
      issued_since w w' =
        [VIDIOC_G_PARM fd framerate_request;
         VIDIOC_S_PARM fd
           (mkStreamParm (parm_type parm)
              (mkCaptureParm (capability (parm_capture parm))
                 (capturemode (parm_capture parm))
                 (mkFract fps_den fps_num)
                 (extendedmode (parm_capture parm))
                 (readbuffers (parm_capture parm))))]).
Proof.
  cbv zeta. rewrite set_framerate_issues. cbv zeta. split.
  - intros fd' p Hin.
    destruct (snd (drv_g_parm drv (w_kernel w) (dev_fd (w_dev w))
                              framerate_request)) as [parm|e];
      simpl in Hin.
    + destruct Hin as [Hin|[Hin|[]]]; [discriminate|].
      injection Hin as _ <-. split; reflexivity.
    + destruct Hin as [Hin|[]]; discriminate.
  - intros k1 parm Hg. rewrite Hg. reflexivity.
Qed.

End FramerateProperties.

(** ** Auto-discovery of the TEMPEST control *)

Section StringFacts.

Lemma prefix_occurs (p s : string) :
  String.prefix p s = true <-> exists post : string, s = (p ++ post)%string.
Proof.
  revert s; induction p as [|c p IH]; intro s; simpl.
  - split; [intros _; exists s; reflexivity | destruct s; reflexivity].
  - destruct s as [|d s]; simpl.
    + split; [discriminate | intros [post H]; discriminate].
    + destruct (ascii_dec c d) as [->|Hne].
      * rewrite IH. split; intros [post H]; exists post.
        -- rewrite H; reflexivity.
        -- injection H as H; exact H.
      * split; [discriminate|].
        intros [post H]; injection H as H1 _; congruence.
Qed.

Lemma strstr_occurs (hay needle : string) :
  strstr hay needle = true <-> occurs_in needle hay.
Proof.
  unfold occurs_in. induction hay as [|c hay IH]; cbn [strstr].
  - rewrite orb_false_r, prefix_occurs. split.
    + intros [post H]; exists EmptyString, post; exact H.
    + intros [[|d pre] [post H]]; [exists post; exact H | discriminate].
  - rewrite orb_true_iff, IH, prefix_occurs. split.
    + intros [[post H]|[pre [post H]]].
      * exists EmptyString, post; exact H.
      * exists (String c pre), post; simpl; rewrite H; reflexivity.
    + intros [[|d pre] [post H]].
      * left; exists post; exact H.
      * right; exists pre, post. simpl in H; injection H as _ H; exact H.
Qed.

Lemma strncpy_short (n : nat) (s : string) :
  (String.length s <= n)%nat -> strncpy n s = s.
Proof.
  revert s; induction n as [|n IH]; intros [|c s] H; simpl in *;
    try reflexivity; [lia|].
  rewrite IH by lia; reflexivity.
Qed.

(** The code's [tolower] is the lowercasing of the specification, on each
    of the 256 characters. *)
Lemma tolower_spec_lowercase (c : ascii) : tolower c = spec_lowercase c.
Proof.
  destruct c as [[] [] [] [] [] [] [] []]; vm_compute; reflexivity.
Qed.

Lemma lowered_name_spec (name : string) :
  str_map tolower name = str_map spec_lowercase name.
Proof.
  induction name as [|c name IH]; cbn [str_map]; [reflexivity|].
  rewrite tolower_spec_lowercase, IH. reflexivity.
Qed.

(** The table of the classifier holds the patterns of the specification. *)
Lemma tempest_patterns_spec (pattern : string) :
  In pattern tempest_patterns <-> In pattern spec_tempest_patterns.
Proof.
  unfold tempest_patterns, spec_tempest_patterns. cbn [In].
  split; intro H; exact H.
Qed.

(** On a name that fits the 255 characters the classifier keeps, the
    classifier decides "the lowercased name contains a pattern". *)
Lemma is_tempest_control_looks (name : string) :
  (String.length name <= 255)%nat ->
  is_tempest_control name = true <-> looks_tempest name.
Proof.
  intro Hlen. unfold is_tempest_control, looks_tempest.
  rewrite strncpy_short by exact Hlen.
  rewrite existsb_exists, lowered_name_spec.
  split; intros [p [Hin H]]; exists p;
    (split; [apply tempest_patterns_spec; exact Hin|]);
    apply strstr_occurs; exact H.
Qed.

Lemma candidate_selectable (q : v4l2_queryctrl) :
  (String.length (qc_name q) <= 255)%nat ->
  candidate q = true <-> selectable q.
Proof.
  intro Hlen. unfold candidate, selectable.
  rewrite andb_true_iff, Z.eqb_eq, is_tempest_control_looks by exact Hlen.
  reflexivity.
Qed.

Lemma find_first {A : Type} (f : A -> bool) (pre : list A) (x : A)
    (post : list A) :
  f x = true -> (forall y, In y pre -> f y = false) ->
  find f (pre ++ x :: post) = Some x.
Proof.
  intros Hx; induction pre as [|y pre IH]; intro Hpre; simpl.
  - rewrite Hx; reflexivity.
  - rewrite (Hpre y) by (left; reflexivity).
    apply IH; intros z Hz; apply Hpre; right; exact Hz.
Qed.

Lemma find_nowhere {A : Type} (f : A -> bool) (l : list A) :
  (forall y, In y l -> f y = false) -> find f l = None.
Proof.
  induction l as [|y l IH]; intro H; simpl; [reflexivity|].
  rewrite (H y) by (left; reflexivity).
  apply IH; intros z Hz; apply H; right; exact Hz.
Qed.

End StringFacts.

Section DiscoveryProperties.

Context {K : Type} (drv : v4l2_driver K).

(** The enumeration loop, run with the search callback over a driver that
    hands out [ctrls]: it ends within [length ctrls + 1] queries, and leaves
    in the search context the first candidate of [ctrls], if there is one. *)
Lemma enum_controls_loop_search (fd : Z) (k : K) (req : v4l2_queryctrl)
    (ctrls : list v4l2_queryctrl) :
  enumerates drv fd k req ctrls ->
  forall (fuel : nat) (ctx : tempest_search_ctx_t) (w : world K),
    w_kernel w = k ->
    (List.length ctrls < fuel)%nat ->
    fst (enum_controls_loop drv fuel fd tempest_search_callback req ctx w) =
      Some (match find candidate ctrls with
            | Some q => mkSearchCtx (qc_id q) 1
            | None => ctx
            end).
Proof.
  induction 1 as [k req k' e Hq | k req k' q rest Hq Hrest IH];
    intros [|fuel] ctx w Hk Hfuel; simpl in Hfuel; try lia;
    cbn [enum_controls_loop]; run_call do_ioctl; rewrite Hk, Hq;
    reduce_world.
  - reflexivity.
  - cbn [find]. unfold candidate at 1.
    destruct (Z.land (qc_flags q) V4L2_CTRL_FLAG_DISABLED =? 0);
      cbn [andb].
    + unfold tempest_search_callback.
      destruct (is_tempest_control (qc_name q)); cbn [negb Z.eqb].
      * reflexivity.
      * apply IH; [reflexivity | lia].
    + apply IH; [reflexivity | lia].
Qed.

(** The outcome of discovery in terms of the first candidate. *)
Lemma discover_tempest_control_find (ctrls : list v4l2_queryctrl)
    (fuel : nat) (a o : Z) (w : world K) :
  enumerates drv (dev_fd (w_dev w)) (w_kernel w) first_query ctrls ->
  (List.length ctrls < fuel)%nat ->
  fst (dsv4l2_discover_tempest_control drv fuel (Ptr a) (Ptr o) w) =
    Some (match find candidate ctrls with
          | Some q => (0, Some (qc_id q))
          | None => (- ENOENT, None)
          end).
Proof.
  intros Henum Hfuel.
  pose proof (enum_controls_loop_search _ _ _ _ Henum fuel
                (mkSearchCtx 0 0) w eq_refl Hfuel) as Hloop.
  run_call dsv4l2_discover_tempest_control.
  run_call dsv4l2_enum_controls. fold first_query.
  destruct (enum_controls_loop drv fuel (dev_fd (w_dev w))
              tempest_search_callback first_query (mkSearchCtx 0 0) w)
    as [r w'].
  cbn [fst] in Hloop; subst r.
  destruct (find candidate ctrls); reflexivity.
Qed.

(** C6.  Let [ctrls] be the controls the driver hands out, in the order of
    the QUERYCTRL/NEXT_CTRL enumeration, with names of at most 255
    characters (the name field of the kernel structure has 32 bytes).
    Given a bound above their number, discovery on a live handle
    returns: code 0 and the id of the first control of [ctrls] that is not
    flagged disabled and whose lowercased name contains one of the eight
    patterns (controls before it that are disabled or do not match are
    passed over); and -ENOENT, with no id, when no control is such.  The
    patterns and the lowercasing are those of the specification
    ([spec_tempest_patterns], [spec_lowercase]), which the table and the
    [tolower] of the classifier are shown to implement. *)
Theorem discover_returns_first_match (ctrls : list v4l2_queryctrl)
    (fuel : nat) (a o : Z) (w : world K) :
  enumerates drv (dev_fd (w_dev w)) (w_kernel w) first_query ctrls ->
  (forall q, In q ctrls -> (String.length (qc_name q) <= 255)%nat) ->
  (List.length ctrls < fuel)%nat ->
  exists (rc : Z) (out : option Z),
    fst (dsv4l2_discover_tempest_control drv fuel (Ptr a) (Ptr o) w) =
      Some (rc, out) /\
    (forall pre q post,
        ctrls = pre ++ q :: post ->
        selectable q ->
        (forall c, In c pre -> ~ selectable c) ->
        rc = 0 /\ out = Some (qc_id q)) /\
    ((forall c, In c ctrls -> ~ selectable c) ->
     rc = - ENOENT /\ out = None).
Proof.
  intros Henum Hnames Hfuel.
  rewrite (discover_tempest_control_find ctrls) by assumption.
  assert (Hcand : forall c, In c ctrls -> ~ selectable c -> candidate c = false).
  { intros c Hin Hns. destruct (candidate c) eqn:E; [|reflexivity].
    exfalso; apply Hns, candidate_selectable; auto. }
  destruct (find candidate ctrls) as [q0|] eqn:Hfind.
  - exists 0, (Some (qc_id q0)). split; [reflexivity|]. split.
    + intros pre q post -> Hq Hpre.
      rewrite find_first in Hfind.
      * injection Hfind as <-. split; reflexivity.
      * apply candidate_selectable;
          [apply Hnames, in_or_app; right; left; reflexivity | exact Hq].
      * intros c Hc; apply Hcand; [apply in_or_app; left; exact Hc|].
        apply Hpre; exact Hc.
    + intro Hnone. rewrite find_nowhere in Hfind; [discriminate|].
      intros c Hc; apply Hcand; auto.
  - exists (- ENOENT), None. split; [reflexivity|]. split.
    + intros pre q post -> Hq Hpre.
      rewrite find_first in Hfind; [discriminate| |].
      * apply candidate_selectable;
          [apply Hnames, in_or_app; right; left; reflexivity | exact Hq].
      * intros c Hc; apply Hcand; [apply in_or_app; left; exact Hc|].
        apply Hpre; exact Hc.
    + intros _; split; reflexivity.
Qed.

End DiscoveryProperties.

(** *** The simulated driver enumerates in kernel order *)

Section KernelOrder.

Lemma next_ctrl_request (id : Z) :
  0 <= id < 2 ^ 28 ->
  Z.land (Z.lor id V4L2_CTRL_FLAG_NEXT_CTRL) V4L2_CTRL_ID_MASK = id /\
  (Z.land (Z.lor id V4L2_CTRL_FLAG_NEXT_CTRL) V4L2_CTRL_FLAG_NEXT_CTRL =? 0)
    = false.
Proof.
  intro Hid.
  assert (Hmask : Z.land id V4L2_CTRL_ID_MASK = id).
  { change V4L2_CTRL_ID_MASK with (Z.ones 28).
    rewrite Z.land_ones by lia. apply Z.mod_small; exact Hid. }
  assert (Hflag : Z.land id V4L2_CTRL_FLAG_NEXT_CTRL = 0).
  { rewrite <- Hmask, <- Z.land_assoc. apply Z.land_0_r. }
  rewrite !Z.land_lor_distr_l, Hmask, Hflag.
  change (Z.land V4L2_CTRL_FLAG_NEXT_CTRL V4L2_CTRL_ID_MASK) with 0.
  rewrite Z.lor_0_r. split; reflexivity.
Qed.

Lemma find_above (m : Z) (pre rest : list v4l2_queryctrl) :
  (forall c, In c pre -> qc_id c <= m) ->
  ascending m rest ->
  find (fun c => m <? qc_id c) (pre ++ rest) = hd_error rest.
Proof.
  intros Hpre Hrest. induction pre as [|c pre IH]; cbn [app find].
  - destruct rest as [|c rest]; [reflexivity|].
    destruct Hrest as [Hc _]. cbn [find hd_error].
    apply Z.ltb_lt in Hc; rewrite Hc; reflexivity.
  - assert (Hc : (m <? qc_id c) = false)
      by (apply Z.ltb_ge, Hpre; left; reflexivity).
    rewrite Hc. apply IH. intros c' Hc'; apply Hpre; right; exact Hc'.
Qed.

Lemma sim_driver_enumerates_from (all : list v4l2_queryctrl) (fd : Z)
    (rest : list v4l2_queryctrl) :
  forall (pre : list v4l2_queryctrl) (m : Z) (req : v4l2_queryctrl),
    all = pre ++ rest ->
    0 <= m < 2 ^ 28 ->
    qc_id req = Z.lor m V4L2_CTRL_FLAG_NEXT_CTRL ->
    (forall c, In c pre -> qc_id c <= m) ->
    ascending m rest ->
    enumerates (sim_driver all) fd tt req rest.
Proof.
  induction rest as [|c rest IH]; intros pre m req Hall Hm Hreq Hpre Hasc;
    pose proof (next_ctrl_request m Hm) as [Hmask Hflag];
    pose proof (find_above m pre _ Hpre Hasc) as Hfind;
    rewrite <- Hall in Hfind.
  - eapply enumerates_end.
    cbn [sim_driver drv_queryctrl]. unfold sim_queryctrl.
    rewrite Hreq, Hmask, Hflag, Hfind. reflexivity.
  - destruct Hasc as (Hlo & Hhi & Hasc).
    eapply enumerates_next.
    + cbn [sim_driver drv_queryctrl]. unfold sim_queryctrl.
      rewrite Hreq, Hmask, Hflag, Hfind. reflexivity.
    + apply (IH (pre ++ [c]) (qc_id c)).
      * rewrite <- app_assoc. exact Hall.
      * lia.
      * reflexivity.
      * intros c' Hc'. apply in_app_or in Hc' as [Hc'|[<-|[]]]; [|lia].
        specialize (Hpre c' Hc'). lia.
      * exact Hasc.
Qed.

(** A driver that answers NEXT_CTRL queries as the kernel does hands out
    its controls in ascending id order, all of them. *)
Lemma sim_driver_enumerates (ctrls : list v4l2_queryctrl) (fd : Z) :
  ascending 0 ctrls ->
  enumerates (sim_driver ctrls) fd tt first_query ctrls.
Proof.
  intro Hasc.
  apply (sim_driver_enumerates_from ctrls fd ctrls [] 0 first_query);
    [reflexivity | lia | reflexivity | intros c [] | exact Hasc].
Qed.

(** Discovery over such a driver: the first enabled control, in ascending
    id order, whose name looks like a TEMPEST control. *)
Lemma discover_in_kernel_order (ctrls : list v4l2_queryctrl) (a o : Z)
    (w : world unit) :
  ascending 0 ctrls ->
  fst (dsv4l2_discover_tempest_control (sim_driver ctrls)
         (S (List.length ctrls)) (Ptr a) (Ptr o) w) =
    Some (match find candidate ctrls with
          | Some q => (0, Some (qc_id q))
          | None => (- ENOENT, None)
          end).
Proof.
  intro Hasc. apply discover_tempest_control_find; [|lia].
  destruct (w_kernel w). apply sim_driver_enumerates; exact Hasc.
Qed.

End KernelOrder.

(** ** Profile loader *)

Section LoaderProperties.

#[local] Arguments strncpy : simpl never.
#[local] Arguments atoi : simpl never.
#[local] Arguments strtoul0 : simpl never.
#[local] Arguments fourcc_to_u32 : simpl never.
#[local] Arguments u32 : simpl never.

Lemma streq_eq (a b : string) : streq a b = true <-> a = b.
Proof. apply String.eqb_eq. Qed.

(** A successful load went through the event loop. *)
Lemma load_from_file_loop (env : loader_env) (path : string) (out : ptr)
    (events : list yaml_parse_result) (p : dsv4l2_profile_t) :
  env_fopen env path = FileOpened events ->
  dsv4l2_profile_load_from_file env (Some path) out = (0, Some p) ->
  exists st, loader_loop events loader_start = Some st /\ ld_profile st = p.
Proof.
  intros Hopen Hload. unfold dsv4l2_profile_load_from_file in Hload.
  destruct out as [|o]; [discriminate|]. rewrite Hopen in Hload.
  destruct (env_calloc_ok env); [|discriminate].
  destruct (env_parser_init_ok env); [|discriminate].
  cbn [negb] in Hload.
  destruct (loader_loop events loader_start) as [st|]; [|discriminate].
  exists st; split; [reflexivity|]. injection Hload as <-. reflexivity.
Qed.

(** Invariants of the event loop: a property kept by every step on an
    allowed event holds at the end of a stream of allowed events. *)
Lemma loader_loop_invariant (I : loader_state -> Prop)
    (allowed : yaml_event_t -> bool) :
  (forall ev st, allowed ev = true -> I st -> I (loader_step ev st)) ->
  forall events st st',
    forallb (fun r => match r with
                      | YamlEvent ev => allowed ev
                      | YamlError => true
                      end) events = true ->
    I st -> loader_loop events st = Some st' -> I st'.
Proof.
  intros Hstep. induction events as [|r events IH]; intros st st' Hall HI Hloop.
  - discriminate.
  - cbn [forallb] in Hall. apply andb_true_iff in Hall as [Hr Hall].
    destruct r as [ev|]; [|discriminate].
    assert (Hnext : I (loader_step ev st)) by (apply Hstep; assumption).
    destruct ev; cbn [loader_loop] in Hloop;
      try (eapply IH; eassumption).
    injection Hloop as <-. exact HI.
Qed.

Lemma strncpy_hits (n : nat) (v key : string) :
  (String.length key < n)%nat -> strncpy n v = key -> v = key.
Proof.
  revert v key. induction n as [|n IH]; intros v key Hlen H; [lia|].
  destruct v as [|c v]; cbn [strncpy] in H; [exact H|].
  destruct key as [|d key]; [discriminate|].
  injection H as -> H. f_equal. apply IH; [simpl in Hlen; lia | exact H].
Qed.

(** While no scalar reads [key], [current_key] never becomes [key]. *)
Lemma current_key_step (key : string) (ev : yaml_event_t) (st : loader_state) :
  key <> EmptyString -> (String.length key < 63)%nat ->
  mentions key ev = false ->
  ld_current_key st <> key ->
  ld_current_key (loader_step ev st) <> key.
Proof.
  intros Hne Hlen Hev Hck.
  destruct ev; cbn [loader_step];
    repeat match goal with
           | |- context [if ?b then _ else _] => destruct b
           end;
    cbn [ld_current_key]; auto.
  cbn [mentions] in Hev. intro H. apply strncpy_hits in H; [|exact Hlen].
  apply streq_eq in H. congruence.
Qed.

(** A property that every step keeps as long as [current_key] is not
    [key] holds after loading a document in which [key] is missing. *)
Lemma absent_key_invariant (key : string) (P : loader_state -> Prop) :
  key <> EmptyString -> (String.length key < 63)%nat ->
  (forall ev st, ld_current_key st <> key -> P st -> P (loader_step ev st)) ->
  forall events st',
    key_absent key events = true ->
    P loader_start ->
    loader_loop events loader_start = Some st' -> P st'.
Proof.
  intros Hne Hlen Hstep events st' Habs HP Hloop.
  refine (proj2 (loader_loop_invariant
                   (fun st => ld_current_key st <> key /\ P st)
                   (fun ev => negb (mentions key ev)) _
                   events loader_start st' Habs _ Hloop)).
  - intros ev st Hev [Hck HPst]. apply negb_true_iff in Hev. split.
    + apply current_key_step; assumption.
    + apply Hstep; assumption.
  - split; [cbn; auto | exact HP].
Qed.

Ltac split_ifs :=
  repeat match goal with
         | |- context [if ?b then _ else _] => destruct b eqn:?
         end.

(** Opens one step of the loader on a state given by its fields. *)
Ltac loader_cases ev st :=
  destruct st as [p ck cx ic it im]; cbn in *;
  destruct ev; cbn [loader_step ld_profile ld_current_key ld_context
                    ld_in_controls ld_in_tempest ld_in_mode_map];
  unfold assign_scalar, assign_tempest;
  split_ifs;
  repeat match goal with
         | H : streq _ _ = true |- _ => apply streq_eq in H
         end;
  cbn; try tauto; try congruence; try (subst; cbn in *; discriminate).

(** No step writes [width] or [height]. *)
Lemma loader_step_resolution (ev : yaml_event_t) (st : loader_state) :
  width (ld_profile (loader_step ev st)) = width (ld_profile st) /\
  height (ld_profile (loader_step ev st)) = height (ld_profile st).
Proof. loader_cases ev st. Qed.

(** Whatever the document, a loaded profile has [width] and [height] 0. *)
Lemma loaded_resolution_is_zero (env : loader_env) (path : string)
    (out : ptr) (events : list yaml_parse_result) (p : dsv4l2_profile_t) :
  env_fopen env path = FileOpened events ->
  dsv4l2_profile_load_from_file env (Some path) out = (0, Some p) ->
  width p = 0 /\ height p = 0.
Proof.
  intros Hopen Hload.
  destruct (load_from_file_loop _ _ _ _ _ Hopen Hload) as [st [Hloop <-]].
  refine (loader_loop_invariant
            (fun st => width (ld_profile st) = 0 /\ height (ld_profile st) = 0)
            (fun _ => true) _ events loader_start st _ _ Hloop).
  - intros ev s _ [Hw Hh].
    destruct (loader_step_resolution ev s) as [-> ->]. auto.
  - clear. induction events as [|[ev|] events IH]; cbn; auto.
  - split; reflexivity.
Qed.

(** *** Defaults of missing fields *)

Lemma default_buffer_count events st :
  key_absent "buffer_count" events = true ->
  loader_loop events loader_start = Some st ->
  buffer_count (ld_profile st) = 4.
Proof.
  intros Habs Hloop.
  apply (absent_key_invariant "buffer_count"
           (fun st => buffer_count (ld_profile st) = 4))
    with (events := events); auto; try discriminate; try (cbn; lia).
  intros ev s Hck HP. loader_cases ev s.
Qed.

Lemma default_constant_time_required events st :
  key_absent "constant_time_required" events = true ->
  loader_loop events loader_start = Some st ->
  constant_time_required (ld_profile st) = 0.
Proof.
  intros Habs Hloop.
  apply (absent_key_invariant "constant_time_required"
           (fun st => constant_time_required (ld_profile st) = 0))
    with (events := events); auto; try discriminate; try (cbn; lia).
  intros ev s Hck HP. loader_cases ev s.
Qed.

Lemma default_quantum_candidate events st :
  key_absent "quantum_candidate" events = true ->
  loader_loop events loader_start = Some st ->
  quantum_candidate (ld_profile st) = 0.
Proof.
  intros Habs Hloop.
  apply (absent_key_invariant "quantum_candidate"
           (fun st => quantum_candidate (ld_profile st) = 0))
    with (events := events); auto; try discriminate; try (cbn; lia).
  intros ev s Hck HP. loader_cases ev s.
Qed.

(** Without an [fps] key both halves of the frame rate stay as [calloc]
    left them. *)
Lemma default_fps events st :
  key_absent "fps" events = true ->
  loader_loop events loader_start = Some st ->
  fps_num (ld_profile st) = 0 /\ fps_den (ld_profile st) = 0.
Proof.
  intros Habs Hloop.
  apply (absent_key_invariant "fps"
           (fun st => fps_num (ld_profile st) = 0 /\
                      fps_den (ld_profile st) = 0))
    with (events := events); auto; try discriminate; try (cbn; lia).
  intros ev s Hck HP. loader_cases ev s.
Qed.

(** Without a [tempest_control] key the loader never enters the mapping. *)
Lemma default_tempest_control events st :
  key_absent "tempest_control" events = true ->
  loader_loop events loader_start = Some st ->
  tempest_control (ld_profile st) = zero_mapping.
Proof.
  intros Habs Hloop.
  apply (absent_key_invariant "tempest_control"
           (fun st => ld_in_tempest st = 0 /\
                      tempest_control (ld_profile st) = zero_mapping))
    with (events := events); auto; try discriminate; try (cbn; lia).
  intros ev s Hck [Hin HP]. loader_cases ev s.
Qed.

Lemma default_control_id events st :
  key_absent "id" events = true ->
  loader_loop events loader_start = Some st ->
  control_id (tempest_control (ld_profile st)) = 0.
Proof.
  intros Habs Hloop.
  apply (absent_key_invariant "id"
           (fun st => control_id (tempest_control (ld_profile st)) = 0))
    with (events := events); auto; try discriminate; try (cbn; lia).
  intros ev s Hck HP. loader_cases ev s.
Qed.

Lemma default_auto_detect events st :
  key_absent "auto_detect" events = true ->
  loader_loop events loader_start = Some st ->
  auto_detect (tempest_control (ld_profile st)) = 0.
Proof.
  intros Habs Hloop.
  apply (absent_key_invariant "auto_detect"
           (fun st => auto_detect (tempest_control (ld_profile st)) = 0))
    with (events := events); auto; try discriminate; try (cbn; lia).
  intros ev s Hck HP. loader_cases ev s.
Qed.

(** Without a [mode_map] key the four per-state values stay 0. *)
Lemma default_mode_map events st :
  key_absent "mode_map" events = true ->
  loader_loop events loader_start = Some st ->
  let t := tempest_control (ld_profile st) in
  disabled_value t = 0 /\ low_value t = 0 /\
  high_value t = 0 /\ lockdown_value t = 0.
Proof.
  intros Habs Hloop.
  apply (absent_key_invariant "mode_map"
           (fun st =>
              ld_in_mode_map st = 0 /\
              disabled_value (tempest_control (ld_profile st)) = 0 /\
              low_value (tempest_control (ld_profile st)) = 0 /\
              high_value (tempest_control (ld_profile st)) = 0 /\
              lockdown_value (tempest_control (ld_profile st)) = 0))
    with (events := events); auto; try discriminate; try (cbn; lia).
  intros ev s Hck [Hin HP]. loader_cases ev s.
Qed.

(** C8, as amended.  In a profile that was loaded from a document, a
    recognized field that is missing from the document has the value the
    loader started from: [buffer_count] 4, [constant_time_required] and
    [quantum_candidate] 0 (false), the whole TEMPEST mapping zero when
    [tempest_control] is missing (and its [control_id], [auto_detect] and
    per-state values zero when [id], [auto_detect] or [mode_map] is
    missing), and [fps_num] and [fps_den] both 0 when [fps] is missing. *)
Theorem missing_fields_keep_initial_values (env : loader_env) (path : string)
    (out : ptr) (events : list yaml_parse_result) (p : dsv4l2_profile_t) :
  env_fopen env path = FileOpened events ->
  dsv4l2_profile_load_from_file env (Some path) out = (0, Some p) ->
  (key_absent "buffer_count" events = true -> buffer_count p = 4) /\
  (key_absent "constant_time_required" events = true ->
   constant_time_required p = 0) /\
  (key_absent "quantum_candidate" events = true -> quantum_candidate p = 0) /\
  (key_absent "tempest_control" events = true ->
   tempest_control p = zero_mapping) /\
  (key_absent "id" events = true -> control_id (tempest_control p) = 0) /\
  (key_absent "auto_detect" events = true ->
   auto_detect (tempest_control p) = 0) /\
  (key_absent "mode_map" events = true ->
   disabled_value (tempest_control p) = 0 /\
   low_value (tempest_control p) = 0 /\
   high_value (tempest_control p) = 0 /\
   lockdown_value (tempest_control p) = 0) /\
  (key_absent "fps" events = true -> fps_num p = 0 /\ fps_den p = 0).
Proof.
  intros Hopen Hload.
  destruct (load_from_file_loop _ _ _ _ _ Hopen Hload) as [st [Hloop <-]].
  split; [intro; eapply default_buffer_count; eassumption|].
  split; [intro; eapply default_constant_time_required; eassumption|].
  split; [intro; eapply default_quantum_candidate; eassumption|].
  split; [intro; eapply default_tempest_control; eassumption|].
  split; [intro; eapply default_control_id; eassumption|].
  split; [intro; eapply default_auto_detect; eassumption|].
  split; [intro Habs; exact (default_mode_map events st Habs Hloop)|].
  intro; eapply default_fps; eassumption.
Qed.

End LoaderProperties.

(** ** The code on concrete inputs *)

Lemma lockdown_denies_every_capture_witness :
  dev_tempest_state (w_dev streaming_lockdown_world) = DSV4L2_TEMPEST_LOCKDOWN /\
  fst (dsv4l2_capture_frame (sim_driver sample_controls) (Ptr 4096) (Ptr 8192)
                            streaming_lockdown_world) = (- EACCES, None) /\
  fst (dsv4l2_capture_iris (sim_driver sample_controls) (Ptr 4096) (Ptr 8192)
                           streaming_lockdown_world) = (- EACCES, None).
Proof.
  split; [reflexivity|].
  apply (lockdown_denies_every_capture (sim_driver sample_controls)
           4096 8192 streaming_lockdown_world).
  reflexivity.
Defined.

Lemma denied_capture_leaves_device_alone_witness :
  fst (dsv4l2_policy_check_capture (Ptr 4096)
         (dev_tempest_state (w_dev streaming_lockdown_world))
         "dsv4l2_capture_frame" streaming_lockdown_world) <> 0 /\
  (let '(rc, frame, w') :=
     dsv4l2_capture_frame (sim_driver sample_controls) (Ptr 4096) (Ptr 8192)
                          streaming_lockdown_world in
   rc = - EACCES /\ frame = None /\
   issued_since streaming_lockdown_world w' = [] /\
   w_ioctls w' = w_ioctls streaming_lockdown_world /\
   w_dev w' = w_dev streaming_lockdown_world /\
   w_kernel w' = w_kernel streaming_lockdown_world) /\
  (let '(rc, frame, w') :=
     dsv4l2_capture_iris (sim_driver sample_controls) (Ptr 4096) (Ptr 8192)
                         streaming_lockdown_world in
   rc = - EACCES /\ frame = None /\
   issued_since streaming_lockdown_world w' = [] /\
   w_ioctls w' = w_ioctls streaming_lockdown_world /\
   w_dev w' = w_dev streaming_lockdown_world /\
   w_kernel w' = w_kernel streaming_lockdown_world).
Proof.
  assert (H : fst (dsv4l2_policy_check_capture (Ptr 4096)
                     (dev_tempest_state (w_dev streaming_lockdown_world))
                     "dsv4l2_capture_frame" streaming_lockdown_world) <> 0)
    by (vm_compute; discriminate).
  split; [exact H|].
  exact (denied_capture_leaves_device_alone (sim_driver sample_controls)
           4096 8192 "dsv4l2_capture_frame" streaming_lockdown_world H).
Defined.

(** C4 as stated fails: a device that is not streaming and is in LOCKDOWN
    gets -EACCES from a capture, not -EINVAL. *)
Lemma capture_not_streaming_counterexample :
  dev_streaming (w_dev lockdown_world) = 0 /\
  fst (dsv4l2_capture_frame (sim_driver sample_controls) (Ptr 4096) (Ptr 8192)
                            lockdown_world) = (- EACCES, None) /\
  fst (dsv4l2_capture_iris (sim_driver sample_controls) (Ptr 4096) (Ptr 8192)
                           lockdown_world) = (- EACCES, None) /\
  - EACCES <> - EINVAL.
Proof. repeat split. discriminate. Qed.

Lemma capture_while_not_streaming_witness :
  dev_streaming (w_dev sample_world) = 0 /\
  dev_tempest_state (w_dev sample_world) <> DSV4L2_TEMPEST_LOCKDOWN /\
  fst (dsv4l2_capture_frame (sim_driver sample_controls) (Ptr 4096) (Ptr 8192)
                            sample_world) = (- EINVAL, None) /\
  fst (dsv4l2_capture_iris (sim_driver sample_controls) (Ptr 4096) (Ptr 8192)
                           sample_world) = (- EINVAL, None).
Proof.
  assert (H : dev_tempest_state (w_dev sample_world) <> DSV4L2_TEMPEST_LOCKDOWN)
    by (simpl; discriminate).
  split; [reflexivity|]. split; [exact H|].
  exact (capture_while_not_streaming (sim_driver sample_controls)
           4096 (Ptr 8192) sample_world eq_refl H).
Defined.

(** C2 as stated fails: on the layer-3 device (caps 1280x720) after
    [set_format(1920, 1080)], the gate allows the capture. *)
Lemma layer_cap_counterexample :
  dev_layer (w_dev oversize_world) = 3 /\
  spec_layer_table 3 = Some (mkLayerPolicy 1280 720) /\
  option_map (fun f => (pix_width (fmt_pix f), pix_height (fmt_pix f)))
             (dev_current_format (w_dev oversize_world)) = Some (1920, 1080) /\
  format_exceeds_caps spec_layer_table (w_dev oversize_world) = true /\
  fst (dsv4l2_policy_check_capture (Ptr 4096)
         (dev_tempest_state (w_dev oversize_world))
         "dsv4l2_capture_frame" oversize_world) = 0 /\
  0 <> - EACCES.
Proof. repeat split. discriminate. Qed.

Lemma gate_ignores_layer_caps_witness :
  format_exceeds_caps spec_layer_table (w_dev oversize_world) = true /\
  fst (dsv4l2_policy_check_capture (Ptr 4096)
         (dev_tempest_state (w_dev oversize_world))
         "dsv4l2_capture_frame" oversize_world) =
    (if tempest_eqb (dev_tempest_state (w_dev oversize_world))
                    DSV4L2_TEMPEST_LOCKDOWN
     then - EACCES else 0).
Proof.
  split; [reflexivity|].
  apply (gate_ignores_layer_caps spec_layer_table 4096
           "dsv4l2_capture_frame" oversize_world).
  reflexivity.
Defined.

(** C5 as stated fails: with the sample mapping installed (control
    0x009a0911, LOCKDOWN mapped to 3), moving to LOCKDOWN issues no ioctl
    at all, so no S_CTRL reaches the mapped control. *)
Lemma set_tempest_state_counterexample :
  mapping_installed (w_dev sample_world) = true /\
  option_map tempest_control (dev_profile (w_dev sample_world)) =
    Some sample_mapping /\
  mapped_value sample_mapping DSV4L2_TEMPEST_LOCKDOWN = 3 /\
  issued_since sample_world
    (snd (dsv4l2_set_tempest_state (Ptr 4096) DSV4L2_TEMPEST_LOCKDOWN
                                   sample_world)) = [] /\
  ~ In (VIDIOC_S_CTRL 3 (mkControl 0x009a0911 3))
       (issued_since sample_world
          (snd (dsv4l2_set_tempest_state (Ptr 4096) DSV4L2_TEMPEST_LOCKDOWN
                                         sample_world))).
Proof. repeat split. intros []. Qed.

Lemma discover_returns_first_match_witness :
  enumerates (sim_driver sample_controls) (dev_fd (w_dev sample_world))
             (w_kernel sample_world) first_query sample_controls /\
  (forall q, In q sample_controls ->
             (String.length (qc_name q) <= 255)%nat) /\
  (List.length sample_controls < 8)%nat /\
  selectable (mkQueryCtrl 0x009a0910 2 "Status LED" 0 1 1 1 0) /\
  ~ selectable (mkQueryCtrl 0x00980900 1 "Brightness" 0 255 1 128 0) /\
  ~ selectable (mkQueryCtrl 0x00980901 1 "Privacy Shutter" 0 1 1 0
                            V4L2_CTRL_FLAG_DISABLED) /\
  ~ selectable (mkQueryCtrl 0x00980913 1 "Gain" 0 100 1 10 0) /\
  fst (dsv4l2_discover_tempest_control (sim_driver sample_controls) 8
         (Ptr 4096) (Ptr 8192) sample_world) = Some (0, Some 0x009a0910).
Proof.
  assert (Henum : enumerates (sim_driver sample_controls)
                    (dev_fd (w_dev sample_world)) (w_kernel sample_world)
                    first_query sample_controls).
  { repeat (eapply enumerates_next; [reflexivity|]).
    eapply enumerates_end; reflexivity. }
  assert (Hnames : forall q, In q sample_controls ->
                             (String.length (qc_name q) <= 255)%nat).
  { intros q Hin.
    repeat (destruct Hin as [<-|Hin]; [cbn; lia|]). destruct Hin. }
  assert (Hfuel : (List.length sample_controls < 8)%nat) by (cbn; lia).
  assert (Hled : selectable (mkQueryCtrl 0x009a0910 2 "Status LED" 0 1 1 1 0)).
  { split; [reflexivity|]. exists "led". split.
    - do 4 right. left. reflexivity.
    - exists "status ", EmptyString. reflexivity. }
  assert (Hno : forall c, (String.length (qc_name c) <= 255)%nat ->
                          candidate c = false -> ~ selectable c).
  { intros c Hlen Hc Hsel. apply candidate_selectable in Hsel; [|exact Hlen].
    rewrite Hsel in Hc. discriminate Hc. }
  assert (Hb : ~ selectable (mkQueryCtrl 0x00980900 1 "Brightness" 0 255 1
                                         128 0))
    by (apply Hno; [cbn; lia | reflexivity]).
  assert (Hp : ~ selectable (mkQueryCtrl 0x00980901 1 "Privacy Shutter" 0 1 1
                                         0 V4L2_CTRL_FLAG_DISABLED))
    by (apply Hno; [cbn; lia | reflexivity]).
  assert (Hg : ~ selectable (mkQueryCtrl 0x00980913 1 "Gain" 0 100 1 10 0))
    by (apply Hno; [cbn; lia | reflexivity]).
  split; [exact Henum|]. split; [exact Hnames|]. split; [exact Hfuel|].
  split; [exact Hled|]. split; [exact Hb|]. split; [exact Hp|].
  split; [exact Hg|].
  destruct (discover_returns_first_match (sim_driver sample_controls)
              sample_controls 8 4096 8192 sample_world Henum Hnames Hfuel)
    as (rc & out & Hrun & Hfirst & _).
  destruct (Hfirst
              [mkQueryCtrl 0x00980900 1 "Brightness" 0 255 1 128 0;
               mkQueryCtrl 0x00980901 1 "Privacy Shutter" 0 1 1 0
                           V4L2_CTRL_FLAG_DISABLED;
               mkQueryCtrl 0x00980913 1 "Gain" 0 100 1 10 0]
              (mkQueryCtrl 0x009a0910 2 "Status LED" 0 1 1 1 0)
              [mkQueryCtrl 0x009a0911 2 "TEMPEST Mode" 0 3 1 0 0]
              eq_refl Hled) as [Hrc Hout].
  { intros c [<-|[<-|[<-|[]]]]; assumption. }
  rewrite Hrun, Hrc, Hout. reflexivity.
Defined.

(** Discovery on the sample device passes over "Brightness", the disabled
    "Privacy Shutter" and "Gain", and returns "Status LED"; on a device
    with no such control it returns -ENOENT. *)
Example discover_sample_run :
  fst (dsv4l2_discover_tempest_control (sim_driver sample_controls) 8
         (Ptr 4096) (Ptr 8192) sample_world) = Some (0, Some 0x009a0910) /\
  fst (dsv4l2_discover_tempest_control (sim_driver plain_controls) 8
         (Ptr 4096) (Ptr 8192) sample_world) = Some (- ENOENT, None).
Proof. split; reflexivity. Qed.

(** C7.  Loading the document [resolution: [1280, 720]] succeeds and gives
    a profile whose [width] and [height] are both 0: the pair is read as a
    value and a key, and nothing stores it. *)
Theorem resolution_pair_is_dropped :
  exists p : dsv4l2_profile_t,
    dsv4l2_profile_load_from_file (sample_env resolution_document)
      (Some "camera.yaml") (Ptr 4096) = (0, Some p) /\
    width p = 0 /\ height p = 0 /\
    (width p, height p) <> (1280, 720).
Proof.
  eexists. split; [reflexivity|]. repeat split. discriminate.
Qed.

(** After a resolution pair the loader takes keys for values: the [fps]
    and [buffer_count] that follow it are lost as well. *)
Example keys_after_resolution_are_misread :
  exists p : dsv4l2_profile_t,
    dsv4l2_profile_load_from_file (sample_env camera_document)
      (Some "camera.yaml") (Ptr 4096) = (0, Some p) /\
    profile_role p = "camera" /\
    width p = 0 /\ height p = 0 /\ fps_num p = 0 /\ buffer_count p = 4.
Proof. eexists. split; [reflexivity|]. repeat split. Qed.

(** C8 as stated fails: the document [role: camera] has no [fps] key and
    loads with [fps_den] 0, not 1. *)
Lemma missing_fps_counterexample :
  key_absent "fps" minimal_document = true /\
  exists p : dsv4l2_profile_t,
    dsv4l2_profile_load_from_file (sample_env minimal_document)
      (Some "camera.yaml") (Ptr 4096) = (0, Some p) /\
    fps_den p = 0 /\ fps_den p <> 1.
Proof.
  split; [reflexivity|]. eexists. split; [reflexivity|].
  split; [reflexivity | discriminate].
Qed.

Lemma missing_fields_keep_initial_values_witness :
  env_fopen (sample_env minimal_document) "camera.yaml" =
    FileOpened minimal_document /\
  dsv4l2_profile_load_from_file (sample_env minimal_document)
    (Some "camera.yaml") (Ptr 4096) =
    (0, Some (set_profile_role initial_profile "camera")) /\
  buffer_count (set_profile_role initial_profile "camera") = 4 /\
  constant_time_required (set_profile_role initial_profile "camera") = 0 /\
  quantum_candidate (set_profile_role initial_profile "camera") = 0 /\
  tempest_control (set_profile_role initial_profile "camera") = zero_mapping /\
  fps_den (set_profile_role initial_profile "camera") = 0.
Proof.
  split; [reflexivity|]. split; [reflexivity|].
  destruct (missing_fields_keep_initial_values
              (sample_env minimal_document) "camera.yaml" (Ptr 4096)
              minimal_document (set_profile_role initial_profile "camera")
              eq_refl eq_refl)
    as (Hbc & Hct & Hqc & Htc & _ & _ & _ & Hfps).
  split; [exact (Hbc eq_refl)|]. split; [exact (Hct eq_refl)|].
  split; [exact (Hqc eq_refl)|]. split; [exact (Htc eq_refl)|].
  exact (proj2 (Hfps eq_refl)).
Defined.

Lemma set_framerate_writes_den_over_num_witness :
  drv_g_parm (sim_driver sample_controls) (w_kernel sample_world)
             (dev_fd (w_dev sample_world)) framerate_request =
    (tt, IoctlOk (set_timeperframe framerate_request 1 15)) /\
  issued_since sample_world
    (snd (dsv4l2_set_framerate (sim_driver sample_controls) (Ptr 4096)
                               30000 1001 sample_world)) =
    [VIDIOC_G_PARM 3 framerate_request;
     VIDIOC_S_PARM 3 (set_timeperframe framerate_request 1001 30000)].
Proof.
  split; [reflexivity|].
  exact (proj2 (set_framerate_writes_den_over_num (sim_driver sample_controls)
                  4096 30000 1001 sample_world)
               tt (set_timeperframe framerate_request 1 15) eq_refl).
Defined.

(** * Further properties *)

(** ** Capture *)

Section CaptureProperties.

Context {K : Type} (drv : v4l2_driver K).

(** The frame a capture builds from a dequeued buffer. *)
Lemma capture_frame_run (a f : Z) (w : world K) :
  dsv4l2_capture_frame drv (Ptr a) (Ptr f) w =
    let d := w_dev w in
    let ev rc := EV_policy_check (u32 a) "dsv4l2_capture_frame" rc in
    if tempest_eqb (dev_tempest_state d) DSV4L2_TEMPEST_LOCKDOWN then
      (- EACCES, None,
       mkWorld d (w_kernel w) (w_ioctls w) (w_events w ++ [ev (- EACCES)]))
    else if dev_streaming d =? 0 then
      (- EINVAL, None,
       mkWorld d (w_kernel w) (w_ioctls w) (w_events w ++ [ev 0]))
    else
      let dq := VIDIOC_DQBUF (dev_fd d) capture_request in
      match drv_dqbuf drv (w_kernel w) (dev_fd d) capture_request with
      | (k1, IoctlErr e) =>
          (- e, None,
           mkWorld d k1 (w_ioctls w ++ [dq]) (w_events w ++ [ev 0]))
      | (k1, IoctlOk buf) =>
          let frame :=
            mkFrame (slot_start (dev_buffers d) (buf_index buf))
                    (buf_bytesused buf) (timestamp_ns (buf_timestamp buf))
                    (buf_sequence buf) in
          let q := VIDIOC_QBUF (dev_fd d) buf in
          match drv_qbuf drv k1 (dev_fd d) buf with
          | (k2, IoctlErr e) =>
              (- e, Some frame,
               mkWorld d k2 (w_ioctls w ++ [dq; q]) (w_events w ++ [ev 0]))
          | (k2, IoctlOk _) =>
              (0, Some frame,
               mkWorld d k2 (w_ioctls w ++ [dq; q])
                 (w_events w ++
                    [ev 0; EV_capture_start (u32 a);
                     EV_capture_end (u32 a) 0]))
          end
      end.
Proof.
  run_call dsv4l2_capture_frame. rewrite policy_check_capture_run.
  cbv zeta.
  destruct (tempest_eqb (dev_tempest_state (w_dev w)) DSV4L2_TEMPEST_LOCKDOWN);
    [reflexivity|].
  cbn [negb Z.eqb]. reduce_world.
  destruct (dev_streaming (w_dev w) =? 0); [reflexivity|]. reduce_world.
  destruct (drv_dqbuf drv (w_kernel w) (dev_fd (w_dev w)) capture_request)
    as [k1 [buf|e]]; reduce_world; [|reflexivity].
  destruct (drv_qbuf drv k1 (dev_fd (w_dev w)) buf) as [k2 [buf'|e]];
    reduce_world; rewrite <- !app_assoc; reflexivity.
Qed.


Lemma capture_iris_run (a f : Z) (w : world K) :
  dsv4l2_capture_iris drv (Ptr a) (Ptr f) w =
    let d := w_dev w in
    let ev rc := EV_policy_check (u32 a) "dsv4l2_capture_iris" rc in
    if tempest_eqb (dev_tempest_state d) DSV4L2_TEMPEST_LOCKDOWN then
      (- EACCES, None,
       mkWorld d (w_kernel w) (w_ioctls w) (w_events w ++ [ev (- EACCES)]))
    else if dev_streaming d =? 0 then
      (- EINVAL, None,
       mkWorld d (w_kernel w) (w_ioctls w) (w_events w ++ [ev 0]))
    else
      let dq := VIDIOC_DQBUF (dev_fd d) capture_request in
      match drv_dqbuf drv (w_kernel w) (dev_fd d) capture_request with
      | (k1, IoctlErr e) =>
          (- e, None,
           mkWorld d k1 (w_ioctls w ++ [dq]) (w_events w ++ [ev 0]))
      | (k1, IoctlOk buf) =>
          let frame :=
            mkBiometricFrame (slot_start (dev_buffers d) (buf_index buf))
                    (buf_bytesused buf) (timestamp_ns (buf_timestamp buf))
                    (buf_sequence buf) in
          let q := VIDIOC_QBUF (dev_fd d) buf in
          match drv_qbuf drv k1 (dev_fd d) buf with
          | (k2, IoctlErr e) =>
              (- e, Some frame,
               mkWorld d k2 (w_ioctls w ++ [dq; q]) (w_events w ++ [ev 0]))
          | (k2, IoctlOk _) =>
              (0, Some frame,
               mkWorld d k2 (w_ioctls w ++ [dq; q])
                 (w_events w ++
                    [ev 0; EV_capture_start (u32 a);
                     EV_capture_end (u32 a) 0]))
          end
      end.
Proof.
  run_call dsv4l2_capture_iris. rewrite policy_check_capture_run.
  cbv zeta.
  destruct (tempest_eqb (dev_tempest_state (w_dev w)) DSV4L2_TEMPEST_LOCKDOWN);
    [reflexivity|].
  cbn [negb Z.eqb]. reduce_world.
  destruct (dev_streaming (w_dev w) =? 0); [reflexivity|]. reduce_world.
  destruct (drv_dqbuf drv (w_kernel w) (dev_fd (w_dev w)) capture_request)
    as [k1 [buf|e]]; reduce_world; [|reflexivity].
  destruct (drv_qbuf drv k1 (dev_fd (w_dev w)) buf) as [k2 [buf'|e]];
    reduce_world; rewrite <- !app_assoc; reflexivity.
Qed.

(** Opens every path of a capture call on a live handle and frame. *)
Ltac capture_paths w :=
  rewrite ?capture_frame_run, ?capture_iris_run; cbv zeta;
  destruct (tempest_eqb (dev_tempest_state (w_dev w)) DSV4L2_TEMPEST_LOCKDOWN)
    eqn:Hlock;
  [|destruct (dev_streaming (w_dev w) =? 0) eqn:Hstream;
    [|destruct (drv_dqbuf drv (w_kernel w) (dev_fd (w_dev w)) capture_request)
        as [kd [bd|ed]] eqn:Hdq;
      [destruct (drv_qbuf drv kd (dev_fd (w_dev w)) bd)
         as [kq [bq|eq]] eqn:Hq|]]];
  reduce_world.

(** X1.  A capture call, whatever its arguments and outcome, leaves the
    device record as it was: TEMPEST state, streaming flag, ring, cached
    format and parameters. *)
Theorem capture_keeps_device_record (dev out_frame : ptr) (w : world K) :
  w_dev (snd (dsv4l2_capture_frame drv dev out_frame w)) = w_dev w /\
  w_dev (snd (dsv4l2_capture_iris drv dev out_frame w)) = w_dev w.
Proof.
  destruct dev as [|a], out_frame as [|f]; try (split; reflexivity).
  split; capture_paths w; reflexivity.
Qed.

(** X2.  The success path of a capture: on a streaming device that is not
    in LOCKDOWN, when the driver hands out a buffer and takes it back, the
    call returns 0 with a frame that views the ring slot of the buffer's
    index (its bytes used, its timestamp in nanoseconds, its sequence
    number); it issued DQBUF then QBUF of that very buffer, and logged
    policy_check(0), capture_start, capture_end(0) in this order. *)
Theorem capture_success_path (a f : Z) (w : world K) (k1 k2 : K)
    (buf buf' : v4l2_buffer) :
  dev_tempest_state (w_dev w) <> DSV4L2_TEMPEST_LOCKDOWN ->
  dev_streaming (w_dev w) <> 0 ->
  drv_dqbuf drv (w_kernel w) (dev_fd (w_dev w)) capture_request
    = (k1, IoctlOk buf) ->
  drv_qbuf drv k1 (dev_fd (w_dev w)) buf = (k2, IoctlOk buf') ->
  dsv4l2_capture_frame drv (Ptr a) (Ptr f) w =
    (0,
     Some (mkFrame (slot_start (dev_buffers (w_dev w)) (buf_index buf))
                   (buf_bytesused buf)
                   (u64 (u64 (tv_sec (buf_timestamp buf)) * 1000000000 +
                         u64 (tv_usec (buf_timestamp buf)) * 1000))
                   (buf_sequence buf)),
     mkWorld (w_dev w) k2
       (w_ioctls w ++
          [VIDIOC_DQBUF (dev_fd (w_dev w)) capture_request;
           VIDIOC_QBUF (dev_fd (w_dev w)) buf])
       (w_events w ++
          [EV_policy_check (u32 a) "dsv4l2_capture_frame" 0;
           EV_capture_start (u32 a);
           EV_capture_end (u32 a) 0])).
Proof.
  intros Hs Hst Hd Hqb. capture_paths w.
  - apply tempest_eqb_eq in Hlock; contradiction.
  - apply Z.eqb_eq in Hstream; contradiction.
  - injection Hd as <- <-. rewrite Hqb in Hq. injection Hq as <- _.
    reflexivity.
  - injection Hd as <- <-. rewrite Hqb in Hq. discriminate.
  - discriminate.
Qed.

(** X3.  With a driver whose failures carry a positive errno, a capture
    that returns 0 went through the gate: the device was not in LOCKDOWN
    and was streaming, a frame was handed out, the call issued exactly a
    DQBUF and a QBUF, and the ring of events received
    policy_check(0), capture_start, capture_end(0). *)
Theorem successful_capture_passed_the_gate (dev out_frame : ptr)
    (w : world K) :
  capture_errnos_positive drv ->
  fst (fst (dsv4l2_capture_frame drv dev out_frame w)) = 0 ->
  dev_tempest_state (w_dev w) <> DSV4L2_TEMPEST_LOCKDOWN /\
  dev_streaming (w_dev w) <> 0 /\
  snd (fst (dsv4l2_capture_frame drv dev out_frame w)) <> None /\
  (exists buf,
      issued_since w (snd (dsv4l2_capture_frame drv dev out_frame w)) =
        [VIDIOC_DQBUF (dev_fd (w_dev w)) capture_request;
         VIDIOC_QBUF (dev_fd (w_dev w)) buf]) /\
  w_events (snd (dsv4l2_capture_frame drv dev out_frame w)) =
    w_events w ++
      [EV_policy_check (dev_token dev) "dsv4l2_capture_frame" 0;
       EV_capture_start (dev_token dev);
       EV_capture_end (dev_token dev) 0].
Proof.
  intros [Hpd Hpq] Hrc.
  destruct dev as [|a], out_frame as [|f]; try discriminate.
  revert Hrc. unfold issued_since. capture_paths w; intro Hrc;
    try discriminate.
  - repeat split.
    + intro H; apply tempest_eqb_eq in H; congruence.
    + intro H; apply Z.eqb_eq in H; congruence.
    + discriminate.
    + exists bd. apply skipn_length_app.
  - apply Hpq in Hq. lia.
  - apply Hpd in Hdq. lia.
Qed.

(** X4.  When DQBUF fails (for instance with EAGAIN on the non-blocking
    descriptor) the capture returns the negated errno, hands out no frame,
    issues no QBUF and logs no capture event.  When DQBUF succeeds and the
    QBUF that returns the buffer fails, the capture returns that negated
    errno although the frame has been written through the output pointer,
    and logs no capture event either. *)
Theorem capture_ioctl_failures (a f : Z) (w : world K) :
  dev_tempest_state (w_dev w) <> DSV4L2_TEMPEST_LOCKDOWN ->
  dev_streaming (w_dev w) <> 0 ->
  let fd := dev_fd (w_dev w) in
  let gate := EV_policy_check (u32 a) "dsv4l2_capture_frame" 0 in
  (forall k1 e,
      drv_dqbuf drv (w_kernel w) fd capture_request = (k1, IoctlErr e) ->
      dsv4l2_capture_frame drv (Ptr a) (Ptr f) w =
        (- e, None,
         mkWorld (w_dev w) k1 (w_ioctls w ++ [VIDIOC_DQBUF fd capture_request])
                 (w_events w ++ [gate]))) /\
  (forall k1 buf k2 e,
      drv_dqbuf drv (w_kernel w) fd capture_request = (k1, IoctlOk buf) ->
      drv_qbuf drv k1 fd buf = (k2, IoctlErr e) ->
      dsv4l2_capture_frame drv (Ptr a) (Ptr f) w =
        (- e,
         Some (mkFrame (slot_start (dev_buffers (w_dev w)) (buf_index buf))
                       (buf_bytesused buf) (timestamp_ns (buf_timestamp buf))
                       (buf_sequence buf)),
         mkWorld (w_dev w) k2
                 (w_ioctls w ++
                    [VIDIOC_DQBUF fd capture_request; VIDIOC_QBUF fd buf])
                 (w_events w ++ [gate]))).
Proof.
  intros Hs Hst fd gate. subst fd gate.
  assert (Hl : tempest_eqb (dev_tempest_state (w_dev w))
                           DSV4L2_TEMPEST_LOCKDOWN = false).
  { destruct (tempest_eqb _ _) eqn:E; [|reflexivity].
    apply tempest_eqb_eq in E; contradiction. }
  assert (Hn : (dev_streaming (w_dev w) =? 0) = false)
    by (apply Z.eqb_neq; exact Hst).
  split.
  - intros k1 e Hd. rewrite capture_frame_run. cbv zeta.
    rewrite Hl, Hn, Hd. reflexivity.
  - intros k1 buf k2 e Hd Hqb. rewrite capture_frame_run. cbv zeta.
    rewrite Hl, Hn, Hd, Hqb. reflexivity.
Qed.

(** X5.  The biometric capture is the generic capture under another
    label: for the same arguments in the same world both return the same
    code and frames with the same fields, issue the same ioctls, leave the
    same device and driver state, and log the same events up to the
    context string of the policy check. *)
Theorem capture_iris_mirrors_capture_frame (dev out_frame : ptr)
    (w : world K) :
  let g := dsv4l2_capture_frame drv dev out_frame w in
  let b := dsv4l2_capture_iris drv dev out_frame w in
  fst (fst g) = fst (fst b) /\
  frame_fields_eq (snd (fst g)) (snd (fst b)) /\
  w_dev (snd g) = w_dev (snd b) /\
  w_kernel (snd g) = w_kernel (snd b) /\
  w_ioctls (snd g) = w_ioctls (snd b) /\
  map strip_context (w_events (snd g)) = map strip_context (w_events (snd b)).
Proof.
  cbv zeta.
  destruct dev as [|a], out_frame as [|f];
    try (cbn; repeat split; reflexivity).
  capture_paths w; cbn [fst snd frame_fields_eq frame_data frame_len
                        frame_timestamp_ns frame_sequence bio_data bio_len
                        bio_timestamp_ns bio_sequence];
    rewrite !map_app; repeat split; reflexivity.
Qed.

(** X6.  Capture after a transition.  Once [dsv4l2_set_tempest_state] has
    moved a device to LOCKDOWN, from whatever state, a capture is denied
    with -EACCES without any ioctl, and the ring holds the transition
    followed by the denied policy check.  After a transition to any other
    state, also out of LOCKDOWN, the policy check of the next capture is
    logged with code 0: the engine does not hold a device in LOCKDOWN. *)
Theorem capture_after_transition (a f : Z)
    (target : dsv4l2_tempest_state_t) (w : world K) :
  let old := dev_tempest_state (w_dev w) in
  let w1 := snd (dsv4l2_set_tempest_state (Ptr a) target w) in
  let r := dsv4l2_capture_frame drv (Ptr a) (Ptr f) w1 in
  (target = DSV4L2_TEMPEST_LOCKDOWN ->
   r = (- EACCES, None,
        mkWorld (set_dev_tempest_state (w_dev w) DSV4L2_TEMPEST_LOCKDOWN)
                (w_kernel w) (w_ioctls w)
                (w_events w ++
                   [EV_tempest_transition (u32 a) old DSV4L2_TEMPEST_LOCKDOWN;
                    EV_policy_check (u32 a) "dsv4l2_capture_frame"
                                    (- EACCES)]))) /\
  (target <> DSV4L2_TEMPEST_LOCKDOWN ->
   firstn (List.length (w_events w) + 2) (w_events (snd r)) =
     w_events w ++
       [EV_tempest_transition (u32 a) old target;
        EV_policy_check (u32 a) "dsv4l2_capture_frame" 0]).
Proof.
  cbv zeta.
  change (dsv4l2_set_tempest_state (Ptr a) target w)
    with (0, mkWorld (set_dev_tempest_state (w_dev w) target)
                     (w_kernel w) (w_ioctls w)
                     (w_events w ++
                        [EV_tempest_transition (u32 a)
                           (dev_tempest_state (w_dev w)) target])).
  cbn [snd]. split.
  - intros ->. rewrite capture_frame_denied by reflexivity.
    reduce_world. rewrite <- app_assoc. reflexivity.
  - intro Hne.
    assert (Hprefix : forall (l : list dsv4l2_event) x y rest,
               firstn (List.length l + 2) (((l ++ [x]) ++ y :: rest)) =
               l ++ [x; y]).
    { intros l x y rest. rewrite <- app_assoc. cbn [app].
      rewrite firstn_app, firstn_all2 by lia.
      replace (List.length l + 2 - List.length l)%nat with 2%nat by lia.
      reflexivity. }
    rewrite capture_frame_run. cbv zeta.
    cbn [w_dev set_dev_tempest_state dev_tempest_state dev_streaming dev_fd
         w_kernel w_events w_ioctls dev_buffers].
    destruct (tempest_eqb target DSV4L2_TEMPEST_LOCKDOWN) eqn:E.
    { apply tempest_eqb_eq in E; contradiction. }
    destruct (dev_streaming (w_dev w) =? 0); [apply Hprefix|].
    destruct (drv_dqbuf drv (w_kernel w) (dev_fd (w_dev w)) capture_request)
      as [kd [bd|ed]]; [|apply Hprefix].
    destruct (drv_qbuf drv kd (dev_fd (w_dev w)) bd) as [kq [bq|eq]];
      apply Hprefix.
Qed.

End CaptureProperties.

(** ** Format and frame rate *)

Section FormatProperties.

Context {K : Type} (drv : v4l2_driver K).

(** X7.  [dsv4l2_set_format] sends S_FMT for a capture format with field
    NONE.  If the driver refuses, the call returns the negated errno and
    neither the device record nor the ring of events changes.  If the
    driver answers, the call returns 0, the cached format becomes the
    driver's answer (not the request; the cache stays empty only when it
    was empty and the allocation fails), and the logged format_change
    carries the requested values. *)
Theorem set_format_caches_negotiated (a pixfmt width height : Z)
    (w : world K) :
  let fd := dev_fd (w_dev w) in
  let req :=
    mkFormat V4L2_BUF_TYPE_VIDEO_CAPTURE
             (mkPix width height pixfmt V4L2_FIELD_NONE 0 0 0) in
  let r := dsv4l2_set_format drv (Ptr a) pixfmt width height w in
  issued_since w (snd r) = [VIDIOC_S_FMT fd req] /\
  (forall k1 e,
      drv_s_fmt drv (w_kernel w) fd req = (k1, IoctlErr e) ->
      r = (- e, mkWorld (w_dev w) k1 (w_ioctls w ++ [VIDIOC_S_FMT fd req])
                        (w_events w))) /\
  (forall k1 fmt,
      drv_s_fmt drv (w_kernel w) fd req = (k1, IoctlOk fmt) ->
      fst r = 0 /\
      w_events (snd r) =
        w_events w ++ [EV_format_change (u32 a) pixfmt width height] /\
      exists cached,
        w_dev (snd r) = set_dev_current_format (w_dev w) cached /\
        (cached = Some fmt \/
         cached = None /\ dev_current_format (w_dev w) = None /\
         snd (os_malloc drv k1) = false)).
Proof.
  cbv zeta. unfold issued_since. run_call dsv4l2_set_format.
  destruct (drv_s_fmt drv (w_kernel w) (dev_fd (w_dev w)) _)
    as [k1 [fmt|e]]; reduce_world.
  - destruct (dev_current_format (w_dev w)) eqn:Hc; reduce_world.
    + split; [apply skipn_length_app|]. split; [discriminate|].
      intros k1' fmt' H; injection H as <- <-.
      repeat split. exists (Some fmt). split; [reflexivity | left; reflexivity].
    + destruct (os_malloc drv k1) as [k2 ok] eqn:Hm; reduce_world.
      split; [apply skipn_length_app|]. split; [discriminate|].
      intros k1' fmt' H; injection H as <- <-. rewrite Hm.
      repeat split. exists (if ok then Some fmt else None).
      split; [reflexivity|]. destruct ok; [left | right]; auto.
  - split; [apply skipn_length_app|]. split.
    + intros k1' e' H; injection H as <- <-. reflexivity.
    + discriminate.
Qed.

(** X8.  [dsv4l2_set_framerate] changes the device record only when both
    G_PARM and S_PARM succeed: if either fails, the call returns the
    negated errno of that ioctl and the record is what it was; if both
    succeed, it returns 0 and caches what the driver answered to S_PARM
    (the cache stays empty only when it was empty and the allocation
    fails).  No event is logged in any case. *)
Theorem set_framerate_commits_on_success (a fps_num fps_den : Z)
    (w : world K) :
  let fd := dev_fd (w_dev w) in
  let r := dsv4l2_set_framerate drv (Ptr a) fps_num fps_den w in
  w_events (snd r) = w_events w /\
  (forall k1 e,
      drv_g_parm drv (w_kernel w) fd framerate_request = (k1, IoctlErr e) ->
      fst r = - e /\ w_dev (snd r) = w_dev w) /\
  (forall k1 parm k2 e,
      drv_g_parm drv (w_kernel w) fd framerate_request = (k1, IoctlOk parm) ->
      drv_s_parm drv k1 fd (set_timeperframe parm fps_den fps_num)
        = (k2, IoctlErr e) ->
      fst r = - e /\ w_dev (snd r) = w_dev w) /\
  (forall k1 parm k2 parm',
      drv_g_parm drv (w_kernel w) fd framerate_request = (k1, IoctlOk parm) ->
      drv_s_parm drv k1 fd (set_timeperframe parm fps_den fps_num)
        = (k2, IoctlOk parm') ->
      fst r = 0 /\
      exists cached,
        w_dev (snd r) = set_dev_current_parm (w_dev w) cached /\
        (cached = Some parm' \/
         cached = None /\ dev_current_parm (w_dev w) = None /\
         snd (os_malloc drv k2) = false)).
Proof.
  cbv zeta. run_call dsv4l2_set_framerate. fold framerate_request.
  destruct (drv_g_parm drv (w_kernel w) (dev_fd (w_dev w)) framerate_request)
    as [k1 [parm|e]]; reduce_world.
  - destruct (drv_s_parm drv k1 (dev_fd (w_dev w))
                (set_timeperframe parm fps_den fps_num))
      as [k2 [parm'|e]] eqn:Hs; reduce_world.
    + destruct (dev_current_parm (w_dev w)) eqn:Hc; reduce_world.
      * split; [reflexivity|]. split; [discriminate|]. split.
        -- intros ? ? ? ? H; injection H as <- <-. rewrite Hs. discriminate.
        -- intros ? ? ? ? H; injection H as <- <-. rewrite Hs.
           intro H; injection H as <- <-. split; [reflexivity|].
           exists (Some parm'). split; [reflexivity | left; reflexivity].
      * destruct (os_malloc drv k2) as [k3 ok] eqn:Hm; reduce_world.
        split; [reflexivity|]. split; [discriminate|]. split.
        -- intros ? ? ? ? H; injection H as <- <-. rewrite Hs. discriminate.
        -- intros ? ? ? ? H; injection H as <- <-. rewrite Hs.
           intro H; injection H as <- <-. rewrite Hm.
           split; [reflexivity|].
           exists (if ok then Some parm' else None).
           split; [reflexivity|]. destruct ok; [left | right]; auto.
    + split; [reflexivity|]. split; [discriminate|]. split.
      * intros ? ? ? ? H; injection H as <- <-. rewrite Hs.
        intro H; injection H as <- <-. split; reflexivity.
      * intros ? ? ? ? H; injection H as <- <-. rewrite Hs. discriminate.
  - split; [reflexivity|]. split.
    + intros ? ? H; injection H as <- <-. split; reflexivity.
    + split; discriminate.
Qed.

End FormatProperties.

(** ** Control enumeration, classifier, catalog *)

Section EnumerationProperties.

Context {K : Type} (drv : v4l2_driver K).

(** The loop against the traversal, with the world it leaves. *)
Lemma enum_controls_loop_visits {U : Type}
    (callback : v4l2_queryctrl -> U -> Z * U) (fd : Z) (k : K)
    (req : v4l2_queryctrl) (ctrls : list v4l2_queryctrl) :
  enumerates drv fd k req ctrls ->
  forall (fuel : nat) (ud : U) (w : world K),
    w_kernel w = k ->
    (List.length ctrls < fuel)%nat ->
    let r := enum_controls_loop drv fuel fd callback req ud w in
    fst r = Some (visit callback ctrls ud) /\
    w_dev (snd r) = w_dev w /\
    w_events (snd r) = w_events w /\
    exists queries,
      w_ioctls (snd r) = w_ioctls w ++ queries /\
      forallb is_queryctrl queries = true /\
      (List.length queries <= S (List.length ctrls))%nat.
Proof.
  induction 1 as [k req k' e Hq | k req k' q rest Hq Hrest IH];
    intros [|fuel] ud w Hk Hfuel; simpl in Hfuel; try lia;
    cbn [enum_controls_loop]; run_call do_ioctl; rewrite Hk, Hq;
    reduce_world; cbv zeta.
  - repeat split. exists [VIDIOC_QUERYCTRL fd req].
    repeat split. cbn; lia.
  - cbn [visit].
    assert (Hstep : forall ud',
      let w1 := mkWorld (w_dev w) k' (w_ioctls w ++ [VIDIOC_QUERYCTRL fd req])
                        (w_events w) in
      let r := enum_controls_loop drv fuel fd callback
                 (set_qc_id q (Z.lor (qc_id q) V4L2_CTRL_FLAG_NEXT_CTRL))
                 ud' w1 in
      fst r = Some (visit callback rest ud') /\
      w_dev (snd r) = w_dev w /\
      w_events (snd r) = w_events w /\
      exists queries,
        w_ioctls (snd r) = w_ioctls w ++ queries /\
        forallb is_queryctrl queries = true /\
        (List.length queries <= S (S (List.length rest)))%nat).
    { intros ud'. cbv zeta.
      destruct (IH fuel ud'
                  (mkWorld (w_dev w) k'
                     (w_ioctls w ++ [VIDIOC_QUERYCTRL fd req]) (w_events w))
                  eq_refl ltac:(lia)) as (H1 & H2 & H3 & qs & H4 & H5 & H6).
      repeat split; try assumption.
      exists (VIDIOC_QUERYCTRL fd req :: qs).
      split; [rewrite H4; cbn [w_ioctls]; rewrite <- app_assoc; reflexivity|].
      split; [cbn; exact H5 | cbn; lia]. }
    destruct (Z.land (qc_flags q) V4L2_CTRL_FLAG_DISABLED =? 0).
    + destruct (callback q ud) as [rc ud'].
      destruct (rc =? 0); cbn [negb].
      * apply Hstep.
      * repeat split. exists [VIDIOC_QUERYCTRL fd req].
        repeat split. cbn; lia.
    + apply Hstep.
Qed.

(** X9.  [dsv4l2_enum_controls]: without a device or a callback it returns
    -EINVAL and issues nothing.  Over a driver that hands out [ctrls] it
    returns 0 after running the callback on the controls that are not
    flagged disabled, in enumeration order, up to and including the first
    one for which the callback returns non-zero; it issues only QUERYCTRL
    ioctls, at most one more than there are controls, and changes neither
    the device record nor the ring of events. *)
Theorem enum_controls_visits_enabled {U : Type}
    (callback : v4l2_queryctrl -> U -> Z * U) (ud : U)
    (ctrls : list v4l2_queryctrl) (fuel : nat) (a : Z) (w : world K) :
  enumerates drv (dev_fd (w_dev w)) (w_kernel w) first_query ctrls ->
  (List.length ctrls < fuel)%nat ->
  dsv4l2_enum_controls drv fuel NULL (Some callback) ud w
    = (Some (- EINVAL, ud), w) /\
  dsv4l2_enum_controls drv fuel (Ptr a) None ud w
    = (Some (- EINVAL, ud), w) /\
  let r := dsv4l2_enum_controls drv fuel (Ptr a) (Some callback) ud w in
  fst r = Some (0, visit callback ctrls ud) /\
  w_dev (snd r) = w_dev w /\
  w_events (snd r) = w_events w /\
  forallb is_queryctrl (issued_since w (snd r)) = true /\
  (List.length (issued_since w (snd r)) <= S (List.length ctrls))%nat.
Proof.
  intros Henum Hfuel. split; [reflexivity|]. split; [reflexivity|].
  cbv zeta.
  destruct (enum_controls_loop_visits callback _ _ _ _ Henum fuel ud w
              eq_refl Hfuel) as (H1 & H2 & H3 & qs & H4 & H5 & H6).
  run_call dsv4l2_enum_controls. fold first_query.
  destruct (enum_controls_loop drv fuel (dev_fd (w_dev w)) callback
              first_query ud w) as [r w'].
  cbn [fst snd] in *. subst r. reduce_world.
  unfold issued_since. rewrite H4, skipn_length_app.
  repeat split; assumption.
Qed.

(** The enumeration with the search callback, as discovery runs it. *)
Lemma search_enumeration_footprint (ctrls : list v4l2_queryctrl)
    (fuel : nat) (a : Z) (w : world K) :
  enumerates drv (dev_fd (w_dev w)) (w_kernel w) first_query ctrls ->
  (List.length ctrls < fuel)%nat ->
  let r := dsv4l2_enum_controls drv fuel (Ptr a)
             (Some tempest_search_callback) (mkSearchCtx 0 0) w in
  fst r = Some (0, visit tempest_search_callback ctrls (mkSearchCtx 0 0)) /\
  w_dev (snd r) = w_dev w /\
  w_events (snd r) = w_events w /\
  forallb is_queryctrl (issued_since w (snd r)) = true /\
  (List.length (issued_since w (snd r)) <= S (List.length ctrls))%nat.
Proof.
  intros Henum Hfuel. cbv zeta.
  destruct (enum_controls_loop_visits tempest_search_callback _ _ _ _ Henum
              fuel (mkSearchCtx 0 0) w eq_refl Hfuel)
    as (H1 & H2 & H3 & qs & H4 & H5 & H6).
  run_call dsv4l2_enum_controls. fold first_query.
  destruct (enum_controls_loop drv fuel (dev_fd (w_dev w))
              tempest_search_callback first_query (mkSearchCtx 0 0) w)
    as [r w'].
  cbn [fst snd] in *. subst r. reduce_world.
  unfold issued_since. rewrite H4, skipn_length_app.
  repeat split; assumption.
Qed.

(** X10.  Discovery only reads: run over a driver that hands out [ctrls],
    [dsv4l2_discover_tempest_control] leaves the device record (so the
    cached TEMPEST state) and the ring of events as they were, and issues
    nothing but QUERYCTRL ioctls, at most one more than there are
    controls. *)
Theorem discover_only_reads (ctrls : list v4l2_queryctrl) (fuel : nat)
    (a o : Z) (w : world K) :
  enumerates drv (dev_fd (w_dev w)) (w_kernel w) first_query ctrls ->
  (List.length ctrls < fuel)%nat ->
  let r := dsv4l2_discover_tempest_control drv fuel (Ptr a) (Ptr o) w in
  w_dev (snd r) = w_dev w /\
  w_events (snd r) = w_events w /\
  forallb is_queryctrl (issued_since w (snd r)) = true /\
  (List.length (issued_since w (snd r)) <= S (List.length ctrls))%nat.
Proof.
  intros Henum Hfuel. cbv zeta.
  destruct (search_enumeration_footprint ctrls fuel a w Henum Hfuel)
    as (H1 & H2 & H3 & H4 & H5).
  run_call dsv4l2_discover_tempest_control.
  destruct (dsv4l2_enum_controls drv fuel (Ptr a)
              (Some tempest_search_callback) (mkSearchCtx 0 0) w)
    as [r w'].
  cbn [fst snd] in *. subst r. cbv beta iota.
  destruct (negb (found _ =? 0)); reduce_world; repeat split; assumption.
Qed.

End EnumerationProperties.

Section ClassifierProperties.

Lemma tolower_toupper (c : ascii) : tolower (toupper c) = tolower c.
Proof.
  destruct c as [[] [] [] [] [] [] [] []]; vm_compute; reflexivity.
Qed.

Lemma tolower_idempotent (c : ascii) : tolower (tolower c) = tolower c.
Proof.
  destruct c as [[] [] [] [] [] [] [] []]; vm_compute; reflexivity.
Qed.

Lemma strncpy_str_map (f : ascii -> ascii) (n : nat) (s : string) :
  strncpy n (str_map f s) = str_map f (strncpy n s).
Proof.
  revert s; induction n as [|n IH]; intros [|c s]; cbn; try reflexivity.
  rewrite IH; reflexivity.
Qed.

Lemma str_map_compose (f g : ascii -> ascii) (s : string) :
  str_map f (str_map g s) = str_map (fun c => f (g c)) s.
Proof. induction s as [|c s IH]; cbn; [|rewrite IH]; reflexivity. Qed.

Lemma str_map_ext (f g : ascii -> ascii) (s : string) :
  (forall c, f c = g c) -> str_map f s = str_map g s.
Proof.
  intro H; induction s as [|c s IH]; cbn; [|rewrite IH, H]; reflexivity.
Qed.

(** X11.  The classifier is case-insensitive: two names that agree after
    lowercasing are classified alike; in particular a name, its uppercase
    form and its lowercase form get the same answer. *)
Theorem is_tempest_control_ignores_case (name name' : string) :
  (str_map tolower name = str_map tolower name' ->
   is_tempest_control name = is_tempest_control name') /\
  is_tempest_control (str_map toupper name) = is_tempest_control name /\
  is_tempest_control (str_map tolower name) = is_tempest_control name.
Proof.
  assert (Hgen : forall n1 n2, str_map tolower n1 = str_map tolower n2 ->
                               is_tempest_control n1 = is_tempest_control n2).
  { intros n1 n2 H. unfold is_tempest_control.
    rewrite <- !strncpy_str_map, H. reflexivity. }
  split; [apply Hgen|]. split; apply Hgen; rewrite str_map_compose;
    apply str_map_ext; [apply tolower_toupper | apply tolower_idempotent].
Qed.

Lemma name_table_scan_sound (name : string) (table : list control_name_map_t)
    (id : Z) :
  name_table_scan name table = Some id -> In (mkNameMap name id) table.
Proof.
  induction table as [|[n i] table IH]; cbn; [discriminate|].
  destruct (streq name n) eqn:E.
  - intro H; injection H as <-. apply String.eqb_eq in E; subst n.
    left; reflexivity.
  - intro H; right; apply IH; exact H.
Qed.

Lemma name_table_scan_none (name : string) (table : list control_name_map_t) :
  name_table_scan name table = None ->
  forall id, ~ In (mkNameMap name id) table.
Proof.
  induction table as [|[n i] table IH]; cbn; [intros _ id []|].
  destruct (streq name n) eqn:E; [discriminate|].
  intros H id [Heq|Hin].
  - injection Heq as -> _. unfold streq in E.
    rewrite String.eqb_refl in E. discriminate.
  - exact (IH H id Hin).
Qed.

(** X12.  The control catalog: [dsv4l2_control_name_to_id] returns 0 and an
    id exactly for the pairs of the table (names are matched whole and
    case-sensitively), returns -ENOENT and stores nothing for every other
    name, and is injective: two names that resolve to the same id are the
    same name. *)
Theorem control_name_to_id_table (o : Z) :
  (forall name id,
      dsv4l2_control_name_to_id (Some name) (Ptr o) = (0, Some id) <->
      In (mkNameMap name id) control_name_table) /\
  (forall name,
      (forall id, ~ In (mkNameMap name id) control_name_table) ->
      dsv4l2_control_name_to_id (Some name) (Ptr o) = (- ENOENT, None)) /\
  (forall name name' id,
      dsv4l2_control_name_to_id (Some name) (Ptr o) = (0, Some id) ->
      dsv4l2_control_name_to_id (Some name') (Ptr o) = (0, Some id) ->
      name = name').
Proof.
  assert (Hfwd : forall name id,
             dsv4l2_control_name_to_id (Some name) (Ptr o) = (0, Some id) ->
             In (mkNameMap name id) control_name_table).
  { intros name id. unfold dsv4l2_control_name_to_id.
    destruct (name_table_scan name control_name_table) eqn:E;
      [|discriminate].
    intro H; injection H as <-. apply name_table_scan_sound; exact E. }
  split; [|split].
  - intros name id; split; [apply Hfwd|].
    intro Hin. cbn in Hin.
    repeat (destruct Hin as [Hin|Hin];
            [injection Hin as <- <-; reflexivity|]).
    destruct Hin.
  - intros name Hnone. unfold dsv4l2_control_name_to_id.
    destruct (name_table_scan name control_name_table) eqn:E;
      [|reflexivity].
    apply name_table_scan_sound in E. destruct (Hnone _ E).
  - intros name name' id H H'. apply Hfwd in H. apply Hfwd in H'.
    cbn [control_name_table In] in H, H'.
    repeat (destruct H as [H|H];
            [pose proof (f_equal map_name H) as Hn;
             pose proof (f_equal map_id H) as Hi;
             cbn [map_name map_id] in Hn, Hi; subst name id; clear H;
             repeat (destruct H' as [H'|H'];
                     [pose proof (f_equal map_name H') as Hn';
                      pose proof (f_equal map_id H') as Hi';
                      cbn [map_name map_id] in Hn', Hi'; subst name';
                      first [reflexivity
                            | exfalso; vm_compute in Hi'; discriminate Hi']|]);
             destruct H'|]).
    destruct H.
Qed.

Lemma land_shiftl_low (x z n : Z) :
  0 <= n -> 0 <= x < 2 ^ n -> Z.land x (Z.shiftl z n) = 0.
Proof.
  intros Hn Hx. apply Z.bits_inj'. intros i Hi.
  rewrite Z.land_spec, Z.bits_0.
  destruct (Z.lt_ge_cases i n) as [Hlt|Hge].
  - rewrite Z.shiftl_spec_low by exact Hlt. apply andb_false_r.
  - rewrite <- (Z.mod_small x (2 ^ n)) by exact Hx.
    rewrite Z.mod_pow2_bits_high by lia. reflexivity.
Qed.

Lemma lor_shiftl_add (x z n : Z) :
  0 <= n -> 0 <= x < 2 ^ n -> Z.lor x (Z.shiftl z n) = x + z * 2 ^ n.
Proof.
  intros Hn Hx.
  pose proof (Z.add_lor_land x (Z.shiftl z n)) as H.
  rewrite land_shiftl_low in H by assumption.
  rewrite Z.shiftl_mul_pow2 in * by exact Hn. lia.
Qed.

(** The packing of four 7-bit characters. *)
Lemma fourcc_ascii_value (c0 c1 c2 c3 : ascii) :
  is_ascii_fourcc (String c0 (String c1 (String c2 (String c3 EmptyString))))
    = true ->
  fourcc_to_u32
    (Some (String c0 (String c1 (String c2 (String c3 EmptyString))))) =
    Z.of_nat (nat_of_ascii c0) + Z.of_nat (nat_of_ascii c1) * 2 ^ 8 +
    Z.of_nat (nat_of_ascii c2) * 2 ^ 16 + Z.of_nat (nat_of_ascii c3) * 2 ^ 24.
Proof.
  cbn [is_ascii_fourcc forallb]. rewrite !andb_true_iff.
  intros (H0 & H1 & H2 & H3 & _).
  apply Nat.ltb_lt in H0, H1, H2, H3.
  cbn [fourcc_to_u32]. unfold char_to_u32.
  repeat match goal with
         | |- context [Z.of_nat ?n <? 128] =>
             replace (Z.of_nat n <? 128) with true
               by (symmetry; apply Z.ltb_lt; lia)
         end.
  set (n0 := Z.of_nat (nat_of_ascii c0)) in *.
  set (n1 := Z.of_nat (nat_of_ascii c1)) in *.
  set (n2 := Z.of_nat (nat_of_ascii c2)) in *.
  set (n3 := Z.of_nat (nat_of_ascii c3)) in *.
  assert (B0 : 0 <= n0 < 128) by (subst n0; lia).
  assert (B1 : 0 <= n1 < 128) by (subst n1; lia).
  assert (B2 : 0 <= n2 < 128) by (subst n2; lia).
  assert (B3 : 0 <= n3 < 128) by (subst n3; lia).
  unfold u32. rewrite !Z.shiftl_mul_pow2 by lia.
  rewrite !Z.mod_small by lia.
  rewrite <- !Z.shiftl_mul_pow2 by lia.
  rewrite (lor_shiftl_add n0 n1 8) by lia.
  rewrite (lor_shiftl_add (n0 + n1 * 2 ^ 8) n2 16) by lia.
  rewrite (lor_shiftl_add (n0 + n1 * 2 ^ 8 + n2 * 2 ^ 16) n3 24) by lia.
  rewrite !Z.shiftl_mul_pow2 by lia. reflexivity.
Qed.

(** X13.  The fourcc packing.  A NULL pointer or a string that does not
    have exactly four characters gives 0.  Four 7-bit ASCII characters
    [c0 c1 c2 c3] are packed little-endian: the value is
    [c0 + c1 * 2^8 + c2 * 2^16 + c3 * 2^24], the first character in the
    lowest byte.  That value is below 2^31, and the packing is injective
    on such strings: different codes give different identifiers. *)
Theorem fourcc_to_u32_packs_ascii :
  fourcc_to_u32 None = 0 /\
  (forall s, String.length s <> 4%nat -> fourcc_to_u32 (Some s) = 0) /\
  (forall c0 c1 c2 c3 : ascii,
      is_ascii_fourcc
        (String c0 (String c1 (String c2 (String c3 EmptyString)))) = true ->
      fourcc_to_u32
        (Some (String c0 (String c1 (String c2 (String c3 EmptyString))))) =
        Z.of_nat (nat_of_ascii c0) + Z.of_nat (nat_of_ascii c1) * 2 ^ 8 +
        Z.of_nat (nat_of_ascii c2) * 2 ^ 16 +
        Z.of_nat (nat_of_ascii c3) * 2 ^ 24) /\
  (forall s, is_ascii_fourcc s = true ->
             0 <= fourcc_to_u32 (Some s) < 2 ^ 31) /\
  (forall s s',
      is_ascii_fourcc s = true -> is_ascii_fourcc s' = true ->
      fourcc_to_u32 (Some s) = fourcc_to_u32 (Some s') -> s = s').
Proof.
  assert (Hshape : forall s, is_ascii_fourcc s = true ->
            exists c0 c1 c2 c3,
              s = String c0 (String c1 (String c2 (String c3 EmptyString))) /\
              (nat_of_ascii c0 < 128)%nat /\ (nat_of_ascii c1 < 128)%nat /\
              (nat_of_ascii c2 < 128)%nat /\ (nat_of_ascii c3 < 128)%nat).
  { intros [|c0 [|c1 [|c2 [|c3 [|c4 s]]]]]; try discriminate.
    cbn [is_ascii_fourcc forallb]. rewrite !andb_true_iff.
    intros (H0 & H1 & H2 & H3 & _). apply Nat.ltb_lt in H0, H1, H2, H3.
    exists c0, c1, c2, c3. auto. }
  split; [reflexivity|]. split; [|split; [|split]].
  - intros [|c0 [|c1 [|c2 [|c3 [|c4 s]]]]] H; try reflexivity.
    exfalso; apply H; reflexivity.
  - intros c0 c1 c2 c3 Hs. apply fourcc_ascii_value; exact Hs.
  - intros s Hs. destruct (Hshape s Hs) as (c0 & c1 & c2 & c3 & -> & B).
    rewrite fourcc_ascii_value by exact Hs. lia.
  - intros s s' Hs Hs'.
    destruct (Hshape s Hs) as (c0 & c1 & c2 & c3 & -> & B).
    destruct (Hshape s' Hs') as (d0 & d1 & d2 & d3 & -> & B').
    rewrite !fourcc_ascii_value by assumption. intro H.
    assert (E : nat_of_ascii c0 = nat_of_ascii d0 /\
                nat_of_ascii c1 = nat_of_ascii d1 /\
                nat_of_ascii c2 = nat_of_ascii d2 /\
                nat_of_ascii c3 = nat_of_ascii d3) by lia.
    destruct E as (E0 & E1 & E2 & E3).
    apply (f_equal ascii_of_nat) in E0, E1, E2, E3.
    rewrite !ascii_nat_embedding in E0, E1, E2, E3. congruence.
Qed.

End ClassifierProperties.

(** ** Profile loader, continued *)

Section LoaderMore.

Lemma strncpy_length (n : nat) (s : string) :
  (String.length (strncpy n s) <= n)%nat.
Proof.
  revert s; induction n as [|n IH]; intros s.
  - destruct s; cbn; lia.
  - destruct s as [|c s]; cbn; [lia|]. specialize (IH s). lia.
Qed.

#[local] Arguments strncpy : simpl never.
#[local] Arguments atoi : simpl never.
#[local] Arguments strtoul0 : simpl never.
#[local] Arguments fourcc_to_u32 : simpl never.
#[local] Arguments u32 : simpl never.

Ltac split_ifs :=
  repeat match goal with
         | |- context [if ?b then _ else _] => destruct b eqn:?
         end.

Lemma all_events_allowed (events : list yaml_parse_result) :
  forallb (fun r => match r with
                    | YamlEvent _ => true
                    | YamlError => true
                    end) events = true.
Proof. induction events as [|[ev|] events IH]; cbn; auto. Qed.

(** A property of the profile that every step keeps holds of every loaded
    profile. *)
Lemma loaded_profile_invariant (P : dsv4l2_profile_t -> Prop) :
  P initial_profile ->
  (forall ev st, P (ld_profile st) -> P (ld_profile (loader_step ev st))) ->
  forall env path out events p,
    env_fopen env path = FileOpened events ->
    dsv4l2_profile_load_from_file env (Some path) out = (0, Some p) ->
    P p.
Proof.
  intros H0 Hstep env path out events p Hopen Hload.
  destruct (load_from_file_loop _ _ _ _ _ Hopen Hload) as [st [Hloop <-]].
  refine (loader_loop_invariant (fun st => P (ld_profile st)) (fun _ => true)
            _ events loader_start st (all_events_allowed events) H0 Hloop).
  intros ev s _ HP. apply Hstep; exact HP.
Qed.

Ltac step_cases ev st :=
  destruct st as [pr ck cx ic it im];
  destruct ev; cbn [loader_step ld_profile ld_current_key ld_context
                    ld_in_controls ld_in_tempest ld_in_mode_map];
  unfold assign_scalar, assign_tempest;
  split_ifs; cbn; auto.

(** X14.  The string fields of a loaded profile fit their arrays with the
    terminator, whatever the document holds: [id] and [classification] have
    at most 63 characters, [role] at most 31, [device_hint] and
    [meta_device_path] at most 255. *)
Theorem loaded_strings_fit (env : loader_env) (path : string) (out : ptr)
    (events : list yaml_parse_result) (p : dsv4l2_profile_t) :
  env_fopen env path = FileOpened events ->
  dsv4l2_profile_load_from_file env (Some path) out = (0, Some p) ->
  (String.length (profile_id p) <= 63)%nat /\
  (String.length (profile_role p) <= 31)%nat /\
  (String.length (device_hint p) <= 255)%nat /\
  (String.length (classification p) <= 63)%nat /\
  (String.length (meta_device_path p) <= 255)%nat.
Proof.
  apply (loaded_profile_invariant
           (fun p => (String.length (profile_id p) <= 63)%nat /\
                     (String.length (profile_role p) <= 31)%nat /\
                     (String.length (device_hint p) <= 255)%nat /\
                     (String.length (classification p) <= 63)%nat /\
                     (String.length (meta_device_path p) <= 255)%nat)).
  - cbn. lia.
  - intros ev st (H1 & H2 & H3 & H4 & H5).
    step_cases ev st; cbn in *;
      repeat split; try assumption; apply strncpy_length.
Qed.

(** X15.  The loader never fills the control presets: whatever the
    document holds, including a [controls] mapping, a loaded profile has
    [num_controls] 0, its 32 presets zero, and [meta_format] 0. *)
Theorem loaded_presets_stay_empty (env : loader_env) (path : string)
    (out : ptr) (events : list yaml_parse_result) (p : dsv4l2_profile_t) :
  env_fopen env path = FileOpened events ->
  dsv4l2_profile_load_from_file env (Some path) out = (0, Some p) ->
  num_controls p = 0 /\
  controls p = repeat (mkPreset 0 0) 32 /\
  meta_format p = 0.
Proof.
  apply (loaded_profile_invariant
           (fun p => num_controls p = 0 /\
                     controls p = repeat (mkPreset 0 0) 32 /\
                     meta_format p = 0)).
  - repeat split.
  - intros ev st H. step_cases ev st.
Qed.


Lemma strncpy_nonempty (n : nat) (s : string) :
  s <> EmptyString -> streq (strncpy (S n) s) EmptyString = false.
Proof. destruct s as [|c s]; [congruence | reflexivity]. Qed.

(** The loop over the scalars of a flat mapping, outside [tempest_control]:
    keys and values alternate and each pair is one [assign_scalar]. *)
Lemma loader_loop_pairs (pairs : list (string * string))
    (rest : list yaml_parse_result) :
  (forall kv, In kv pairs -> fst kv <> EmptyString) ->
  forall (p : dsv4l2_profile_t) (cx : string) (ic im : Z),
    loader_loop
      (map YamlEvent
         (flat_map (fun kv => [YAML_SCALAR_EVENT (fst kv);
                               YAML_SCALAR_EVENT (snd kv)]) pairs) ++ rest)
      (mkLoader p EmptyString cx ic 0 im) =
    loader_loop rest
      (mkLoader (fold_left pair_step pairs p) EmptyString cx ic 0 im).
Proof.
  induction pairs as [|[k v] pairs IH]; intros Hkeys p cx ic im;
    [reflexivity|].
  cbn [flat_map map app fst snd loader_loop fold_left].
  cbn [loader_step ld_current_key ld_profile ld_context ld_in_controls
       ld_in_tempest ld_in_mode_map].
  change (streq EmptyString EmptyString) with true. cbv iota.
  cbn [ld_current_key ld_profile ld_context ld_in_controls
       ld_in_tempest ld_in_mode_map].
  rewrite strncpy_nonempty
    by (apply (Hkeys (k, v)); left; reflexivity).
  cbn [ld_current_key ld_profile ld_context ld_in_controls
       ld_in_tempest ld_in_mode_map].
  change (negb (0 =? 0)) with false. cbv iota.
  apply IH. intros kv Hin; apply Hkeys; right; exact Hin.
Qed.

(** The profile a flat document loads to. *)
Lemma load_flat_document (env : loader_env) (path : string) (o : Z)
    (pairs : list (string * string)) :
  serves env path (flat_document pairs) ->
  (forall kv, In kv pairs -> fst kv <> EmptyString) ->
  dsv4l2_profile_load_from_file env (Some path) (Ptr o) =
    (0, Some (fold_left pair_step pairs initial_profile)).
Proof.
  intros (Hopen & Hc & Hi) Hkeys.
  unfold dsv4l2_profile_load_from_file. rewrite Hopen, Hc, Hi. cbn [negb].
  unfold flat_document, loader_start.
  cbn [app map loader_loop loader_step ld_current_key ld_profile ld_context
       ld_in_controls ld_in_tempest ld_in_mode_map].
  change (streq EmptyString "controls") with false.
  change (streq EmptyString "tempest_control") with false.
  change (streq EmptyString "mode_map") with false. cbv iota.
  rewrite map_app, loader_loop_pairs by exact Hkeys.
  reflexivity.
Qed.

Lemma fold_pairs_field {A : Type} (F : dsv4l2_profile_t -> A) (key : string)
    (conv : string -> A) :
  (forall k v p,
      F (assign_scalar k v p) = if streq k key then conv v else F p) ->
  forall pairs p,
    F (fold_left pair_step pairs p) =
      match last_value key pairs with
      | Some v => conv v
      | None => F p
      end.
Proof.
  intros Hstep pairs p. unfold last_value.
  assert (Hgen : forall pairs q acc,
             F q = match acc with Some v => conv v | None => F p end ->
             F (fold_left pair_step pairs q) =
               match fold_left
                       (fun acc kv =>
                          if streq (strncpy 63 (fst kv)) key
                          then Some (snd kv) else acc) pairs acc with
               | Some v => conv v
               | None => F p
               end).
  { clear pairs. induction pairs as [|[k v] pairs IH]; intros q acc Hq;
      [exact Hq|].
    cbn [fold_left fst snd]. apply IH. unfold pair_step. cbn [fst snd].
    rewrite Hstep. destruct (streq (strncpy 63 k) key); [reflexivity|exact Hq]. }
  apply Hgen. reflexivity.
Qed.

Ltac scalar_field :=
  intros k v p; unfold assign_scalar; split_ifs;
  repeat match goal with
         | H : streq _ _ = true |- _ => apply String.eqb_eq in H; subst
         end;
  cbn; try reflexivity; try discriminate.

(** X16.  Loading a document that is one flat mapping of scalar pairs with
    non-empty keys.  The load succeeds, and every recognized field holds
    the conversion of the value of the last pair with its key, or its
    initial value when no pair has the key: strings cut to their array,
    [pixel_format] the packed fourcc, [fps_num] the number read by atoi
    with [fps_den] 1 (both 0 without an [fps] key), [buffer_count] the
    number read (4 without the key), the two flags 1 exactly for the text
    [true]. *)
Theorem flat_document_fields (env : loader_env) (path : string) (o : Z)
    (pairs : list (string * string)) :
  serves env path (flat_document pairs) ->
  (forall kv, In kv pairs -> fst kv <> EmptyString) ->
  exists p : dsv4l2_profile_t,
    dsv4l2_profile_load_from_file env (Some path) (Ptr o) = (0, Some p) /\
    let given key (conv : string -> string) :=
      match last_value key pairs with
      | Some v => conv v
      | None => EmptyString
      end in
    let number key (conv : string -> Z) (initial : Z) :=
      match last_value key pairs with
      | Some v => conv v
      | None => initial
      end in
    profile_id p = given "id" (strncpy 63) /\
    profile_role p = given "role" (strncpy 31) /\
    device_hint p = given "device_hint" (strncpy 255) /\
    classification p = given "classification" (strncpy 63) /\
    meta_device_path p = given "meta_device" (strncpy 255) /\
    pixel_format p =
      number "pixel_format" (fun v => fourcc_to_u32 (Some v)) 0 /\
    fps_num p = number "fps" (fun v => u32 (atoi v)) 0 /\
    fps_den p = number "fps" (fun _ => 1) 0 /\
    buffer_count p = number "buffer_count" atoi 4 /\
    constant_time_required p =
      number "constant_time_required" (fun v => b2z (streq v "true")) 0 /\
    quantum_candidate p =
      number "quantum_candidate" (fun v => b2z (streq v "true")) 0.
Proof.
  intros Hserves Hkeys.
  exists (fold_left pair_step pairs initial_profile).
  split; [apply load_flat_document; assumption|]. cbv zeta.
  split; [apply (fold_pairs_field profile_id "id" (strncpy 63)); scalar_field|].
  split; [apply (fold_pairs_field profile_role "role" (strncpy 31));
          scalar_field|].
  split; [apply (fold_pairs_field device_hint "device_hint" (strncpy 255));
          scalar_field|].
  split; [apply (fold_pairs_field classification "classification"
                   (strncpy 63)); scalar_field|].
  split; [apply (fold_pairs_field meta_device_path "meta_device"
                   (strncpy 255)); scalar_field|].
  split; [apply (fold_pairs_field pixel_format "pixel_format"
                   (fun v => fourcc_to_u32 (Some v))); scalar_field|].
  split; [apply (fold_pairs_field fps_num "fps" (fun v => u32 (atoi v)));
          scalar_field|].
  split; [apply (fold_pairs_field fps_den "fps" (fun _ => 1)); scalar_field|].
  split; [apply (fold_pairs_field buffer_count "buffer_count" atoi);
          scalar_field|].
  split; [apply (fold_pairs_field constant_time_required
                   "constant_time_required"
                   (fun v => b2z (streq v "true"))); scalar_field|].
  apply (fold_pairs_field quantum_candidate "quantum_candidate"
           (fun v => b2z (streq v "true"))); scalar_field.
Qed.

Lemma assign_scalar_unknown (k v : string) (p : dsv4l2_profile_t) :
  existsb (streq k) scalar_keys = false -> assign_scalar k v p = p.
Proof.
  cbn [existsb scalar_keys]. rewrite !orb_false_iff.
  intros (H1 & H2 & H3 & H4 & H5 & H6 & H7 & H8 & H9 & H10 & _).
  unfold assign_scalar.
  rewrite H1, H2, H3, H4, H5, H6, H7, H8, H9, H10. reflexivity.
Qed.

(** X17.  Unknown scalar keys are ignored: in a flat mapping with
    non-empty keys, the pairs whose key is not one the loader acts on can
    be removed without changing the outcome of the load. *)
Theorem unknown_keys_are_ignored (env env' : loader_env) (path : string)
    (o : Z) (pairs : list (string * string)) :
  serves env path (flat_document pairs) ->
  serves env' path (flat_document (filter recognized pairs)) ->
  (forall kv, In kv pairs -> fst kv <> EmptyString) ->
  dsv4l2_profile_load_from_file env (Some path) (Ptr o) =
  dsv4l2_profile_load_from_file env' (Some path) (Ptr o).
Proof.
  intros Hs Hs' Hkeys.
  rewrite (load_flat_document env path o pairs Hs Hkeys).
  rewrite (load_flat_document env' path o (filter recognized pairs) Hs').
  - do 2 f_equal. generalize initial_profile.
    clear. induction pairs as [|kv pairs IH]; intro p; [reflexivity|].
    cbn [filter fold_left]. destruct (recognized kv) eqn:E.
    + cbn [fold_left]. apply IH.
    + unfold pair_step at 2. rewrite assign_scalar_unknown by exact E.
      apply IH.
  - intros kv Hin. apply filter_In in Hin as [Hin _]. apply Hkeys; exact Hin.
Qed.

End LoaderMore.

(** The number conversions of the loader at the limits of [int] and
    [long]: [atoi] cuts a [long] that saturates, [strtoul] saturates
    whatever the sign and otherwise negates as an [unsigned long]. *)
Example number_conversions_at_the_limits :
  atoi "2147483647" = 2147483647 /\
  atoi "2147483648" = -2147483648 /\
  atoi "99999999999999999999" = -1 /\
  atoi "-99999999999999999999" = 0 /\
  atoi "  -42 fps" = -42 /\
  strtoul0 "0x009a0911" = 0x009a0911 /\
  strtoul0 "010" = 8 /\
  strtoul0 "-1" = ULONG_MAX /\
  strtoul0 "18446744073709551616" = ULONG_MAX /\
  strtoul0 "-18446744073709551616" = ULONG_MAX /\
  u32 (strtoul0 "-18446744073709551616") = 0xFFFFFFFF.
Proof. vm_compute. repeat split. Qed.


Section LoadOutcomes.

Lemma loader_loop_prefix (pre rest : list yaml_parse_result)
    (st : loader_state) :
  forallb ordinary pre = true ->
  loader_loop (pre ++ rest) st = loader_loop rest (run_events pre st).
Proof.
  revert st. induction pre as [|r pre IH]; intros st H; [reflexivity|].
  cbn [forallb] in H. apply andb_true_iff in H as [Hr H].
  destruct r as [ev|]; [|discriminate].
  destruct ev; try discriminate; cbn [app loader_loop run_events fold_left];
    apply IH; exact H.
Qed.

(** X18.  Outcomes of [dsv4l2_profile_load_from_file].  A missing path or
    output pointer gives -EINVAL; a file that cannot be opened gives the
    negated errno of fopen; a failed allocation or parser set-up gives
    -ENOMEM; a parser failure before the end of the stream gives -EINVAL,
    however much of the document had been read; in all these cases no
    profile is handed out.  When the parser reaches the end of the stream
    the load returns 0 with the profile built from the events before it,
    and nothing after the end of the stream is read. *)
Theorem load_from_file_outcomes (env : loader_env) (path : string) (o : Z) :
  (forall out, dsv4l2_profile_load_from_file env None out
               = (- EINVAL, None)) /\
  dsv4l2_profile_load_from_file env (Some path) NULL = (- EINVAL, None) /\
  (forall e, env_fopen env path = FopenFailed e ->
             dsv4l2_profile_load_from_file env (Some path) (Ptr o)
             = (- e, None)) /\
  (forall events,
      env_fopen env path = FileOpened events ->
      env_calloc_ok env = false \/ env_parser_init_ok env = false ->
      dsv4l2_profile_load_from_file env (Some path) (Ptr o)
      = (- ENOMEM, None)) /\
  (forall pre rest,
      serves env path (pre ++ YamlError :: rest) ->
      forallb ordinary pre = true ->
      dsv4l2_profile_load_from_file env (Some path) (Ptr o)
      = (- EINVAL, None)) /\
  (forall pre rest,
      serves env path (pre ++ YamlEvent YAML_STREAM_END_EVENT :: rest) ->
      forallb ordinary pre = true ->
      dsv4l2_profile_load_from_file env (Some path) (Ptr o)
      = (0, Some (ld_profile (run_events pre loader_start)))).
Proof.
  split; [intros out; reflexivity|]. split; [reflexivity|].
  unfold dsv4l2_profile_load_from_file.
  split; [intros e ->; reflexivity|]. split; [|split].
  - intros events -> [-> | H]; [reflexivity|].
    rewrite H. destruct (env_calloc_ok env); reflexivity.
  - intros pre rest (-> & -> & ->) Hpre. cbn [negb].
    rewrite loader_loop_prefix by exact Hpre. reflexivity.
  - intros pre rest (-> & -> & ->) Hpre. cbn [negb].
    rewrite loader_loop_prefix by exact Hpre. reflexivity.
Qed.

(** X19.  [dsv4l2_profile_load_by_vidpid] cannot succeed: for every
    vendor id, product id, role and output pointer it returns -EINVAL and
    hands out no profile, without opening any file (it passes a NULL
    device path to [dsv4l2_profile_load], which rejects it). *)
Theorem load_by_vidpid_always_fails (profile_dir : string) (env : loader_env)
    (vendor_id product_id : Z) (role : option string) (out_profile : ptr) :
  dsv4l2_profile_load_by_vidpid profile_dir env vendor_id product_id role
                                out_profile = (- EINVAL, None) /\
  (forall device_path,
      dsv4l2_profile_load profile_dir env device_path None out_profile
      = (- EINVAL, None)) /\
  dsv4l2_profile_load profile_dir env None role out_profile
    = (- EINVAL, None).
Proof.
  split; [|split].
  - destruct role, out_profile; reflexivity.
  - intros [d|]; reflexivity.
  - reflexivity.
Qed.



End LoadOutcomes.

(** ** Applying a profile *)

Section ApplyProperties.

Context {K : Type} (drv : v4l2_driver K).

Lemma appends_only_ret {A : Type} (P : ioctl_call -> bool) (a : A) :
  appends_only (K := K) P (ret a).
Proof. intro w; exists []; split; [symmetry; apply app_nil_r | reflexivity]. Qed.

Lemma appends_only_bind {A B : Type} (P : ioctl_call -> bool)
    (c : M K A) (f : A -> M K B) :
  appends_only P c -> (forall a, appends_only P (f a)) ->
  appends_only P (bind c f).
Proof.
  intros Hc Hf w. unfold bind.
  destruct (Hc w) as (l1 & H1 & P1).
  destruct (c w) as [a w1]. cbn [snd] in H1.
  destruct (Hf a w1) as (l2 & H2 & P2).
  exists (l1 ++ l2). split.
  - rewrite H2, H1, app_assoc. reflexivity.
  - rewrite forallb_app, P1, P2. reflexivity.
Qed.

Lemma appends_only_silent {A : Type} (P : ioctl_call -> bool) (c : M K A) :
  (forall w, w_ioctls (snd (c w)) = w_ioctls w) -> appends_only P c.
Proof.
  intros H w; exists []; split; [rewrite H, app_nil_r|]; reflexivity.
Qed.

Lemma appends_only_do_ioctl {A : Type} (P : ioctl_call -> bool)
    (op : K -> Z -> A -> K * ioctl_result A) (call : Z -> A -> ioctl_call)
    (fd : Z) (arg : A) :
  P (call fd arg) = true -> appends_only P (do_ioctl op call fd arg).
Proof.
  intros HP w. exists [call fd arg]. unfold do_ioctl.
  destruct (op (w_kernel w) fd arg). cbn. rewrite HP. auto.
Qed.

Lemma appends_only_malloc (P : ioctl_call -> bool) :
  appends_only P (malloc drv).
Proof.
  apply appends_only_silent. intro w. unfold malloc.
  destruct (os_malloc drv (w_kernel w)); reflexivity.
Qed.

Lemma appends_only_store_cached {A : Type} (P : ioctl_call -> bool)
    (slot : option A) (v : A) :
  appends_only P (store_cached drv slot v).
Proof.
  destruct slot; cbn [store_cached]; [apply appends_only_ret|].
  apply appends_only_bind; [apply appends_only_malloc|].
  intro; apply appends_only_ret.
Qed.

(** Reduces a footprint goal along the binds of the computation. *)
Ltac footprint :=
  repeat first
    [ apply appends_only_ret
    | apply appends_only_malloc
    | apply appends_only_store_cached
    | apply appends_only_silent; intro; reflexivity
    | apply appends_only_bind; [|intro] ].

Lemma appends_only_set_format (P : ioctl_call -> bool) (dev : ptr)
    (pixfmt width height : Z) :
  (forall fd f, P (VIDIOC_S_FMT fd f) = true) ->
  appends_only P (dsv4l2_set_format drv dev pixfmt width height).
Proof.
  intro HP. unfold dsv4l2_set_format.
  destruct (is_null dev); footprint.
  - apply appends_only_do_ioctl, HP.
  - match goal with r : ioctl_result _ |- _ => destruct r end; footprint.
Qed.

Lemma appends_only_set_framerate (P : ioctl_call -> bool) (dev : ptr)
    (fps_num fps_den : Z) :
  (forall fd p, P (VIDIOC_G_PARM fd p) = true) ->
  (forall fd p, P (VIDIOC_S_PARM fd (set_timeperframe p fps_den fps_num))
                = true) ->
  appends_only P (dsv4l2_set_framerate drv dev fps_num fps_den).
Proof.
  intros HG HS. unfold dsv4l2_set_framerate.
  destruct (is_null dev); footprint.
  - apply appends_only_do_ioctl, HG.
  - match goal with r : ioctl_result _ |- _ => destruct r end; footprint.
    + apply appends_only_do_ioctl, HS.
    + match goal with r : ioctl_result _ |- _ => destruct r end; footprint.
Qed.

Lemma appends_only_set_control (P : ioctl_call -> bool) (dev : ptr)
    (id value : Z) :
  (forall fd c, P (VIDIOC_S_CTRL fd c) = true) ->
  appends_only P (dsv4l2_set_control drv dev id value).
Proof.
  intro HP. unfold dsv4l2_set_control.
  destruct (is_null dev); footprint.
  - apply appends_only_do_ioctl, HP.
  - match goal with r : ioctl_result _ |- _ => destruct r end; footprint.
Qed.

Lemma appends_only_apply_controls (P : ioctl_call -> bool) (dev : ptr)
    (presets : list control_preset) (n : nat) :
  (forall fd c, P (VIDIOC_S_CTRL fd c) = true) ->
  forall i, appends_only P (apply_controls drv n i dev presets).
Proof.
  intro HP. induction n as [|n IH]; intro i; cbn [apply_controls];
    footprint.
  - apply appends_only_set_control, HP.
  - apply IH.
Qed.

Lemma appends_only_enum_loop {U : Type} (P : ioctl_call -> bool)
    (cb : v4l2_queryctrl -> U -> Z * U) (fd : Z) (fuel : nat) :
  (forall fd q, P (VIDIOC_QUERYCTRL fd q) = true) ->
  forall req ud, appends_only P (enum_controls_loop drv fuel fd cb req ud).
Proof.
  intro HP. induction fuel as [|fuel IH]; intros req ud;
    cbn [enum_controls_loop]; footprint.
  - apply appends_only_do_ioctl, HP.
  - match goal with r : ioctl_result _ |- _ => destruct r as [q|e] end;
      footprint.
    destruct (Z.land (qc_flags q) V4L2_CTRL_FLAG_DISABLED =? 0);
      [|apply IH].
    destruct (cb q ud) as [rc ud']. destruct (negb (rc =? 0)); footprint.
    apply IH.
Qed.

Lemma appends_only_discover (P : ioctl_call -> bool) (fuel : nat)
    (dev out : ptr) :
  (forall fd q, P (VIDIOC_QUERYCTRL fd q) = true) ->
  appends_only P (dsv4l2_discover_tempest_control drv fuel dev out).
Proof.
  intro HP. unfold dsv4l2_discover_tempest_control.
  destruct (is_null dev || is_null out); footprint.
  - unfold dsv4l2_enum_controls. destruct dev; footprint.
    + apply appends_only_enum_loop, HP.
    + match goal with r : option _ |- _ => destruct r end; footprint.
  - match goal with r : option _ |- _ => destruct r as [[rc ctx]|] end;
      footprint.
    destruct (negb (found ctx =? 0)); footprint.
Qed.

Lemma appends_only_set_tempest_state (P : ioctl_call -> bool) (dev : ptr)
    (s : dsv4l2_tempest_state_t) :
  appends_only (K := K) P (dsv4l2_set_tempest_state dev s).
Proof. destruct dev; cbn [dsv4l2_set_tempest_state]; footprint. Qed.

Lemma appends_only_apply_mapping (P : ioctl_call -> bool) (dev : ptr) :
  appends_only (K := K) P (dsv4l2_apply_tempest_mapping dev).
Proof.
  unfold dsv4l2_apply_tempest_mapping. destruct (is_null dev); footprint.
  match goal with d : dsv4l2_device_ex_t |- _ =>
    destruct (dev_profile d) end; footprint.
Qed.

(** The steps of [dsv4l2_profile_apply] after the format. *)
Lemma appends_only_apply (P : ioctl_call -> bool) (fuel : nat) (dev : ptr)
    (profile : option dsv4l2_profile_t) :
  (forall fd f, P (VIDIOC_S_FMT fd f) = true \/
                match profile with
                | Some p => format_specified p = false
                | None => True
                end) ->
  (forall fd p, P (VIDIOC_G_PARM fd p) = true) ->
  (forall fd parm,
      match profile with
      | Some p =>
          0 < fps_num p ->
          P (VIDIOC_S_PARM fd
               (set_timeperframe parm
                  (if fps_den p >? 0 then fps_den p else 1) (fps_num p)))
          = true
      | None => True
      end) ->
  (forall fd c, P (VIDIOC_S_CTRL fd c) = true \/
                match profile with
                | Some p => num_controls p <= 0
                | None => True
                end) ->
  (forall fd q, P (VIDIOC_QUERYCTRL fd q) = true) ->
  appends_only P (dsv4l2_profile_apply drv fuel dev profile).
Proof.
  intros HF HG HS HC HQ. unfold dsv4l2_profile_apply.
  destruct dev as [|a]; [footprint|].
  destruct profile as [p|]; [|footprint].
  fold (format_specified p).
  apply appends_only_bind.
  { destruct (format_specified p) eqn:Hspec; [|footprint].
    apply appends_only_bind; [|intro; footprint].
    apply appends_only_set_format. intros fd f.
    destruct (HF fd f) as [H|H]; [exact H | discriminate]. }
  intros [rc|]; [footprint|].
  apply appends_only_bind.
  { destruct (fps_num p >? 0) eqn:Hfps; [|footprint].
    apply appends_only_bind; [|intro; footprint].
    apply appends_only_set_framerate; [exact HG|].
    intros fd parm. apply (HS fd parm). apply Z.gtb_lt in Hfps. lia. }
  intros _. apply appends_only_bind.
  { destruct (Z.to_nat (num_controls p)) eqn:Hn; [footprint|].
    apply appends_only_apply_controls. intros fd c.
    destruct (HC fd c) as [H|H]; [exact H | lia]. }
  intros _.
  destruct (negb (control_id (tempest_control p) =? 0)).
  { apply appends_only_bind; [apply appends_only_apply_mapping|].
    intro; footprint. }
  destruct (negb (auto_detect (tempest_control p) =? 0)); [|footprint].
  apply appends_only_bind; [apply appends_only_discover, HQ|].
  intros [[rc out]|]; [|footprint].
  destruct (rc =? 0); [|footprint].
  apply appends_only_bind; [apply appends_only_set_tempest_state|].
  intro; footprint.
Qed.


Lemma appends_only_issued {A : Type} (P : ioctl_call -> bool) (c : M K A)
    (w : world K) :
  appends_only P c -> forallb P (issued_since w (snd (c w))) = true.
Proof.
  intro H. destruct (H w) as (l & Hl & HP).
  unfold issued_since. rewrite Hl, skipn_length_app. exact HP.
Qed.

(** X21.  Whatever the profile holds, every S_PARM that
    [dsv4l2_profile_apply] issues asks for a time per frame with
    numerator and denominator at least 1: the frame rate is applied only
    when [fps_num] is positive, and a [fps_den] that is not positive is
    replaced by 1. *)
Theorem apply_requests_positive_interval (fuel : nat) (dev : ptr)
    (profile : option dsv4l2_profile_t) (w : world K) :
  forallb positive_interval
    (issued_since w (snd (dsv4l2_profile_apply drv fuel dev profile w)))
  = true.
Proof.
  apply appends_only_issued. apply appends_only_apply.
  - intros; left; reflexivity.
  - intros; reflexivity.
  - intros fd parm. destruct profile as [p|]; [|exact I].
    intro Hnum. cbn [positive_interval set_timeperframe parm_capture
                     timeperframe numerator denominator].
    destruct (fps_den p >? 0) eqn:Hden.
    + apply Z.gtb_lt in Hden. apply andb_true_iff; split; apply Z.leb_le; lia.
    + apply andb_true_iff; split; apply Z.leb_le; lia.
  - intros; left; reflexivity.
  - intros; reflexivity.
Qed.

Lemma loaded_num_controls_zero (env : loader_env) (path : string)
    (out : ptr) (events : list yaml_parse_result) (p : dsv4l2_profile_t) :
  env_fopen env path = FileOpened events ->
  dsv4l2_profile_load_from_file env (Some path) out = (0, Some p) ->
  num_controls p = 0.
Proof.
  apply (loaded_profile_invariant (fun p => num_controls p = 0));
    [reflexivity|].
  intros ev st H.
  destruct st as [pr ck cx ic it im];
    destruct ev; cbn [loader_step ld_profile ld_current_key ld_context
                      ld_in_controls ld_in_tempest ld_in_mode_map];
    unfold assign_scalar, assign_tempest;
    repeat match goal with
           | |- context [if ?b then _ else _] => destruct b
           end; cbn; auto.
Qed.

(** X22.  Applying a profile that was loaded from a file never sets a
    format and never writes a control: since the loader leaves [width],
    [height] and [num_controls] at 0, the ioctls of the apply are G_PARM,
    S_PARM and QUERYCTRL only, for every document and every driver. *)
Theorem apply_of_loaded_profile_is_inert (env : loader_env) (path : string)
    (out : ptr) (events : list yaml_parse_result) (p : dsv4l2_profile_t)
    (fuel : nat) (dev : ptr) (w : world K) :
  env_fopen env path = FileOpened events ->
  dsv4l2_profile_load_from_file env (Some path) out = (0, Some p) ->
  forallb parm_or_query
    (issued_since w (snd (dsv4l2_profile_apply drv fuel dev (Some p) w)))
  = true.
Proof.
  intros Hopen Hload.
  destruct (loaded_resolution_is_zero _ _ _ _ _ Hopen Hload) as [Hw Hh].
  pose proof (loaded_num_controls_zero _ _ _ _ _ Hopen Hload) as Hn.
  apply appends_only_issued. apply appends_only_apply.
  - intros; right. unfold format_specified. rewrite Hw.
    apply andb_false_iff; left. apply andb_false_r.
  - intros; reflexivity.
  - intros; reflexivity.
  - intros; right. lia.
  - intros; reflexivity.
Qed.

Lemma set_format_refused (a pixfmt width height : Z) (w : world K)
    (k1 : K) (e : Z) :
  drv_s_fmt drv (w_kernel w) (dev_fd (w_dev w))
            (format_request pixfmt width height) = (k1, IoctlErr e) ->
  dsv4l2_set_format drv (Ptr a) pixfmt width height w =
    (- e,
     mkWorld (w_dev w) k1
       (w_ioctls w ++
          [VIDIOC_S_FMT (dev_fd (w_dev w))
                        (format_request pixfmt width height)])
       (w_events w)).
Proof.
  intro H. run_call dsv4l2_set_format. fold (format_request pixfmt width height).
  rewrite H. reflexivity.
Qed.

Lemma set_format_accepted (a pixfmt width height : Z) (w : world K)
    (k1 : K) (fmt : v4l2_format) :
  drv_s_fmt drv (w_kernel w) (dev_fd (w_dev w))
            (format_request pixfmt width height) = (k1, IoctlOk fmt) ->
  fst (dsv4l2_set_format drv (Ptr a) pixfmt width height w) = 0.
Proof.
  intro H. run_call dsv4l2_set_format. fold (format_request pixfmt width height).
  rewrite H. reduce_world.
  destruct (dev_current_format (w_dev w)); reduce_world; [reflexivity|].
  destruct (os_malloc drv k1); reflexivity.
Qed.


(** Discovery over a driver that hands out [ctrls]: its result and the
    world it leaves. *)
Lemma discover_run (ctrls : list v4l2_queryctrl) (fuel : nat) (a o : Z)
    (w : world K) :
  enumerates drv (dev_fd (w_dev w)) (w_kernel w) first_query ctrls ->
  (List.length ctrls < fuel)%nat ->
  exists (k' : K) (queries : list ioctl_call),
    forallb is_queryctrl queries = true /\
    dsv4l2_discover_tempest_control drv fuel (Ptr a) (Ptr o) w =
      (Some (match find candidate ctrls with
             | Some q => (0, Some (qc_id q))
             | None => (- ENOENT, None)
             end),
       mkWorld (w_dev w) k' (w_ioctls w ++ queries) (w_events w)).
Proof.
  intros Henum Hfuel.
  pose proof (discover_tempest_control_find drv ctrls fuel a o w Henum Hfuel)
    as Hfst.
  destruct (enum_controls_loop_visits drv tempest_search_callback _ _ _ _
              Henum fuel (mkSearchCtx 0 0) w eq_refl Hfuel)
    as (_ & H2 & H3 & qs & H4 & H5 & _).
  revert Hfst. run_call dsv4l2_discover_tempest_control.
  run_call dsv4l2_enum_controls. fold first_query.
  destruct (enum_controls_loop drv fuel (dev_fd (w_dev w))
              tempest_search_callback first_query (mkSearchCtx 0 0) w)
    as [r [d k' io ev]].
  cbn [fst snd w_dev w_events w_ioctls] in *. subst d ev io.
  intro Hfst. exists k', qs. split; [exact H5|].
  destruct r as [ctx|]; reduce_world.
  - destruct (negb (found ctx =? 0)); cbn [fst] in Hfst;
      rewrite <- Hfst; reflexivity.
  - cbn [fst] in Hfst. rewrite <- Hfst. reflexivity.
Qed.

(** X24.  Auto-detection resets the TEMPEST state.  For a profile that
    asks only for auto-detection (no format, no frame rate, no presets, no
    explicit control id) on a driver that hands out [ctrls],
    [dsv4l2_profile_apply] returns 0 and issues QUERYCTRL ioctls only.  If
    some control is a candidate, the cached state becomes DISABLED
    whatever it was, LOCKDOWN included, and a transition to DISABLED is
    logged; the control found is not written.  If none is, the device
    record and the ring of events are unchanged. *)
Theorem auto_detect_resets_tempest_state (ctrls : list v4l2_queryctrl)
    (fuel : nat) (a : Z) (p : dsv4l2_profile_t) (w : world K) :
  format_specified p = false ->
  fps_num p <= 0 ->
  num_controls p <= 0 ->
  control_id (tempest_control p) = 0 ->
  auto_detect (tempest_control p) <> 0 ->
  enumerates drv (dev_fd (w_dev w)) (w_kernel w) first_query ctrls ->
  (List.length ctrls < fuel)%nat ->
  let r := dsv4l2_profile_apply drv fuel (Ptr a) (Some p) w in
  fst r = Some 0 /\
  forallb is_queryctrl (issued_since w (snd r)) = true /\
  (forall q, find candidate ctrls = Some q ->
     w_dev (snd r) =
       set_dev_tempest_state (w_dev w) DSV4L2_TEMPEST_DISABLED /\
     w_events (snd r) =
       w_events w ++
         [EV_tempest_transition (u32 a) (dev_tempest_state (w_dev w))
                                DSV4L2_TEMPEST_DISABLED]) /\
  (find candidate ctrls = None ->
     w_dev (snd r) = w_dev w /\ w_events (snd r) = w_events w).
Proof.
  intros Hfmt Hfps Hn Hid Hauto Henum Hfuel. cbv zeta.
  destruct (discover_run ctrls fuel a 1 w Henum Hfuel)
    as (k' & qs & Hqs & Hrun).
  unfold dsv4l2_profile_apply. fold (format_specified p).
  rewrite Hfmt, Hid.
  replace (fps_num p >? 0) with false
    by (symmetry; rewrite Z.gtb_ltb; apply Z.ltb_ge; lia).
  replace (Z.to_nat (num_controls p)) with O by lia.
  replace (auto_detect (tempest_control p) =? 0) with false
    by (symmetry; apply Z.eqb_neq; exact Hauto).
  cbn [apply_controls negb Z.eqb].
  cbv beta iota zeta delta [bind ret]. unfold local_address.
  rewrite Hrun. unfold issued_since.
  destruct (find candidate ctrls) as [q|].
  - cbn [Z.eqb]. cbv beta iota zeta delta
      [dsv4l2_set_tempest_state bind ret get_dev put_dev emit].
    reduce_world. rewrite skipn_length_app.
    split; [reflexivity|]. split; [exact Hqs|]. split.
    + intros q' _. split; reflexivity.
    + discriminate.
  - change (- ENOENT =? 0) with false. cbv iota. reduce_world.
    rewrite skipn_length_app.
    split; [reflexivity|]. split; [exact Hqs|]. split.
    + discriminate.
    + intros _. split; reflexivity.
Qed.

End ApplyProperties.

(** ** Return codes of the apply *)

Section ApplyCodes.

Context {K : Type} (drv : v4l2_driver K).

Lemma set_format_keeps_fd (a pixfmt width height : Z) (w : world K) :
  dev_fd (w_dev (snd (dsv4l2_set_format drv (Ptr a) pixfmt width height w)))
  = dev_fd (w_dev w).
Proof.
  run_call dsv4l2_set_format.
  destruct (drv_s_fmt drv (w_kernel w) (dev_fd (w_dev w)) _) as [k1 [fmt|e]];
    reduce_world; [|reflexivity].
  destruct (dev_current_format (w_dev w)); reduce_world; [reflexivity|].
  destruct (os_malloc drv k1); reflexivity.
Qed.

Lemma set_framerate_keeps_fd (a fps_num fps_den : Z) (w : world K) :
  dev_fd (w_dev (snd (dsv4l2_set_framerate drv (Ptr a) fps_num fps_den w)))
  = dev_fd (w_dev w).
Proof.
  run_call dsv4l2_set_framerate.
  destruct (drv_g_parm drv (w_kernel w) (dev_fd (w_dev w)) _)
    as [k1 [parm|e]]; reduce_world; [|reflexivity].
  destruct (drv_s_parm drv k1 (dev_fd (w_dev w)) _) as [k2 [parm'|e]];
    reduce_world; [|reflexivity].
  destruct (dev_current_parm (w_dev w)); reduce_world; [reflexivity|].
  destruct (os_malloc drv k2); reflexivity.
Qed.

Lemma set_control_keeps_dev (a id value : Z) (w : world K) :
  w_dev (snd (dsv4l2_set_control drv (Ptr a) id value w)) = w_dev w.
Proof.
  run_call dsv4l2_set_control.
  destruct (drv_s_ctrl drv (w_kernel w) (dev_fd (w_dev w)) _) as [k1 [c|e]];
    reflexivity.
Qed.

Lemma apply_controls_keeps_dev (n : nat) (a : Z)
    (presets : list control_preset) :
  forall (i : Z) (w : world K),
    w_dev (snd (apply_controls drv n i (Ptr a) presets w)) = w_dev w.
Proof.
  induction n as [|n IH]; intros i w; [reflexivity|].
  cbn [apply_controls]. unfold bind at 1.
  pose proof (set_control_keeps_dev a
                (preset_id (nth (Z.to_nat i) presets (mkPreset 0 0)))
                (preset_value (nth (Z.to_nat i) presets (mkPreset 0 0))) w)
    as Hc.
  destruct (dsv4l2_set_control drv (Ptr a) _ _ w) as [rc w1].
  cbn [snd] in Hc. rewrite IH. exact Hc.
Qed.

(** X23.  Return codes of [dsv4l2_profile_apply].  Without a device or a
    profile it returns -EINVAL and does nothing.  With both, and a driver
    whose control enumeration ends within the bound when auto-detection
    is asked for, the call returns: the negated errno of S_FMT, at once
    and with nothing after the S_FMT run, when the profile specifies a
    format and S_FMT fails with an errno other than 0 and ENOSYS; and 0
    in every other case, whatever G_PARM, S_PARM, S_CTRL and the
    discovery answer. *)
Theorem profile_apply_return_codes (fuel : nat) (a : Z)
    (p : dsv4l2_profile_t) (w : world K) :
  (control_id (tempest_control p) = 0 ->
   auto_detect (tempest_control p) <> 0 ->
   forall k, exists ctrls,
     enumerates drv (dev_fd (w_dev w)) k first_query ctrls /\
     (List.length ctrls < fuel)%nat) ->
  (forall profile, dsv4l2_profile_apply drv fuel NULL profile w
                   = (Some (- EINVAL), w)) /\
  dsv4l2_profile_apply drv fuel (Ptr a) None w = (Some (- EINVAL), w) /\
  let r := dsv4l2_profile_apply drv fuel (Ptr a) (Some p) w in
  let fd := dev_fd (w_dev w) in
  let req := format_request (pixel_format p) (width p) (height p) in
  (format_specified p = false -> fst r = Some 0) /\
  (forall k1 fmt,
      format_specified p = true ->
      drv_s_fmt drv (w_kernel w) fd req = (k1, IoctlOk fmt) ->
      fst r = Some 0) /\
  (forall k1 e,
      format_specified p = true ->
      drv_s_fmt drv (w_kernel w) fd req = (k1, IoctlErr e) ->
      if (e =? 0) || (e =? ENOSYS) then fst r = Some 0
      else r = (Some (- e),
                mkWorld (w_dev w) k1 (w_ioctls w ++ [VIDIOC_S_FMT fd req])
                        (w_events w))).
Proof.
  intro Hdisc.
  split; [intros [q|]; reflexivity|]. split; [reflexivity|]. cbv zeta.
  unfold dsv4l2_profile_apply. fold (format_specified p).
  match goal with
  | |- context [bind ?c ?f] =>
      assert (Hafter : forall w1, dev_fd (w_dev w1) = dev_fd (w_dev w) ->
                                  fst (f None w1) = Some 0)
  end.
  { cbv beta iota. intros w1 Hfd.
    unfold bind at 1.
    match goal with
    | |- context [(if fps_num p >? 0 then ?c1 else ?c2) w1] =>
        assert (H1 : dev_fd (w_dev (snd ((if fps_num p >? 0 then c1 else c2)
                                          w1))) = dev_fd (w_dev w));
        [|destruct ((if fps_num p >? 0 then c1 else c2) w1) as [u1 w2]]
    end.
    { destruct (fps_num p >? 0); [|exact Hfd].
      unfold bind at 1.
      pose proof (set_framerate_keeps_fd a (fps_num p)
                    (if fps_den p >? 0 then fps_den p else 1) w1) as Hk.
      destruct (dsv4l2_set_framerate drv (Ptr a) _ _ w1) as [rc w2].
      cbn [snd ret] in *. congruence. }
    cbn [snd] in H1. unfold bind at 1.
    pose proof (apply_controls_keeps_dev (Z.to_nat (num_controls p)) a
                  (controls p) 0 w2) as H2.
    destruct (apply_controls drv _ 0 (Ptr a) (controls p) w2) as [u2 w3].
    cbn [snd] in H2.
    assert (H3 : dev_fd (w_dev w3) = dev_fd (w_dev w)) by congruence.
    destruct (control_id (tempest_control p) =? 0) eqn:Hid; cbn [negb].
    2: { unfold bind at 1.
         destruct (dsv4l2_apply_tempest_mapping (Ptr a) w3); reflexivity. }
    destruct (auto_detect (tempest_control p) =? 0) eqn:Hauto; cbn [negb];
      [reflexivity|].
    apply Z.eqb_eq in Hid. apply Z.eqb_neq in Hauto.
    destruct (Hdisc Hid Hauto (w_kernel w3)) as (ctrls & Henum & Hfuel).
    rewrite <- H3 in Henum.
    destruct (discover_run drv ctrls fuel a 1 w3 Henum Hfuel)
      as (k' & qs & _ & Hrun).
    unfold bind at 1. unfold local_address. rewrite Hrun.
    destruct (find candidate ctrls) as [q|].
    - cbn [Z.eqb]. unfold bind at 1.
      destruct (dsv4l2_set_tempest_state (Ptr a) DSV4L2_TEMPEST_DISABLED _);
        reflexivity.
    - reflexivity. }
  split; [|split].
  - intro Hspec. rewrite Hspec. unfold bind at 1. cbn [ret].
    apply Hafter. reflexivity.
  - intros k1 fmt Hspec Hfmt. rewrite Hspec. unfold bind at 1.
    unfold bind at 1.
    pose proof (set_format_accepted drv a _ _ _ w k1 fmt Hfmt) as Hzero.
    pose proof (set_format_keeps_fd a (pixel_format p) (width p) (height p) w)
      as Hfd.
    destruct (dsv4l2_set_format drv (Ptr a) (pixel_format p) (width p)
                                (height p) w) as [rc w1].
    cbn [fst snd] in Hzero, Hfd. subst rc. cbn [ret negb Z.eqb andb].
    apply Hafter. exact Hfd.
  - intros k1 e Hspec Hfmt.
    destruct ((e =? 0) || (e =? ENOSYS)) eqn:E;
      rewrite Hspec; unfold bind at 1; unfold bind at 1;
      rewrite (set_format_refused drv a _ _ _ w k1 e Hfmt);
      cbv beta iota delta [ret].
    + replace (negb (- e =? 0) && negb (- e =? - ENOSYS)) with false.
      * apply Hafter. reflexivity.
      * symmetry. apply orb_true_iff in E as [E|E]; apply Z.eqb_eq in E;
          subst e.
        -- reflexivity.
        -- rewrite (Z.eqb_refl (- ENOSYS)). apply andb_false_r.
    + apply orb_false_iff in E as [E0 E1]. apply Z.eqb_neq in E0, E1.
      replace (- e =? 0) with false by (symmetry; apply Z.eqb_neq; lia).
      replace (- e =? - ENOSYS) with false
        by (symmetry; apply Z.eqb_neq; lia).
      reflexivity.
Qed.

End ApplyCodes.


(** ** Open, streaming, close *)

(** Unfolds the plumbing of a call on the machine. *)
Tactic Notation "run_sys" reference(f) :=
  unfold f;
  cbv beta iota zeta delta
    [sbind sret sget_dev sput_dev sys_do sys_do_ sys_alloc with_kernel
     is_null orb].

Ltac reduce_machine :=
  cbn beta iota zeta delta
    [m_world m_calls w_dev w_kernel w_ioctls w_events fst snd].

Section LifecycleProperties.

Context {K : Type} (drv : v4l2_driver K) (sys : v4l2_system K).

(** X25.  [dsv4l2_open_device].  When it hands out no handle, the device
    record of the world is untouched.  When it hands out a handle, it
    returned 0, the handle is not NULL, the one system call it made is
    [open] of the given path with O_RDWR|O_NONBLOCK, and the device is
    fresh: the descriptor [open] answered, the path cut to 255
    characters, state DISABLED, layer 0, no ring, nothing cached, not
    streaming.  A capture on the fresh device passes the gate and is
    refused with -EINVAL for want of streaming. *)
Theorem open_device_gives_fresh_device (path : string)
    (profile : option dsv4l2_profile_t) (o f : Z) (m : machine K) :
  let r := dsv4l2_open_device drv sys (Some path) profile (Ptr o) m in
  match snd (fst r) with
  | None => w_dev (m_world (snd r)) = w_dev (m_world m)
  | Some dev =>
      fst (fst r) = 0 /\ dev <> NULL /\
      calls_since m (snd r) = [SYS_open path 2050] /\
      freshly_opened path profile (w_dev (m_world (snd r))) /\
      (exists k k',
          sys_open sys k path 2050
          = (k', IoctlOk (dev_fd (w_dev (m_world (snd r)))))) /\
      fst (dsv4l2_capture_frame drv dev (Ptr f) (m_world (snd r)))
        = (- EINVAL, None)
  end.
Proof.
  cbv zeta. unfold calls_since. run_sys dsv4l2_open_device.
  destruct (sys_calloc sys (w_kernel (m_world m))) as [k1 [|addr]];
    reduce_machine; [reflexivity|].
  change (Z.lor O_RDWR O_NONBLOCK) with 2050.
  destruct (sys_open sys k1 path 2050) as [k2 [fd|e]] eqn:Hopen;
    reduce_machine; [|reflexivity].
  destruct profile as [p|]; reduce_machine.
  - destruct (os_malloc drv k2) as [k3 ok] eqn:Hm; reduce_machine.
    destruct ok; reduce_machine.
    + split; [reflexivity|]. split; [discriminate|].
      split; [apply skipn_length_app|]. split.
      * unfold freshly_opened; cbn. repeat split.
        right; exists p; repeat split.
      * split; [exists k1, k2; exact Hopen | reflexivity].
    + split; [reflexivity|]. split; [discriminate|].
      split; [apply skipn_length_app|]. split.
      * unfold freshly_opened; cbn. repeat split. left; split; reflexivity.
      * split; [exists k1, k2; exact Hopen | reflexivity].
  - split; [reflexivity|]. split; [discriminate|].
    split; [apply skipn_length_app|]. split.
    * unfold freshly_opened; cbn. repeat split. left; split; reflexivity.
    * split; [exists k1, k2; exact Hopen | reflexivity].
Qed.


Lemma set_slot_length (bufs : list buffer_info_t) (i : nat)
    (slot : buffer_info_t) :
  List.length (set_slot bufs i slot) = List.length bufs.
Proof.
  revert i; induction bufs as [|b bufs IH]; intros [|i]; cbn;
    try reflexivity.
  rewrite IH; reflexivity.
Qed.

Lemma same_but_slots_refl (d : dsv4l2_device_ex_t) : same_but_slots d d.
Proof. repeat split. Qed.

Lemma same_but_slots_trans (d1 d2 d3 : dsv4l2_device_ex_t) :
  same_but_slots d1 d2 -> same_but_slots d2 d3 -> same_but_slots d1 d3.
Proof.
  unfold same_but_slots. intros (A1 & A2 & A3 & A4 & A5) (B1 & B2 & B3 & B4 & B5).
  repeat split; congruence.
Qed.

Lemma same_but_slots_set (d : dsv4l2_device_ex_t) (i : nat)
    (slot : buffer_info_t) :
  same_but_slots d (set_dev_buffers d (set_slot (dev_buffers d) i slot)).
Proof. repeat split. cbn. apply set_slot_length. Qed.

(** The mapping loop writes ring slots and nothing else of the device. *)
Lemma map_buffers_keeps (n : nat) :
  forall (i fd : Z) (m : machine K),
    same_but_slots (w_dev (m_world m))
      (w_dev (m_world (snd (map_buffers sys n i fd m)))).
Proof.
  induction n as [|n IH]; intros i fd m; [apply same_but_slots_refl|].
  cbn [map_buffers]. run_sys sys_do.
  destruct (sys_querybuf sys (w_kernel (m_world m)) fd (ring_request i))
    as [k1 [buf|e]]; reduce_machine; [|apply same_but_slots_refl].
  destruct (sys_mmap sys k1 (buf_length buf) (Z.lor PROT_READ PROT_WRITE)
              MAP_SHARED fd (buf_offset buf)) as [k2 [addr|e]];
    reduce_machine.
  - eapply same_but_slots_trans; [|apply IH].
    reduce_machine. apply same_but_slots_set.
  - apply same_but_slots_set.
Qed.

(** The queueing loop leaves the device record alone. *)
Lemma queue_buffers_keeps (n : nat) :
  forall (i fd : Z) (m : machine K),
    w_dev (m_world (snd (queue_buffers drv n i fd m))) = w_dev (m_world m).
Proof.
  induction n as [|n IH]; intros i fd m; [reflexivity|].
  cbn [queue_buffers]. unfold sbind at 1. unfold lift, do_ioctl.
  destruct (drv_qbuf drv (w_kernel (m_world m)) fd (ring_request i))
    as [k1 [buf|e]]; reduce_machine; [|reflexivity].
  rewrite IH. reflexivity.
Qed.

(** [dsv4l2_start_stream] on a device that has a ring and is not
    streaming. *)
Lemma start_stream_with_ring (a : Z) (m : machine K) :
  let d := w_dev (m_world m) in
  let on := SYS_VIDIOC_STREAMON (dev_fd d) V4L2_BUF_TYPE_VIDEO_CAPTURE in
  dev_streaming d = 0 ->
  dev_num_buffers d <> 0 ->
  dsv4l2_start_stream drv sys (Ptr a) m =
    match sys_streamon sys (w_kernel (m_world m)) (dev_fd d)
                       V4L2_BUF_TYPE_VIDEO_CAPTURE with
    | (k1, IoctlOk _) =>
        (0, mkMachine
              (mkWorld (set_dev_streaming d 1) k1 (w_ioctls (m_world m))
                       (w_events (m_world m)))
              (m_calls m ++ [on]))
    | (k1, IoctlErr e) =>
        (- e, mkMachine
                (mkWorld d k1 (w_ioctls (m_world m)) (w_events (m_world m)))
                (m_calls m ++ [on]))
    end.
Proof.
  cbv zeta. intros Hs Hn. run_sys dsv4l2_start_stream.
  rewrite Hs. apply Z.eqb_neq in Hn. rewrite Hn. cbn [negb Z.eqb].
  cbv beta iota.
  destruct (sys_streamon sys (w_kernel (m_world m)) (dev_fd (w_dev (m_world m)))
              V4L2_BUF_TYPE_VIDEO_CAPTURE) as [k1 [t|e]];
    reduce_machine; reflexivity.
Qed.

(** X26.  Streaming calls that have nothing to do.  With a NULL handle
    start and stop return -EINVAL and close returns, all without a system
    call.  [dsv4l2_start_stream] on a streaming device and
    [dsv4l2_stop_stream] on a device that is not streaming return 0 and
    leave the machine as it is.  When STREAMOFF fails, [dsv4l2_stop_stream]
    returns the negated errno and the device still counts as streaming. *)
Theorem streaming_calls_without_effect (a : Z) (m : machine K) :
  dsv4l2_start_stream drv sys NULL m = (- EINVAL, m) /\
  dsv4l2_stop_stream sys NULL m = (- EINVAL, m) /\
  dsv4l2_close_device sys NULL m = (tt, m) /\
  (dev_streaming (w_dev (m_world m)) <> 0 ->
   dsv4l2_start_stream drv sys (Ptr a) m = (0, m)) /\
  (dev_streaming (w_dev (m_world m)) = 0 ->
   dsv4l2_stop_stream sys (Ptr a) m = (0, m)) /\
  (forall k1 e,
      dev_streaming (w_dev (m_world m)) <> 0 ->
      sys_streamoff sys (w_kernel (m_world m)) (dev_fd (w_dev (m_world m)))
                    V4L2_BUF_TYPE_VIDEO_CAPTURE = (k1, IoctlErr e) ->
      fst (dsv4l2_stop_stream sys (Ptr a) m) = - e /\
      w_dev (m_world (snd (dsv4l2_stop_stream sys (Ptr a) m)))
        = w_dev (m_world m)).
Proof.
  split; [reflexivity|]. split; [reflexivity|]. split; [reflexivity|].
  split; [|split].
  - intro H. run_sys dsv4l2_start_stream.
    apply Z.eqb_neq in H. rewrite H. reflexivity.
  - intro H. run_sys dsv4l2_stop_stream. rewrite H. reflexivity.
  - intros k1 e H Hoff. run_sys dsv4l2_stop_stream.
    apply Z.eqb_neq in H. rewrite H, Hoff. split; reflexivity.
Qed.

(** The device after the block that sets up the ring, when REQBUFS and
    the allocation of the slot array succeed. *)
Lemma setup_ring_keeps (m : machine K) (k1 k2 : K)
    (req : v4l2_requestbuffers) (b : Z) :
  let d := w_dev (m_world m) in
  sys_reqbufs sys (w_kernel (m_world m)) (dev_fd d) (ring_reqbufs d)
    = (k1, IoctlOk req) ->
  sys_calloc sys k1 = (k2, Ptr b) ->
  0 <= req_count req < 2 ^ 31 ->
  let d' := w_dev (m_world (snd (setup_ring drv sys d m))) in
  dev_fd d' = dev_fd d /\ dev_streaming d' = dev_streaming d /\
  dev_num_buffers d' = req_count req /\
  Z.of_nat (List.length (dev_buffers d')) = req_count req.
Proof.
  cbv zeta. intros Hreq Hcal Hcount.
  run_sys setup_ring. fold (ring_reqbufs (w_dev (m_world m))).
  rewrite Hreq. reduce_machine. rewrite Hcal. reduce_machine.
  assert (Hi32 : i32 (req_count req) = req_count req).
  { unfold i32. rewrite Z.mod_small by lia. lia. }
  match goal with
  | |- context [map_buffers sys ?n ?i ?fd ?m0] =>
      pose proof (map_buffers_keeps n i fd m0) as Hmap;
      destruct (map_buffers sys n i fd m0) as [res m1]
  end.
  cbn [snd m_world w_dev] in Hmap.
  destruct Hmap as (A1 & A2 & A3 & A4 & _).
  cbn [set_dev_num_buffers set_dev_buffers dev_fd dev_streaming
       dev_num_buffers dev_buffers] in A1, A2, A3, A4.
  rewrite repeat_length in A4.
  assert (Hfinal : dev_fd (w_dev (m_world m1)) = dev_fd (w_dev (m_world m)) /\
                   dev_streaming (w_dev (m_world m1))
                     = dev_streaming (w_dev (m_world m)) /\
                   dev_num_buffers (w_dev (m_world m1)) = req_count req /\
                   Z.of_nat (List.length (dev_buffers (w_dev (m_world m1))))
                     = req_count req).
  { rewrite A1, A2, A3, A4, Hi32. repeat split. lia. }
  destruct res as [rc|]; [exact Hfinal|].
  rewrite queue_buffers_keeps. exact Hfinal.
Qed.

(** X27.  A failed start is not retried.  On a device without a ring,
    once REQBUFS has granted [n > 0] buffers and the slot array is
    allocated, [dsv4l2_start_stream] leaves [num_buffers = n] and a ring
    of [n] slots whether or not the mapping, the queueing and STREAMON
    succeed.  So when that call fails, the device is not streaming, and
    the next [dsv4l2_start_stream] issues STREAMON alone: it does not
    request, query, map or queue any buffer again. *)
Theorem failed_start_is_not_retried (a : Z) (m : machine K) (k1 k2 : K)
    (req : v4l2_requestbuffers) (b : Z) :
  let d := w_dev (m_world m) in
  dev_streaming d = 0 ->
  dev_num_buffers d = 0 ->
  sys_reqbufs sys (w_kernel (m_world m)) (dev_fd d) (ring_reqbufs d)
    = (k1, IoctlOk req) ->
  sys_calloc sys k1 = (k2, Ptr b) ->
  0 < req_count req < 2 ^ 31 ->
  let r := dsv4l2_start_stream drv sys (Ptr a) m in
  let d' := w_dev (m_world (snd r)) in
  dev_num_buffers d' = req_count req /\
  Z.of_nat (List.length (dev_buffers d')) = req_count req /\
  (fst r <> 0 ->
   dev_streaming d' = 0 /\
   calls_since (snd r) (snd (dsv4l2_start_stream drv sys (Ptr a) (snd r))) =
     [SYS_VIDIOC_STREAMON (dev_fd d) V4L2_BUF_TYPE_VIDEO_CAPTURE]).
Proof.
  cbv zeta. intros Hs Hn Hreq Hcal Hcount.
  assert (Hring :
    let r := dsv4l2_start_stream drv sys (Ptr a) m in
    let d' := w_dev (m_world (snd r)) in
    dev_fd d' = dev_fd (w_dev (m_world m)) /\
    dev_num_buffers d' = req_count req /\
    Z.of_nat (List.length (dev_buffers d')) = req_count req /\
    (fst r <> 0 -> dev_streaming d' = 0)).
  { cbv zeta.
    pose proof (setup_ring_keeps m k1 k2 req b Hreq Hcal ltac:(lia)) as Hset.
    cbv zeta in Hset.
    run_sys dsv4l2_start_stream. rewrite Hs, Hn. cbn [negb Z.eqb].
    cbv beta iota.
    destruct (setup_ring drv sys (w_dev (m_world m)) m) as [res m1].
    cbn [snd] in Hset. destruct Hset as (B1 & B2 & B3 & B4).
    destruct res as [rc|]; reduce_machine.
    - repeat split; try assumption. intros _. congruence.
    - destruct (sys_streamon sys (w_kernel (m_world m1))
                  (dev_fd (w_dev (m_world m))) V4L2_BUF_TYPE_VIDEO_CAPTURE)
        as [k3 [t|e]]; reduce_machine.
      + repeat split; try assumption. intro H; exfalso; apply H; reflexivity.
      + repeat split; try assumption. intros _. congruence. }
  cbv zeta in Hring. destruct Hring as (Hfd & Hnum & Hlen & Hfail).
  split; [exact Hnum|]. split; [exact Hlen|].
  intro Hrc. specialize (Hfail Hrc). split; [exact Hfail|].
  rewrite (start_stream_with_ring a
             (snd (dsv4l2_start_stream drv sys (Ptr a) m)))
    by (cbv zeta; first [assumption | rewrite Hnum; lia]).
  rewrite Hfd. unfold calls_since.
  destruct (sys_streamon sys _ _ _) as [k3 [t|e]]; reduce_machine;
    apply skipn_length_app.
Qed.


Lemma nth_middle_slot (pre rest : list buffer_info_t) (s d : buffer_info_t) :
  nth (Z.to_nat (Z.of_nat (List.length pre))) (pre ++ s :: rest) d = s.
Proof.
  rewrite Nat2Z.id, app_nth2 by lia. rewrite Nat.sub_diag. reflexivity.
Qed.

(** The unmapping loop releases the mapped slots it walks over, in index
    order, and touches only the kernel. *)
Lemma unmap_buffers_calls (rest : list buffer_info_t) :
  forall (pre : list buffer_info_t) (m : machine K),
    let m' := snd (unmap_buffers sys (List.length rest)
                     (Z.of_nat (List.length pre)) (pre ++ rest) m) in
    m_calls m' =
      m_calls m ++
      map (fun s => SYS_munmap (info_start s) (info_length s))
          (filter mapped rest) /\
    w_dev (m_world m') = w_dev (m_world m).
Proof.
  induction rest as [|s rest IH]; intros pre m; cbv zeta.
  - cbn. rewrite app_nil_r. split; reflexivity.
  - cbn [List.length unmap_buffers filter].
    rewrite nth_middle_slot.
    assert (Hnext : Z.of_nat (List.length pre) + 1
                    = Z.of_nat (List.length (pre ++ [s]))).
    { rewrite length_app. cbn. lia. }
    assert (Hbufs : pre ++ s :: rest = (pre ++ [s]) ++ rest).
    { rewrite <- app_assoc. reflexivity. }
    rewrite Hnext, Hbufs.
    unfold sbind at 1. fold (mapped s).
    destruct (mapped s).
    + run_sys sys_do_. 
      match goal with
      | |- context [unmap_buffers sys _ _ _ ?m0] =>
          destruct (IH (pre ++ [s]) m0) as [Hc Hd]
      end.
      cbv zeta in Hc, Hd. rewrite Hc, Hd. reduce_machine.
      rewrite <- app_assoc. split; reflexivity.
    + run_sys sys_do_.
      destruct (IH (pre ++ [s]) m) as [Hc Hd].
      cbv zeta in Hc, Hd. rewrite Hc, Hd. split; reflexivity.
Qed.

(** X28.  [dsv4l2_close_device] on a device whose ring has [num_buffers]
    slots makes these system calls and no other, in this order: STREAMOFF
    when the device is streaming; one [munmap], with the recorded address
    and length, for each slot whose address is neither NULL nor
    MAP_FAILED, in index order; [close] of the descriptor when it is not
    negative.  A failing STREAMOFF does not stop it. *)
Theorem close_device_releases_ring (a : Z) (m : machine K) :
  let d := w_dev (m_world m) in
  Z.of_nat (List.length (dev_buffers d)) = dev_num_buffers d ->
  calls_since m (snd (dsv4l2_close_device sys (Ptr a) m)) =
    (if dev_streaming d =? 0 then []
     else [SYS_VIDIOC_STREAMOFF (dev_fd d) V4L2_BUF_TYPE_VIDEO_CAPTURE]) ++
    map (fun s => SYS_munmap (info_start s) (info_length s))
        (filter mapped (dev_buffers d)) ++
    (if dev_fd d >=? 0 then [SYS_close (dev_fd d)] else []).
Proof.
  cbv zeta. intro Hlen. unfold calls_since.
  assert (Hstop :
    exists m1,
      snd ((if negb (dev_streaming (w_dev (m_world m)) =? 0)
            then sbind (dsv4l2_stop_stream sys (Ptr a)) (fun _ => sret tt)
            else sret tt) m) = m1 /\
      m_calls m1 =
        m_calls m ++
        (if dev_streaming (w_dev (m_world m)) =? 0 then []
         else [SYS_VIDIOC_STREAMOFF (dev_fd (w_dev (m_world m)))
                                    V4L2_BUF_TYPE_VIDEO_CAPTURE]) /\
      dev_fd (w_dev (m_world m1)) = dev_fd (w_dev (m_world m)) /\
      dev_buffers (w_dev (m_world m1)) = dev_buffers (w_dev (m_world m)) /\
      dev_num_buffers (w_dev (m_world m1))
        = dev_num_buffers (w_dev (m_world m))).
  { eexists; split; [reflexivity|].
    destruct (dev_streaming (w_dev (m_world m)) =? 0) eqn:Hs; cbn [negb].
    - cbn. rewrite app_nil_r. repeat split.
    - run_sys dsv4l2_stop_stream. rewrite Hs.
      destruct (sys_streamoff sys (w_kernel (m_world m))
                  (dev_fd (w_dev (m_world m))) V4L2_BUF_TYPE_VIDEO_CAPTURE)
        as [k1 [t|e]]; reduce_machine; repeat split. }
  destruct Hstop as (m1 & Hm1 & Hcalls1 & Hfd1 & Hbufs1 & Hnum1).
  unfold dsv4l2_close_device. cbn [is_null].
  unfold sbind at 1. unfold sget_dev at 1.
  unfold sbind at 1.
  destruct ((if negb (dev_streaming (w_dev (m_world m)) =? 0)
             then sbind (dsv4l2_stop_stream sys (Ptr a)) (fun _ => sret tt)
             else sret tt) m) as [u m1'] eqn:Hrun.
  cbn [snd] in Hm1. subst m1'.
  unfold sbind at 1. unfold sget_dev at 1.
  unfold sbind at 1.
  assert (Hunmap :
    exists m2,
      snd (match dev_buffers (w_dev (m_world m1)) with
           | [] => sret tt
           | b :: l =>
               unmap_buffers sys
                 (Z.to_nat (dev_num_buffers (w_dev (m_world m1)))) 0
                 (b :: l)
           end m1) = m2 /\
      m_calls m2 =
        m_calls m1 ++
        map (fun s => SYS_munmap (info_start s) (info_length s))
            (filter mapped (dev_buffers (w_dev (m_world m)))) /\
      dev_fd (w_dev (m_world m2)) = dev_fd (w_dev (m_world m))).
  { eexists; split; [reflexivity|].
    rewrite Hnum1, Hbufs1, <- Hlen, Nat2Z.id.
    destruct (dev_buffers (w_dev (m_world m))) as [|s rest] eqn:Hb.
    - cbn. rewrite app_nil_r. split; [reflexivity | exact Hfd1].
    - destruct (unmap_buffers_calls (s :: rest) [] m1) as [Hc Hd].
      cbv zeta in Hc, Hd. cbn [List.length app Z.of_nat] in Hc, Hd |- *.
      split; [exact Hc|]. rewrite Hd. exact Hfd1. }
  destruct Hunmap as (m2 & Hm2 & Hcalls2 & Hfd2).
  destruct (match dev_buffers (w_dev (m_world m1)) with
            | [] => sret tt
            | b :: l =>
                unmap_buffers sys
                  (Z.to_nat (dev_num_buffers (w_dev (m_world m1)))) 0
                  (b :: l)
            end m1) as [u' m2'] eqn:Hrun2.
  cbn [snd] in Hm2. subst m2'.
  rewrite Hfd1.
  destruct (dev_fd (w_dev (m_world m)) >=? 0); run_sys sys_do_;
    reduce_machine; rewrite ?Hcalls2, ?Hcalls1, <- ?app_assoc;
    rewrite ?app_nil_r; apply skipn_length_app.
Qed.

End LifecycleProperties.

(** ** The further properties on concrete inputs *)

Lemma capture_success_path_witness :
  dev_tempest_state (w_dev streaming_world) <> DSV4L2_TEMPEST_LOCKDOWN /\
  dev_streaming (w_dev streaming_world) <> 0 /\
  fst (dsv4l2_capture_frame (sim_driver sample_controls) (Ptr 4096) (Ptr 8192)
                            streaming_world)
    = (0, Some (mkFrame 0x7f0000000000 614400 12000500000 7)).
Proof.
  assert (H1 : dev_tempest_state (w_dev streaming_world)
               <> DSV4L2_TEMPEST_LOCKDOWN) by (simpl; discriminate).
  assert (H2 : dev_streaming (w_dev streaming_world) <> 0)
    by (simpl; discriminate).
  split; [exact H1|]. split; [exact H2|].
  rewrite (capture_success_path (sim_driver sample_controls) 4096 8192
             streaming_world tt tt _ _ H1 H2 eq_refl eq_refl).
  reflexivity.
Defined.

Lemma successful_capture_passed_the_gate_witness :
  capture_errnos_positive busy_driver /\
  capture_errnos_positive (sim_driver sample_controls) /\
  fst (fst (dsv4l2_capture_frame (sim_driver sample_controls) (Ptr 4096)
              (Ptr 8192) streaming_world)) = 0 /\
  dev_streaming (w_dev streaming_world) <> 0 /\
  snd (fst (dsv4l2_capture_frame (sim_driver sample_controls) (Ptr 4096)
              (Ptr 8192) streaming_world)) <> None.
Proof.
  assert (Hbusy : capture_errnos_positive busy_driver).
  { split; intros k fd b k' e H; cbn in H; inversion H.
    reflexivity. }
  assert (Hpos : capture_errnos_positive (sim_driver sample_controls)).
  { split; intros k fd b k' e H; cbn in H; discriminate H. }
  split; [exact Hbusy|]. split; [exact Hpos|]. split; [reflexivity|].
  destruct (successful_capture_passed_the_gate (sim_driver sample_controls)
              (Ptr 4096) (Ptr 8192) streaming_world Hpos eq_refl)
    as (_ & Hs & Hf & _).
  split; [exact Hs | exact Hf].
Defined.

Lemma capture_ioctl_failures_witness :
  dev_tempest_state (w_dev streaming_world) <> DSV4L2_TEMPEST_LOCKDOWN /\
  dev_streaming (w_dev streaming_world) <> 0 /\
  fst (dsv4l2_capture_frame busy_driver (Ptr 4096) (Ptr 8192) streaming_world)
    = (- EAGAIN, None) /\
  fst (dsv4l2_capture_frame stuck_driver (Ptr 4096) (Ptr 8192) streaming_world)
    = (- EIO, Some (mkFrame 0x7f0000100000 4096 2000030000 9)).
Proof.
  assert (H1 : dev_tempest_state (w_dev streaming_world)
               <> DSV4L2_TEMPEST_LOCKDOWN) by (simpl; discriminate).
  assert (H2 : dev_streaming (w_dev streaming_world) <> 0)
    by (simpl; discriminate).
  split; [exact H1|]. split; [exact H2|]. split.
  - rewrite (proj1 (capture_ioctl_failures busy_driver 4096 8192
                      streaming_world H1 H2) tt EAGAIN eq_refl).
    reflexivity.
  - rewrite (proj2 (capture_ioctl_failures stuck_driver 4096 8192
                      streaming_world H1 H2) tt _ tt EIO eq_refl eq_refl).
    reflexivity.
Defined.

Lemma capture_after_transition_witness :
  fst (dsv4l2_capture_frame (sim_driver sample_controls) (Ptr 4096) (Ptr 8192)
         (snd (dsv4l2_set_tempest_state (Ptr 4096) DSV4L2_TEMPEST_LOCKDOWN
                                        streaming_world)))
    = (- EACCES, None) /\
  firstn 2
    (w_events
       (snd (dsv4l2_capture_frame (sim_driver sample_controls) (Ptr 4096)
               (Ptr 8192)
               (snd (dsv4l2_set_tempest_state (Ptr 4096) DSV4L2_TEMPEST_HIGH
                                              streaming_lockdown_world)))))
    = [EV_tempest_transition 4096 DSV4L2_TEMPEST_LOCKDOWN DSV4L2_TEMPEST_HIGH;
       EV_policy_check 4096 "dsv4l2_capture_frame" 0].
Proof.
  split.
  - rewrite (proj1 (capture_after_transition (sim_driver sample_controls)
                      4096 8192 DSV4L2_TEMPEST_LOCKDOWN streaming_world)
                   eq_refl).
    reflexivity.
  - assert (H : DSV4L2_TEMPEST_HIGH <> DSV4L2_TEMPEST_LOCKDOWN)
      by discriminate.
    exact (proj2 (capture_after_transition (sim_driver sample_controls)
                    4096 8192 DSV4L2_TEMPEST_HIGH streaming_lockdown_world)
                 H).
Defined.

Lemma set_format_caches_negotiated_witness :
  fst (dsv4l2_set_format (sim_driver sample_controls) (Ptr 4096)
                         1448695129 640 480 sample_world) = 0 /\
  fst (dsv4l2_set_format busy_driver (Ptr 4096) 1448695129 640 480
                         sample_world) = 0 /\
  w_events (snd (dsv4l2_set_format (sim_driver sample_controls) (Ptr 4096)
                                   1448695129 640 480 sample_world))
    = [EV_format_change 4096 1448695129 640 480].
Proof.
  destruct (proj2 (proj2 (set_format_caches_negotiated
                            (sim_driver sample_controls) 4096 1448695129
                            640 480 sample_world))
              tt _ eq_refl) as (Hrc & Hev & _).
  split; [exact Hrc|]. split; [reflexivity | exact Hev].
Defined.

Lemma set_framerate_commits_on_success_witness :
  fst (dsv4l2_set_framerate (sim_driver sample_controls) (Ptr 4096) 30 1
                            sample_world) = 0 /\
  dev_current_parm
    (w_dev (snd (dsv4l2_set_framerate (sim_driver sample_controls) (Ptr 4096)
                                      30 1 sample_world)))
    = Some (set_timeperframe framerate_request 1 30).
Proof.
  destruct (proj2 (proj2 (proj2 (set_framerate_commits_on_success
                                   (sim_driver sample_controls) 4096 30 1
                                   sample_world)))
              tt _ tt _ eq_refl eq_refl) as (Hrc & _).
  split; [exact Hrc | reflexivity].
Defined.

Lemma sample_controls_enumerated :
  enumerates (sim_driver sample_controls) (dev_fd (w_dev sample_world))
             (w_kernel sample_world) first_query sample_controls.
Proof.
  repeat (eapply enumerates_next; [reflexivity|]).
  eapply enumerates_end; reflexivity.
Defined.

Lemma enum_controls_visits_enabled_witness :
  enumerates (sim_driver sample_controls) (dev_fd (w_dev sample_world))
             (w_kernel sample_world) first_query sample_controls /\
  (List.length sample_controls < 8)%nat /\
  fst (dsv4l2_enum_controls (sim_driver sample_controls) 8 (Ptr 4096)
         (Some (fun (q : v4l2_queryctrl) (n : Z) => (0, n + 1))) 0
         sample_world) = Some (0, 4) /\
  fst (dsv4l2_enum_controls (sim_driver sample_controls) 8 (Ptr 4096)
         (Some (fun (q : v4l2_queryctrl) (n : Z) =>
                  (b2z (qc_id q =? 0x00980913), n + 1))) 0
         sample_world) = Some (0, 2).
Proof.
  assert (Hlen : (List.length sample_controls < 8)%nat) by (simpl; lia).
  split; [exact sample_controls_enumerated|]. split; [exact Hlen|]. split.
  - exact (proj1 (proj2 (proj2 (enum_controls_visits_enabled
                                  (sim_driver sample_controls)
                                  (fun (q : v4l2_queryctrl) (n : Z) =>
                                     (0, n + 1))
                                  0 sample_controls 8 4096 sample_world
                                  sample_controls_enumerated Hlen)))).
  - exact (proj1 (proj2 (proj2 (enum_controls_visits_enabled
                                  (sim_driver sample_controls)
                                  (fun (q : v4l2_queryctrl) (n : Z) =>
                                     (b2z (qc_id q =? 0x00980913), n + 1))
                                  0 sample_controls 8 4096 sample_world
                                  sample_controls_enumerated Hlen)))).
Defined.

Lemma discover_only_reads_witness :
  enumerates (sim_driver sample_controls) (dev_fd (w_dev sample_world))
             (w_kernel sample_world) first_query sample_controls /\
  (List.length sample_controls < 8)%nat /\
  w_dev (snd (dsv4l2_discover_tempest_control (sim_driver sample_controls) 8
                (Ptr 4096) (Ptr 8192) sample_world)) = sample_device /\
  w_events (snd (dsv4l2_discover_tempest_control (sim_driver sample_controls)
                   8 (Ptr 4096) (Ptr 8192) sample_world)) = [].
Proof.
  assert (Hlen : (List.length sample_controls < 8)%nat) by (simpl; lia).
  split; [exact sample_controls_enumerated|]. split; [exact Hlen|].
  destruct (discover_only_reads (sim_driver sample_controls) sample_controls
              8 4096 8192 sample_world sample_controls_enumerated Hlen)
    as (Hd & He & _).
  split; [exact Hd | exact He].
Defined.

Lemma is_tempest_control_ignores_case_witness :
  str_map tolower "TEMPEST Mode" = str_map tolower "tempest MODE" /\
  is_tempest_control "TEMPEST Mode" = is_tempest_control "tempest MODE" /\
  is_tempest_control "TEMPEST Mode" = true.
Proof.
  split; [reflexivity|]. split; [|reflexivity].
  exact (proj1 (is_tempest_control_ignores_case "TEMPEST Mode" "tempest MODE")
               eq_refl).
Defined.

Lemma control_name_to_id_table_witness :
  In (mkNameMap "gain" V4L2_CID_GAIN) control_name_table /\
  dsv4l2_control_name_to_id (Some "gain") (Ptr 8192)
    = (0, Some V4L2_CID_GAIN) /\
  (forall id, ~ In (mkNameMap "Gain" id) control_name_table) /\
  dsv4l2_control_name_to_id (Some "Gain") (Ptr 8192) = (- ENOENT, None).
Proof.
  assert (Hin : In (mkNameMap "gain" V4L2_CID_GAIN) control_name_table).
  { do 4 right. left. reflexivity. }
  assert (Hout : forall id, ~ In (mkNameMap "Gain" id) control_name_table).
  { intros id H. cbn in H.
    repeat (destruct H as [H|H]; [discriminate H|]). exact H. }
  split; [exact Hin|].
  split; [exact (proj2 (proj1 (control_name_to_id_table 8192)
                          "gain" V4L2_CID_GAIN) Hin)|].
  split; [exact Hout|].
  exact (proj1 (proj2 (control_name_to_id_table 8192)) "Gain" Hout).
Defined.

Lemma fourcc_to_u32_packs_ascii_witness :
  is_ascii_fourcc "MJPG" = true /\
  String.length "YUV" <> 4%nat /\
  fourcc_to_u32 (Some "YUV") = 0 /\
  fourcc_to_u32 (Some "MJPG") = 77 + 74 * 2 ^ 8 + 80 * 2 ^ 16 + 71 * 2 ^ 24 /\
  fourcc_to_u32 (Some "MJPG") = 0x47504A4D /\
  fourcc_to_u32 (Some "MJPG") <> fourcc_to_u32 (Some "PJMG") /\
  0 <= fourcc_to_u32 (Some "YUYV") < 2 ^ 31.
Proof.
  assert (Hlen : String.length "YUV" <> 4%nat) by (simpl; discriminate).
  split; [reflexivity|]. split; [exact Hlen|].
  destruct fourcc_to_u32_packs_ascii as (_ & Hshort & Hlayout & Hrange & Hinj).
  split; [exact (Hshort "YUV" Hlen)|].
  split; [exact (Hlayout "M" "J" "P" "G" eq_refl)%char|].
  split; [reflexivity|].
  split; [|exact (Hrange "YUYV" eq_refl)].
  intro H. pose proof (Hinj "MJPG" "PJMG" eq_refl eq_refl H) as E.
  discriminate E.
Defined.

Lemma loaded_strings_fit_witness :
  env_fopen (sample_env camera_document) "camera.yaml" =
    FileOpened camera_document /\
  exists p,
    dsv4l2_profile_load_from_file (sample_env camera_document)
      (Some "camera.yaml") (Ptr 4096) = (0, Some p) /\
    (String.length (profile_role p) <= 31)%nat.
Proof.
  split; [reflexivity|]. eexists. split; [reflexivity|].
  exact (proj1 (proj2 (loaded_strings_fit (sample_env camera_document)
                         "camera.yaml" (Ptr 4096) camera_document _
                         eq_refl eq_refl))).
Defined.

Lemma loaded_presets_stay_empty_witness :
  env_fopen (sample_env camera_document) "camera.yaml" =
    FileOpened camera_document /\
  exists p,
    dsv4l2_profile_load_from_file (sample_env camera_document)
      (Some "camera.yaml") (Ptr 4096) = (0, Some p) /\
    num_controls p = 0.
Proof.
  split; [reflexivity|]. eexists. split; [reflexivity|].
  exact (proj1 (loaded_presets_stay_empty (sample_env camera_document)
                  "camera.yaml" (Ptr 4096) camera_document _
                  eq_refl eq_refl)).
Defined.

Lemma sample_pairs_keys :
  forall kv, In kv sample_pairs -> fst kv <> EmptyString.
Proof.
  intros kv H. cbn in H.
  repeat (destruct H as [H|H]; [subst kv; discriminate|]).
  destruct H.
Defined.

Lemma overflow_pairs_keys :
  forall kv, In kv overflow_pairs -> fst kv <> EmptyString.
Proof.
  intros kv H. cbn in H.
  repeat (destruct H as [H|H]; [subst kv; discriminate|]).
  destruct H.
Defined.

Lemma flat_document_fields_witness :
  serves (sample_env (flat_document sample_pairs)) "camera.yaml"
         (flat_document sample_pairs) /\
  (forall kv, In kv sample_pairs -> fst kv <> EmptyString) /\
  (exists p,
    dsv4l2_profile_load_from_file (sample_env (flat_document sample_pairs))
      (Some "camera.yaml") (Ptr 4096) = (0, Some p) /\
    profile_role p = "camera" /\
    fps_num p = 60 /\ fps_den p = 1 /\
    buffer_count p = 4 /\
    pixel_format p = 1448695129) /\
  (exists p,
    dsv4l2_profile_load_from_file (sample_env (flat_document overflow_pairs))
      (Some "camera.yaml") (Ptr 4096) = (0, Some p) /\
    buffer_count p = -1 /\ fps_num p = 1 /\ fps_den p = 1).
Proof.
  assert (Hs : serves (sample_env (flat_document sample_pairs)) "camera.yaml"
                      (flat_document sample_pairs))
    by (repeat split).
  assert (Ho : serves (sample_env (flat_document overflow_pairs))
                      "camera.yaml" (flat_document overflow_pairs))
    by (repeat split).
  split; [exact Hs|]. split; [exact sample_pairs_keys|]. split.
  - destruct (flat_document_fields (sample_env (flat_document sample_pairs))
                "camera.yaml" 4096 sample_pairs Hs sample_pairs_keys)
      as (p & Hload & Hfields).
    cbv zeta in Hfields.
    destruct Hfields
      as (_ & Hrole & _ & _ & _ & Hpix & Hnum & Hden & Hbc & _).
    exists p. split; [exact Hload|].
    split; [exact Hrole|]. split; [exact Hnum|]. split; [exact Hden|].
    split; [exact Hbc | exact Hpix].
  - destruct (flat_document_fields
                (sample_env (flat_document overflow_pairs))
                "camera.yaml" 4096 overflow_pairs Ho overflow_pairs_keys)
      as (p & Hload & Hfields).
    cbv zeta in Hfields.
    destruct Hfields as (_ & _ & _ & _ & _ & _ & Hnum & Hden & Hbc & _).
    exists p. split; [exact Hload|].
    split; [exact Hbc|]. split; [exact Hnum | exact Hden].
Defined.

Lemma unknown_keys_are_ignored_witness :
  In ("vendor", "acme") sample_pairs /\
  recognized ("vendor", "acme") = false /\
  dsv4l2_profile_load_from_file (sample_env (flat_document sample_pairs))
    (Some "camera.yaml") (Ptr 4096) =
  dsv4l2_profile_load_from_file
    (sample_env (flat_document (filter recognized sample_pairs)))
    (Some "camera.yaml") (Ptr 4096).
Proof.
  split; [right; right; left; reflexivity|]. split; [reflexivity|].
  apply (unknown_keys_are_ignored
           (sample_env (flat_document sample_pairs))
           (sample_env (flat_document (filter recognized sample_pairs)))
           "camera.yaml" 4096 sample_pairs).
  - repeat split.
  - repeat split.
  - exact sample_pairs_keys.
Defined.

Lemma load_from_file_outcomes_witness :
  serves (sample_env truncated_document) "camera.yaml" truncated_document /\
  dsv4l2_profile_load_from_file (sample_env truncated_document)
    (Some "camera.yaml") (Ptr 4096) = (- EINVAL, None) /\
  dsv4l2_profile_load_from_file
    (mkLoaderEnv (fun _ => FopenFailed ENOENT) true true)
    (Some "camera.yaml") (Ptr 4096) = (- ENOENT, None).
Proof.
  assert (Hs : serves (sample_env truncated_document) "camera.yaml"
                 (map YamlEvent
                    [YAML_STREAM_START_EVENT; YAML_DOCUMENT_START_EVENT;
                     YAML_MAPPING_START_EVENT; YAML_SCALAR_EVENT "role";
                     YAML_SCALAR_EVENT "camera"] ++ YamlError :: []))
    by (repeat split).
  destruct (load_from_file_outcomes (sample_env truncated_document)
              "camera.yaml" 4096) as (_ & _ & _ & _ & Herr & _).
  split; [exact Hs|].
  split; [exact (Herr _ _ Hs eq_refl)|].
  destruct (load_from_file_outcomes
              (mkLoaderEnv (fun _ => FopenFailed ENOENT) true true)
              "camera.yaml" 4096) as (_ & _ & Hopen & _).
  exact (Hopen ENOENT eq_refl).
Defined.


Lemma apply_of_loaded_profile_is_inert_witness :
  env_fopen (sample_env camera_document) "camera.yaml" =
    FileOpened camera_document /\
  exists p,
    dsv4l2_profile_load_from_file (sample_env camera_document)
      (Some "camera.yaml") (Ptr 4096) = (0, Some p) /\
    forallb parm_or_query
      (issued_since sample_world
         (snd (dsv4l2_profile_apply (sim_driver sample_controls) 8 (Ptr 4096)
                                    (Some p) sample_world))) = true.
Proof.
  split; [reflexivity|]. eexists. split; [reflexivity|].
  exact (apply_of_loaded_profile_is_inert (sim_driver sample_controls)
           (sample_env camera_document) "camera.yaml" (Ptr 4096)
           camera_document _ 8 (Ptr 4096) sample_world eq_refl eq_refl).
Defined.

Lemma profile_apply_return_codes_witness :
  format_specified format_profile = true /\
  fst (dsv4l2_profile_apply (sim_driver sample_controls) 8 (Ptr 4096)
         (Some format_profile) sample_world) = Some 0 /\
  fst (dsv4l2_profile_apply refusing_driver 8 (Ptr 4096)
         (Some format_profile) sample_world) = Some (- EBUSY) /\
  issued_since sample_world
    (snd (dsv4l2_profile_apply refusing_driver 8 (Ptr 4096)
            (Some format_profile) sample_world))
    = [VIDIOC_S_FMT 3 (format_request 1448695129 640 480)].
Proof.
  assert (Hsim : control_id (tempest_control format_profile) = 0 ->
                 auto_detect (tempest_control format_profile) <> 0 ->
                 forall k, exists ctrls,
                   enumerates (sim_driver sample_controls)
                     (dev_fd (w_dev sample_world)) k first_query ctrls /\
                   (List.length ctrls < 8)%nat).
  { intros _ _ []. exists sample_controls.
    split; [exact sample_controls_enumerated | simpl; lia]. }
  assert (Href : control_id (tempest_control format_profile) = 0 ->
                 auto_detect (tempest_control format_profile) <> 0 ->
                 forall k, exists ctrls,
                   enumerates refusing_driver
                     (dev_fd (w_dev sample_world)) k first_query ctrls /\
                   (List.length ctrls < 8)%nat).
  { intros _ _ k. exists []. split; [|simpl; lia].
    eapply enumerates_end. reflexivity. }
  split; [reflexivity|].
  destruct (profile_apply_return_codes (sim_driver sample_controls) 8 4096
              format_profile sample_world Hsim) as (_ & _ & _ & Hok & _).
  split; [exact (Hok tt _ eq_refl eq_refl)|].
  destruct (profile_apply_return_codes refusing_driver 8 4096
              format_profile sample_world Href) as (_ & _ & _ & _ & Herr).
  pose proof (Herr tt EBUSY eq_refl eq_refl) as Hrun.
  cbn [Z.eqb orb] in Hrun. change (EBUSY =? 0) with false in Hrun.
  change (EBUSY =? ENOSYS) with false in Hrun. cbn [orb] in Hrun.
  rewrite Hrun. split; reflexivity.
Defined.

Lemma auto_detect_resets_tempest_state_witness :
  format_specified auto_profile = false /\
  auto_detect (tempest_control auto_profile) <> 0 /\
  find candidate sample_controls
    = Some (mkQueryCtrl 0x009a0910 2 "Status LED" 0 1 1 1 0) /\
  dev_tempest_state (w_dev lockdown_world) = DSV4L2_TEMPEST_LOCKDOWN /\
  fst (dsv4l2_profile_apply (sim_driver sample_controls) 8 (Ptr 4096)
                            (Some auto_profile) lockdown_world) = Some 0 /\
  dev_tempest_state
    (w_dev (snd (dsv4l2_profile_apply (sim_driver sample_controls) 8
                   (Ptr 4096) (Some auto_profile) lockdown_world)))
    = DSV4L2_TEMPEST_DISABLED.
Proof.
  assert (Hauto : auto_detect (tempest_control auto_profile) <> 0)
    by (simpl; discriminate).
  assert (Hfps : fps_num auto_profile <= 0) by (simpl; lia).
  assert (Hnum : num_controls auto_profile <= 0) by (simpl; lia).
  assert (Hlen : (List.length sample_controls < 8)%nat) by (simpl; lia).
  split; [reflexivity|]. split; [exact Hauto|]. split; [reflexivity|].
  split; [reflexivity|].
  destruct (auto_detect_resets_tempest_state (sim_driver sample_controls)
              sample_controls 8 4096 auto_profile lockdown_world
              eq_refl Hfps Hnum eq_refl Hauto sample_controls_enumerated Hlen)
    as (Hrc & _ & Hfound & _).
  split; [exact Hrc|].
  rewrite (proj1 (Hfound _ eq_refl)). reflexivity.
Defined.

Lemma streaming_calls_without_effect_witness :
  dev_streaming (w_dev (m_world streaming_machine)) <> 0 /\
  dsv4l2_start_stream (sim_driver sample_controls) sim_system (Ptr 4096)
                      streaming_machine = (0, streaming_machine) /\
  dev_streaming (w_dev (m_world sample_machine)) = 0 /\
  dsv4l2_stop_stream sim_system (Ptr 4096) sample_machine
    = (0, sample_machine).
Proof.
  assert (H : dev_streaming (w_dev (m_world streaming_machine)) <> 0)
    by (simpl; discriminate).
  destruct (streaming_calls_without_effect (sim_driver sample_controls)
              sim_system 4096 streaming_machine)
    as (_ & _ & _ & Hstart & _).
  destruct (streaming_calls_without_effect (sim_driver sample_controls)
              sim_system 4096 sample_machine)
    as (_ & _ & _ & _ & Hstop & _).
  split; [exact H|]. split; [exact (Hstart H)|].
  split; [reflexivity | exact (Hstop eq_refl)].
Defined.

Lemma failed_start_is_not_retried_witness :
  fst (dsv4l2_start_stream (sim_driver sample_controls) broken_system
         (Ptr 4096) sample_machine) = - EINVAL /\
  dev_num_buffers
    (w_dev (m_world (snd (dsv4l2_start_stream (sim_driver sample_controls)
                            broken_system (Ptr 4096) sample_machine)))) = 4 /\
  calls_since
    (snd (dsv4l2_start_stream (sim_driver sample_controls) broken_system
            (Ptr 4096) sample_machine))
    (snd (dsv4l2_start_stream (sim_driver sample_controls) broken_system
            (Ptr 4096)
            (snd (dsv4l2_start_stream (sim_driver sample_controls)
                    broken_system (Ptr 4096) sample_machine))))
    = [SYS_VIDIOC_STREAMON 3 V4L2_BUF_TYPE_VIDEO_CAPTURE].
Proof.
  assert (Hcount : 0 < 4 < 2 ^ 31) by lia.
  assert (Hrc : fst (dsv4l2_start_stream (sim_driver sample_controls)
                       broken_system (Ptr 4096) sample_machine) <> 0)
    by (vm_compute; discriminate).
  destruct (failed_start_is_not_retried (sim_driver sample_controls)
              broken_system 4096 sample_machine tt tt
              (mkReqBufs 4 V4L2_BUF_TYPE_VIDEO_CAPTURE V4L2_MEMORY_MMAP)
              0x5000 eq_refl eq_refl eq_refl eq_refl Hcount)
    as (Hnum & _ & Hretry).
  split; [reflexivity|]. split; [exact Hnum|].
  exact (proj2 (Hretry Hrc)).
Defined.

Lemma close_device_releases_ring_witness :
  Z.of_nat (List.length (dev_buffers (w_dev (m_world streaming_machine))))
    = dev_num_buffers (w_dev (m_world streaming_machine)) /\
  calls_since streaming_machine
    (snd (dsv4l2_close_device sim_system (Ptr 4096) streaming_machine))
    = [SYS_VIDIOC_STREAMOFF 3 V4L2_BUF_TYPE_VIDEO_CAPTURE;
       SYS_munmap 0x7f0000000000 614400;
       SYS_munmap 0x7f0000100000 614400;
       SYS_close 3].
Proof.
  split; [reflexivity|].
  exact (close_device_releases_ring sim_system 4096 streaming_machine
           eq_refl).
Defined.
